(** * Process-Watcher: the collector, the formatter and the command line

    A shallow embedding of [src/process_collector.py],
    [src/output_formatter.py], [src/system_info.py] and [src/cli.py],
    the properties of the collection engine that the specification
    states about them, and further properties of the code around these.

    Layout:
    - exceptions, results and the string built-ins the code calls;
    - Python values, the state-and-exception monad the collector runs
      in, and the host interface ([subprocess], [/proc], [psutil],
      [json.loads]);
    - [ProcessInfo], [ProcessCollector], [OutputFormatter], then
      [sorted], [SystemInfo], the collector as an object and
      [ProcessMonitorCLI];
    - machines to run the model on;
    - the vocabulary of the properties and a small program logic;
    - the properties: the platform variants, the loop of the engine, the
      memory probe, the CSV formatter, a pass as a sequence of calls,
      and the statements C1 to C10 of the specification with their
      instances;
    - the further properties X1 to X30 with their instances.

    Conventions.  Every exception of the model is a subclass of Python's
    [Exception]; [KeyboardInterrupt] and [SystemExit], which no handler
    of the code catches, are outside the model.  [print] calls that
    report progress are not modelled: no property below is about them.
    The one [print] that writes the report is the host call
    [print_output]. *)

From Stdlib Require Import ZArith List String Ascii Bool Lia Sorted
  Permutation DecimalString.
Import ListNotations.
Open Scope string_scope.
Open Scope Z_scope.

Set Implicit Arguments.
Set Warnings "-register-all".

(** ** Exceptions and results *)

Inductive exn_class : Type :=
| PermissionError
| OSError
| KeyError
| IndexError
| ValueError
| TypeError
| AttributeError
| ZeroDivisionError
| OverflowError
| NoSuchProcess        (* psutil.NoSuchProcess, also its subclass ZombieProcess *)
| AccessDenied         (* psutil.AccessDenied *)
| TimeoutExpired       (* subprocess.TimeoutExpired *)
| JSONDecodeError
| OtherException.      (* any other subclass of Exception *)

(** An exception object: its class and the text [str(e)] gives. *)
Record exn : Type := mk_exn { exn_cls : exn_class; exn_str : string }.

Definition exn_class_eqb (a b : exn_class) : bool :=
  match a, b with
  | PermissionError, PermissionError | OSError, OSError
  | KeyError, KeyError | IndexError, IndexError | ValueError, ValueError
  | TypeError, TypeError | AttributeError, AttributeError
  | ZeroDivisionError, ZeroDivisionError | OverflowError, OverflowError
  | NoSuchProcess, NoSuchProcess | AccessDenied, AccessDenied
  | TimeoutExpired, TimeoutExpired | JSONDecodeError, JSONDecodeError
  | OtherException, OtherException => true
  | _, _ => false
  end.

Definition isinstance (e : exn) (c : exn_class) : bool := exn_class_eqb (exn_cls e) c.

Inductive result (A : Type) : Type :=
| Ok (a : A)
| Raise (e : exn).
Arguments Ok {A} a.
Arguments Raise {A} e.

Definition is_ok {A} (r : result A) : bool :=
  match r with Ok _ => true | Raise _ => false end.

(** ** String built-ins

    Strings are byte strings; the built-ins below follow CPython on ASCII
    text, which is what [ps], PowerShell and [/proc] print. *)

Module Str.

(** [str.isspace] on one ASCII character. *)
Definition is_space (c : ascii) : bool :=
  let n := nat_of_ascii c in
  (((9 <=? n) && (n <=? 13)) || ((28 <=? n) && (n <=? 32)))%nat.

Definition is_digit (c : ascii) : bool :=
  let n := nat_of_ascii c in ((48 <=? n) && (n <=? 57))%nat.

Definition digit_value (c : ascii) : Z := Z.of_nat (nat_of_ascii c) - 48.

Definition lower_char (c : ascii) : ascii :=
  let n := nat_of_ascii c in
  if ((65 <=? n) && (n <=? 90))%nat then ascii_of_nat (n + 32) else c.

(** [s.lower()] *)
Definition lower (s : string) : string :=
  string_of_list_ascii (map lower_char (list_ascii_of_string s)).

(** [sub in s] *)
Definition contains (sub s : string) : bool :=
  match String.index 0 sub s with Some _ => true | None => false end.

(** [s.startswith(p)] *)
Definition startswith (s p : string) : bool := String.prefix p s.

Fixpoint lstrip_chars (l : list ascii) : list ascii :=
  match l with
  | c :: r => if is_space c then lstrip_chars r else l
  | [] => []
  end.

(** [s.strip()] *)
Definition strip (s : string) : string :=
  string_of_list_ascii
    (rev (lstrip_chars (rev (lstrip_chars (list_ascii_of_string s))))).

Fixpoint split_chars (sep : ascii) (l cur : list ascii) : list string :=
  match l with
  | [] => [string_of_list_ascii (rev cur)]
  | c :: r =>
      if Ascii.eqb c sep
      then string_of_list_ascii (rev cur) :: split_chars sep r []
      else split_chars sep r (c :: cur)
  end.

(** [s.split(sep)] for a one-character separator. *)
Definition split (s : string) (sep : ascii) : list string :=
  split_chars sep (list_ascii_of_string s) [].

Fixpoint split1_chars (sep : ascii) (l cur : list ascii) : list string :=
  match l with
  | [] => [string_of_list_ascii (rev cur)]
  | c :: r =>
      if Ascii.eqb c sep
      then [string_of_list_ascii (rev cur); string_of_list_ascii r]
      else split1_chars sep r (c :: cur)
  end.

(** [s.split(sep, 1)] *)
Definition split1 (s : string) (sep : ascii) : list string :=
  split1_chars sep (list_ascii_of_string s) [].

(** Whitespace splitting, one pass.  [cur] is the token being read
    (reversed) and [k] the number of tokens that may still be cut off;
    when it is exhausted the rest of the text is the last field. *)
Fixpoint split_ws_chars (l : list ascii) (cur : option (list ascii)) (k : nat)
  : list string :=
  match l with
  | [] =>
      match cur with
      | Some t => [string_of_list_ascii (rev t)]
      | None => []
      end
  | c :: r =>
      match cur with
      | Some t =>
          if is_space c
          then string_of_list_ascii (rev t) :: split_ws_chars r None k
          else split_ws_chars r (Some (c :: t)) k
      | None =>
          if is_space c then split_ws_chars r None k
          else match k with
               | O => [string_of_list_ascii l]
               | S k' => split_ws_chars r (Some [c]) k'
               end
      end
  end.

(** [s.split()] *)
Definition split_ws (s : string) : list string :=
  let l := list_ascii_of_string s in split_ws_chars l None (S (List.length l)).

(** [s.split(maxsplit=n)] *)
Definition split_ws_max (s : string) (n : nat) : list string :=
  split_ws_chars (list_ascii_of_string s) None n.

(** [s.isdigit()] *)
Definition isdigit (s : string) : bool :=
  match list_ascii_of_string s with
  | [] => false
  | l => forallb is_digit l
  end.

(** Digits of an integer literal; one underscore may separate two digits. *)
Fixpoint digits (l : list ascii) (acc : Z) (after_digit : bool) : option Z :=
  match l with
  | [] => if after_digit then Some acc else None
  | c :: r =>
      if is_digit c then digits r (10 * acc + digit_value c) true
      else if Ascii.eqb c "_"%char && after_digit then digits r acc false
      else None
  end.

(** The blanks [int] skips before and after a literal: bytes 9 to 13 and
    the space, and no other.  Bytes 28 to 31, which [str.strip] and
    [str.split] take for blanks too, make [int] fail. *)
Definition is_blank (c : ascii) : bool :=
  let n := nat_of_ascii c in
  (((9 <=? n) && (n <=? 13)) || (n =? 32))%nat.

Fixpoint skip_blanks (l : list ascii) : list ascii :=
  match l with
  | c :: r => if is_blank c then skip_blanks r else l
  | [] => []
  end.

(** [int(s)]: [None] stands for [ValueError].  Integers are unbounded;
    the interpreter's cap on the number of digits of a literal (4300
    unless it is configured otherwise) is not part of the model. *)
Definition int (s : string) : option Z :=
  match rev (skip_blanks (rev (skip_blanks (list_ascii_of_string s)))) with
  | "-"%char :: r => option_map Z.opp (digits r 0 false)
  | "+"%char :: r => digits r 0 false
  | l => digits l 0 false
  end.

(** [str(n)] for an integer. *)
Definition of_Z (n : Z) : string := NilZero.string_of_int (Z.to_int n).

(** A hexadecimal digit, in lower case. *)
Definition hex_digit (n : nat) : ascii :=
  nth n (list_ascii_of_string "0123456789abcdef") "0"%char.

Definition backslash : ascii := "092"%char.
Definition single_quote : ascii := "039"%char.
Definition double_quote : ascii := "034"%char.

(** What [repr] writes for the character [c] of a text it puts between
    two [quote] characters. *)
Definition repr_char (quote c : ascii) : list ascii :=
  let n := nat_of_ascii c in
  if Ascii.eqb c quote || Ascii.eqb c backslash then [backslash; c]
  else if (n =? 9)%nat then [backslash; "t"%char]
  else if (n =? 10)%nat then [backslash; "n"%char]
  else if (n =? 13)%nat then [backslash; "r"%char]
  else if ((n <? 32) || (n =? 127))%nat
  then [backslash; "x"%char; hex_digit (Nat.div n 16); hex_digit (Nat.modulo n 16)]
  else [c].

(** [repr(s)] of an ASCII string: between single quotes, or between
    double quotes when the text has a single quote and no double quote;
    the quote character, the backslash and the control characters are
    escaped. *)
Definition repr (s : string) : string :=
  let l := list_ascii_of_string s in
  let quote :=
    if existsb (Ascii.eqb single_quote) l && negb (existsb (Ascii.eqb double_quote) l)
    then double_quote else single_quote in
  string_of_list_ascii (quote :: flat_map (repr_char quote) l ++ [quote]).

End Str.

(** The text ["\n"]. *)
Definition newline : string := String "010"%char EmptyString.

(** [sorted(l, reverse=True)] on integers. *)
Fixpoint insert_desc (x : Z) (l : list Z) : list Z :=
  match l with
  | [] => [x]
  | y :: r => if y <=? x then x :: l else y :: insert_desc x r
  end.

Definition sorted_reverse (l : list Z) : list Z := fold_right insert_desc [] l.

(** [l[:n]] for [n > 0]. *)
Definition slice_to (A : Type) (l : list A) (n : Z) : list A := firstn (Z.to_nat n) l.

(** ** Dictionaries *)

Fixpoint dict_get (A : Type) (d : list (string * A)) (k : string) : option A :=
  match d with
  | [] => None
  | (k', v) :: r => if String.eqb k' k then Some v else dict_get r k
  end.

(** [d[k] = v] *)
Fixpoint dict_set (A : Type) (d : list (string * A)) (k : string) (v : A)
  : list (string * A) :=
  match d with
  | [] => [(k, v)]
  | (k', v') :: r =>
      if String.eqb k' k then (k', v) :: r else (k', v') :: dict_set r k v
  end.

(** [d[k]] *)
Definition dict_getitem (A : Type) (d : list (string * A)) (k : string) : result A :=
  match dict_get d k with
  | Some v => Ok v
  | None => Raise (mk_exn KeyError (Str.repr k))
  end.

(** [d.keys()] *)
Definition dict_keys (A : Type) (d : list (string * A)) : list string := map fst d.

(** [l[i]] for [i >= 0] *)
Definition list_getitem (A : Type) (l : list A) (i : nat) : result A :=
  match nth_error l i with
  | Some v => Ok v
  | None => Raise (mk_exn IndexError "list index out of range")
  end.

(** ** Floating point and Python values

    Binary floating point is not interpreted: the operations the code
    applies to floats are the fields of [PyFloat], and every definition
    and theorem below holds for any implementation of them. *)

Class PyFloat : Type := {
  pyfloat : Type;
  float_zero : pyfloat;                          (* 0.0 *)
  float_one : pyfloat;                           (* 1.0 *)
  float_truth : pyfloat -> bool;                 (* bool(x) *)
  float_round2 : pyfloat -> pyfloat;             (* round(x, 2) *)
  float_str : pyfloat -> string;                 (* str(x) *)
  float_of_str : string -> option pyfloat;       (* float(s); None: ValueError *)
  float_to_int : pyfloat -> option Z;            (* int(x); None: nan or inf *)
  float_div_int : pyfloat -> Z -> pyfloat;       (* x / n, n <> 0 *)
  int_truediv : Z -> Z -> pyfloat                (* a / b on integers, b <> 0 *)
}.

Section Values.
Context {F : PyFloat}.

Inductive pyval : Type :=
| PNone
| PBool (b : bool)
| PInt (n : Z)
| PFloat (x : pyfloat)
| PStr (s : string)
| PList (l : list pyval)
| PDict (d : list (string * pyval)).

(** A [dict] with string keys, in insertion order. *)
Definition pydict : Type := list (string * pyval).

(** [bool(v)] *)
Definition truthy (v : pyval) : bool :=
  match v with
  | PNone => false
  | PBool b => b
  | PInt n => negb (n =? 0)
  | PFloat x => float_truth x
  | PStr s => negb (String.eqb s "")
  | PList l => match l with [] => false | _ => true end
  | PDict d => match d with [] => false | _ => true end
  end.

(** [repr(v)]; [str(v)] differs from it on strings only. *)
Fixpoint py_repr (v : pyval) : string :=
  match v with
  | PNone => "None"
  | PBool b => if b then "True" else "False"
  | PInt n => Str.of_Z n
  | PFloat x => float_str x
  | PStr s => Str.repr s
  | PList l => "[" ++ String.concat ", " (map py_repr l) ++ "]"
  | PDict d =>
      "{" ++ String.concat ", "
               (map (fun kv => match kv with
                               | (k, x) => Str.repr k ++ ": " ++ py_repr x
                               end) d) ++ "}"
  end.

Definition py_str (v : pyval) : string :=
  match v with
  | PStr s => s
  | _ => py_repr v
  end.

(** [type(v).__name__] *)
Definition type_name (v : pyval) : string :=
  match v with
  | PNone => "NoneType"
  | PBool _ => "bool"
  | PInt _ => "int"
  | PFloat _ => "float"
  | PStr _ => "str"
  | PList _ => "list"
  | PDict _ => "dict"
  end.

(** [round(v, 2)]: floats are rounded, integers and booleans are returned
    as integers, anything else has no [__round__]. *)
Definition py_round2 (v : pyval) : result pyval :=
  match v with
  | PFloat x => Ok (PFloat (float_round2 x))
  | PInt n => Ok (PInt n)
  | PBool b => Ok (PInt (if b then 1 else 0))
  | _ => Raise (mk_exn TypeError
                  ("type " ++ type_name v ++ " doesn't define __round__ method"))
  end.

(** [d.get(k)] on a [dict] *)
Definition pydict_get (d : pydict) (k : string) : pyval :=
  match dict_get d k with
  | Some x => x
  | None => PNone
  end.

(** [v.get(k)]: only a [dict] has the method. *)
Definition py_get (v : pyval) (k : string) : result pyval :=
  match v with
  | PDict d => Ok (pydict_get d k)
  | _ => Raise (mk_exn AttributeError
                  ("'" ++ type_name v ++ "' object has no attribute 'get'"))
  end.

(** [int(s)] and [float(s)] on a string; the message of [int] shows the
    first 200 characters of [repr(s)]. *)
Definition py_int (s : string) : result Z :=
  match Str.int s with
  | Some n => Ok n
  | None => Raise (mk_exn ValueError
                     ("invalid literal for int() with base 10: "
                      ++ String.substring 0 200 (Str.repr s)))
  end.

Definition py_float (s : string) : result pyfloat :=
  match float_of_str s with
  | Some x => Ok x
  | None => Raise (mk_exn ValueError
                     ("could not convert string to float: " ++ Str.repr s))
  end.

(** [int(x)] on a float *)
Definition py_int_of_float (x : pyfloat) : result Z :=
  match float_to_int x with
  | Some n => Ok n
  | None => Raise (mk_exn OverflowError "cannot convert float to integer")
  end.

End Values.

(** ** The state-and-exception monad

    A computation takes the state, returns a value or raises, and leaves
    a new state.  What was done to the state before an exception stays
    done, as in Python. *)

Definition St (S A : Type) : Type := S -> result A * S.

Definition ret (S A : Type) (a : A) : St S A := fun s => (Ok a, s).
Arguments ret {S A} a.

Definition raise (S A : Type) (e : exn) : St S A := fun s => (Raise e, s).
Arguments raise {S A} e.

Definition bind (S A B : Type) (m : St S A) (k : A -> St S B) : St S B :=
  fun s =>
    match m s with
    | (Ok a, s') => k a s'
    | (Raise e, s') => (Raise e, s')
    end.

(** [try: m  except Exception as e: h e] *)
Definition try_except (S A : Type) (m : St S A) (h : exn -> St S A) : St S A :=
  fun s =>
    match m s with
    | (Ok a, s') => (Ok a, s')
    | (Raise e, s') => h e s'
    end.

(** A pure step that may raise. *)
Definition lift_result (S A : Type) (r : result A) : St S A := fun s => (r, s).
Arguments lift_result {S A} r.

Declare Scope py_scope.
Delimit Scope py_scope with py.
Notation "x <- m ;; k" := (bind m (fun x => k))
  (at level 61, m at next level, right associativity) : py_scope.
Notation "m ;;; k" := (bind m (fun _ => k))
  (at level 61, right associativity) : py_scope.
Open Scope py_scope.

(** ** The host

    What the collector asks of the operating system and of its libraries.
    [W] is the state of the machine; every call may change it and may
    raise. *)

(** [subprocess.CompletedProcess] *)
Record Completed : Type := mk_completed { returncode : Z; stdout : string }.

Class Host {F : PyFloat} (W : Type) : Type := {
  sys_platform : string;
  (* subprocess.run(['sysctl', 'hw.memsize'], ...) *)
  run_sysctl_memsize : St W Completed;
  (* the lines of /proc/meminfo *)
  read_meminfo : St W (list string);
  (* subprocess.run(['powershell', ... TotalPhysicalMemory /1GB]) *)
  run_powershell_memory : St W Completed;
  (* subprocess.run(['ps', '-axo', 'pid'], ...) *)
  run_ps_axo_pid : St W Completed;
  (* the entry names of Path('/proc').iterdir() *)
  proc_iterdir : St W (list string);
  (* Path('/proc/<name>').is_dir() *)
  proc_is_dir : string -> St W bool;
  (* subprocess.run(['powershell', ... 'Get-Process | Select-Object -ExpandProperty Id']) *)
  run_powershell_pids : St W Completed;
  (* Path('/proc/<pid>/status').exists() *)
  status_file_exists : Z -> St W bool;
  (* the lines of /proc/<pid>/status *)
  read_status_file : Z -> St W (list string);
  (* psutil.Process(pid) and the methods called on it *)
  psutil_Process : Z -> St W unit;
  psutil_username : Z -> St W string;
  psutil_is_running : Z -> St W bool;
  psutil_cpu_percent : Z -> pyfloat -> St W pyfloat;
  psutil_cpu_affinity : Z -> St W (list Z);
  psutil_memory_rss : Z -> St W Z;
  (* subprocess.run(['ps', '-p', str(pid), '-o', 'pid,user,%cpu,%mem,stat'], timeout=5) *)
  run_ps_pid : Z -> St W Completed;
  (* subprocess.run('powershell -Command "Get-Process -Id <pid> | ... | ConvertTo-Json"', timeout=5) *)
  run_powershell_pid : Z -> St W Completed;
  (* json.loads *)
  json_loads : string -> result pyval
}.

(** ** Local variables next to the machine state

    A function body that updates an object or its counters step by step
    runs on the pair of that local state and the machine state. *)

Definition liftW (L W A : Type) (m : St W A) : St (L * W) A :=
  fun s =>
    match m (snd s) with
    | (r, w') => (r, (fst s, w'))
    end.

Definition get_local (L W : Type) : St (L * W) L := fun s => (Ok (fst s), s).
Arguments get_local {L W}.

Definition modify (L W : Type) (f : L -> L) : St (L * W) unit :=
  fun s => (Ok tt, (f (fst s), snd s)).
Arguments modify {L W} f.
Arguments liftW {L W A} m.

(** [for x in l: body x] *)
Fixpoint for_each (S A : Type) (l : list A) (body : A -> St S unit) : St S unit :=
  match l with
  | [] => ret tt
  | x :: r => body x ;;; for_each r body
  end.

(** [try: m  except (classes): h e]: other exceptions go on. *)
Definition try_except_of (S A : Type) (handles : exn -> bool)
  (m : St S A) (h : exn -> St S A) : St S A :=
  try_except m (fun e => if handles e then h e else raise e).

(** ** class ProcessInfo *)

Module ProcessInfo.
Section Defs.
Context {F : PyFloat}.

Record t : Type := mk {
  pid : Z;
  name : pyval;
  user : pyval;
  cpu_percent : pyval;
  memory_megabyte : pyval;
  status : pyval;
  accessible : bool;
  error : option string
}.

Definition __init__ (pid : Z) : t :=
  mk pid PNone PNone (PFloat float_zero) (PFloat float_zero) PNone true None.

Definition set_pid (v : Z) (p : t) : t :=
  mk v (name p) (user p) (cpu_percent p) (memory_megabyte p) (status p) (accessible p) (error p).
Definition set_name (v : pyval) (p : t) : t :=
  mk (pid p) v (user p) (cpu_percent p) (memory_megabyte p) (status p) (accessible p) (error p).
Definition set_user (v : pyval) (p : t) : t :=
  mk (pid p) (name p) v (cpu_percent p) (memory_megabyte p) (status p) (accessible p) (error p).
Definition set_cpu_percent (v : pyval) (p : t) : t :=
  mk (pid p) (name p) (user p) v (memory_megabyte p) (status p) (accessible p) (error p).
Definition set_memory_megabyte (v : pyval) (p : t) : t :=
  mk (pid p) (name p) (user p) (cpu_percent p) v (status p) (accessible p) (error p).
Definition set_status (v : pyval) (p : t) : t :=
  mk (pid p) (name p) (user p) (cpu_percent p) (memory_megabyte p) v (accessible p) (error p).
Definition set_accessible (v : bool) (p : t) : t :=
  mk (pid p) (name p) (user p) (cpu_percent p) (memory_megabyte p) (status p) v (error p).
Definition set_error (v : string) (p : t) : t :=
  mk (pid p) (name p) (user p) (cpu_percent p) (memory_megabyte p) (status p) (accessible p) (Some v).

(** [round(x, 2) if x is not None else 0.0] *)
Definition rounded (x : pyval) : result pyval :=
  match x with
  | PNone => Ok (PFloat float_zero)
  | _ => py_round2 x
  end.

Definition error_value (e : option string) : pyval :=
  match e with
  | None => PNone
  | Some s => PStr s
  end.

Definition to_dict (self : t) : result pydict :=
  match rounded (cpu_percent self) with
  | Raise e => Raise e
  | Ok cpu =>
      match rounded (memory_megabyte self) with
      | Raise e => Raise e
      | Ok mem =>
          Ok [("pid", PInt (pid self));
              ("name", name self);
              ("user", user self);
              ("cpu_percent", cpu);
              ("memory_megabyte", mem);
              ("status", status self);
              ("accessible", PBool (accessible self));
              ("error", error_value (error self))]
      end
  end.

End Defs.
End ProcessInfo.

(** ** class ProcessCollector *)

(** What [get_process_info] hands back: a [ProcessInfo] object, the
    [dict] made by [to_dict], or [None] when no branch returns. *)
Inductive proc_ret {F : PyFloat} : Type :=
| RetInfo (p : ProcessInfo.t)
| RetDict (d : pydict)
| RetNone.

(** The variables of the loop of [collect_processes].  [probed] is a
    history variable: the PIDs [get_process_info] was called on, in call
    order.  The source has no such variable; nothing reads it. *)
Record LoopState {F : PyFloat} : Type := mk_loop {
  processes : list proc_ret;
  denied_processes : list pydict;
  accessible_count : Z;
  denied_count : Z;
  probed : list Z
}.

Module ProcessCollector.
Section Defs.
Context {F : PyFloat} {W : Type} {H : Host W}.

(** [self.os = sys.platform] *)
Definition os : string := sys_platform.

(** The [for line in f] loop of [_get_total_memory]. *)
Fixpoint meminfo_scan (lines : list string) : result (option Z) :=
  match lines with
  | [] => Ok None
  | line :: rest =>
      if Str.startswith line "MemTotal:" then
        match list_getitem (Str.split_ws line) 1 with
        | Raise e => Raise e
        | Ok field =>
            match py_int field with
            | Raise e => Raise e
            | Ok n => Ok (Some (n * 1024))
            end
        end
      else meminfo_scan rest
  end.

(** The [try] block of [_get_total_memory].  The result is [Some n] for
    an integer and [None] for Python's [None], which is what a path that
    reaches the end of the function returns. *)
Definition total_memory_try : St W (option Z) :=
  if Str.contains "darwin" (Str.lower os) then
    result <- run_sysctl_memsize ;;
    if returncode result =? 0 then
      field <- lift_result (list_getitem (Str.split (stdout result) ":") 1) ;;
      n <- lift_result (py_int (Str.strip field)) ;;
      ret (Some n)
    else ret None
  else if Str.contains "linux" (Str.lower os) then
    lines <- read_meminfo ;;
    lift_result (meminfo_scan lines)
  else if Str.contains "win" (Str.lower os) then
    try_except
      (total_memory <- run_powershell_memory ;;
       x <- lift_result (py_float (Str.strip (stdout total_memory))) ;;
       n <- lift_result (py_int_of_float x) ;;
       ret (Some n))
      (fun _ => ret None)
  else ret (Some 0).

Definition _get_total_memory : St W (option Z) :=
  try_except total_memory_try (fun _ => ret (Some (8 * 1024 * 1024 * 1024))).

Definition pids_append (n : Z) : St (list Z * W) unit :=
  modify (fun pids => (pids ++ [n])%list).

Definition is_ValueError (e : exn) : bool := isinstance e ValueError.

Definition is_ValueError_or_IndexError (e : exn) : bool :=
  isinstance e ValueError || isinstance e IndexError.

(** The [try] block of [_get_pid_list]; the list [pids] is the local state. *)
Definition pid_list_try : St (list Z * W) unit :=
  if String.eqb os "darwin" then
    pid_list <- liftW run_ps_axo_pid ;;
    if returncode pid_list =? 0 then
      for_each (skipn 1 (Str.split (Str.strip (stdout pid_list)) "010"))
        (fun pid =>
           try_except_of is_ValueError
             (n <- lift_result (py_int (Str.strip pid)) ;; pids_append n)
             (fun _ => ret tt))
    else ret tt
  else if Str.startswith os "linux" then
    entries <- liftW proc_iterdir ;;
    for_each entries
      (fun process =>
         d <- liftW (proc_is_dir process) ;;
         if d && Str.isdigit process then
           n <- lift_result (py_int process) ;; pids_append n
         else ret tt)
  else if Str.contains "win" os then
    pid_list <- liftW run_powershell_pids ;;
    if returncode pid_list =? 0 then
      for_each (skipn 3 (Str.split (Str.strip (stdout pid_list)) "010"))
        (fun pid =>
           try_except_of is_ValueError_or_IndexError
             (field <- lift_result (list_getitem (Str.split_ws pid) 0) ;;
              n <- lift_result (py_int field) ;;
              pids_append n)
             (fun _ => ret tt))
    else ret tt
  else ret tt.

Definition _get_pid_list : St W (list Z) :=
  fun w =>
    match try_except pid_list_try (fun _ => ret tt) ([], w) with
    | (_, (pids, w')) => (Ok (sorted_reverse pids), w')
    end.

(** The [for line in f] loop of [_read_proc_status]. *)
Fixpoint status_scan (lines : list string) (status_info : list (string * string))
  : result (list (string * string)) :=
  match lines with
  | [] => Ok status_info
  | line :: rest =>
      if Str.contains ":" line then
        match Str.split1 line ":" with
        | [key; value] =>
            status_scan rest (dict_set status_info (Str.strip key) (Str.strip value))
        | _ => Raise (mk_exn ValueError "not enough values to unpack (expected 2, got 1)")
        end
      else status_scan rest status_info
  end.

Definition _read_proc_status (pid : Z) : St W (option (list (string * string))) :=
  try_except
    (present <- status_file_exists pid ;;
     if negb present then ret None
     else
       lines <- read_status_file pid ;;
       status_info <- lift_result (status_scan lines []) ;;
       ret (Some status_info))
    (fun _ => ret None).

Definition is_lookup_error (e : exn) : bool :=
  isinstance e NoSuchProcess || isinstance e AccessDenied.

Definition _get_cpu_usage (pid : Z) (interval : pyfloat) : St W pyfloat :=
  try_except_of is_lookup_error
    (psutil_Process pid ;;;
     running <- psutil_is_running pid ;;
     if running then
       percent <- psutil_cpu_percent pid interval ;;
       psutil_Process pid ;;;
       affinity <- psutil_cpu_affinity pid ;;
       match affinity with
       | [] => raise (mk_exn ZeroDivisionError "float division by zero")
       | _ => ret (float_div_int percent (Z.of_nat (List.length affinity)))
       end
     else ret float_zero)
    (fun _ => ret float_zero).

(** [not stat_data] *)
Definition stat_data_missing (stat_data : option (list (string * string))) : bool :=
  match stat_data with
  | None => true
  | Some [] => true
  | Some _ => false
  end.

Definition deny (msg : string) : St (ProcessInfo.t * W) unit :=
  modify (ProcessInfo.set_accessible false) ;;;
  modify (ProcessInfo.set_error msg).

(** The [try] block of [_get_process_info_linux]; [Some r] is its
    [return process], [None] its normal end. *)
Definition linux_try (pid : Z) : St (ProcessInfo.t * W) (option proc_ret) :=
  stat_data <- liftW (_read_proc_status pid) ;;
  if stat_data_missing stat_data then
    deny "Cannot read /proc/pid/stat" ;;;
    process <- get_local ;;
    ret (Some (RetInfo process))
  else
    let stat_data := match stat_data with Some d => d | None => [] end in
    name <- lift_result (dict_getitem stat_data "Name") ;;
    modify (ProcessInfo.set_name (PStr name)) ;;;
    state <- lift_result (dict_getitem stat_data "State") ;;
    modify (ProcessInfo.set_status (PStr state)) ;;;
    liftW (psutil_Process pid) ;;;
    user <- liftW (psutil_username pid) ;;
    modify (ProcessInfo.set_user (PStr user)) ;;;
    cpu <- liftW (_get_cpu_usage pid float_one) ;;
    modify (ProcessInfo.set_cpu_percent (PFloat cpu)) ;;;
    liftW (psutil_Process pid) ;;;
    rss <- liftW (psutil_memory_rss pid) ;;
    modify (ProcessInfo.set_memory_megabyte (PFloat (int_truediv rss (1024 * 1024)))) ;;;
    ret None.

Definition return_to_dict (process : ProcessInfo.t) : result proc_ret :=
  match ProcessInfo.to_dict process with
  | Ok d => Ok (RetDict d)
  | Raise e => Raise e
  end.

Definition _get_process_info_linux (pid : Z) : St W proc_ret :=
  fun w =>
    match
      try_except (linux_try pid)
        (fun e =>
           (if isinstance e PermissionError
            then deny "Permission denied"
            else deny (exn_str e)) ;;;
           ret None)
        (ProcessInfo.__init__ pid, w)
    with
    | (Ok (Some r), (_, w')) => (Ok r, w')
    | (Ok None, (process, w')) => (return_to_dict process, w')
    | (Raise e, (_, w')) => (Raise e, w')
    end.

(** The [try] block of [_get_process_info_macos]. *)
Definition macos_try (pid : Z) : St (ProcessInfo.t * W) (option proc_ret) :=
  result <- liftW (run_ps_pid pid) ;;
  if negb (returncode result =? 0) || String.eqb (Str.strip (stdout result)) "" then
    deny "Process not found or permission denied" ;;;
    proc_info <- get_local ;;
    ret (Some (RetInfo proc_info))
  else
    let lines := Str.split (Str.strip (stdout result)) "010" in
    if (List.length lines <? 2)%nat then
      deny "Invalid ps output" ;;;
      proc_info <- get_local ;;
      ret (Some (RetInfo proc_info))
    else
      line1 <- lift_result (list_getitem lines 1) ;;
      let data_line := Str.strip line1 in
      let fields := Str.split_ws_max data_line 6 in
      if (List.length fields <? 5)%nat then
        deny "Invalid ps output format" ;;;
        proc_info <- get_local ;;
        ret (Some (RetInfo proc_info))
      else
        f0 <- lift_result (list_getitem fields 0) ;;
        n <- lift_result (py_int f0) ;;
        modify (ProcessInfo.set_pid n) ;;;
        f1 <- lift_result (list_getitem fields 1) ;;
        modify (ProcessInfo.set_user (PStr f1)) ;;;
        f2 <- lift_result (list_getitem fields 2) ;;
        cpu <- lift_result (py_float f2) ;;
        modify (ProcessInfo.set_cpu_percent (PFloat cpu)) ;;;
        f3 <- lift_result (list_getitem fields 3) ;;
        mem <- lift_result (py_float f3) ;;
        modify (ProcessInfo.set_memory_megabyte (PFloat mem)) ;;;
        f4 <- lift_result (list_getitem fields 4) ;;
        modify (ProcessInfo.set_status (PStr f4)) ;;;
        (* proc_info.command: the class has no such attribute *)
        raise (mk_exn AttributeError "'ProcessInfo' object has no attribute 'command'").

Definition _get_process_info_macos (pid : Z) : St W proc_ret :=
  fun w =>
    match
      try_except (macos_try pid)
        (fun e => deny ("Unexpected error: " ++ exn_str e) ;;; ret None)
        (ProcessInfo.__init__ pid, w)
    with
    | (Ok (Some r), (_, w')) => (Ok r, w')
    | (Ok None, (proc_info, w')) => (Ok (RetInfo proc_info), w')
    | (Raise e, (_, w')) => (Raise e, w')
    end.

(** The [try] block of [_get_process_info_windows]. *)
Definition windows_try (pid : Z) : St (ProcessInfo.t * W) unit :=
  proc_data <- liftW (run_powershell_pid pid) ;;
  (if (returncode proc_data =? 0) && negb (String.eqb (Str.strip (stdout proc_data)) "") then
     proc_json <- lift_result (json_loads (Str.strip (stdout proc_data))) ;;
     modify (ProcessInfo.set_accessible true) ;;;
     name <- lift_result (py_get proc_json "Name") ;;
     modify (ProcessInfo.set_name name) ;;;
     user <- lift_result (py_get proc_json "User") ;;
     modify (ProcessInfo.set_user user) ;;;
     modify (ProcessInfo.set_status (PStr "Running")) ;;;
     cpu <- liftW (_get_cpu_usage pid float_one) ;;
     modify (ProcessInfo.set_cpu_percent (PFloat cpu)) ;;;
     mem <- lift_result (py_get proc_json "Memory (MB)") ;;
     modify (ProcessInfo.set_memory_megabyte mem)
   else ret tt) ;;;
  process <- get_local ;;
  if negb (truthy (ProcessInfo.name process)) then
    deny "Unable to retrieve process information"
  else ret tt.

Definition _get_process_info_windows (pid : Z) : St W proc_ret :=
  fun w =>
    match
      try_except (windows_try pid) (fun e => deny (exn_str e))
        (ProcessInfo.__init__ pid, w)
    with
    | (Ok _, (process, w')) => (return_to_dict process, w')
    | (Raise e, (_, w')) => (Raise e, w')
    end.

Definition get_process_info (pid : Z) : St W proc_ret :=
  if Str.startswith os "linux" then _get_process_info_linux pid
  else if String.eqb os "darwin" then _get_process_info_macos pid
  else if Str.contains "win" os then _get_process_info_windows pid
  else ret RetNone.

(** [proc_info.get(k)] on what [get_process_info] returned. *)
Definition ret_get (proc_info : proc_ret) (k : string) : result pyval :=
  match proc_info with
  | RetDict d => py_get (PDict d) k
  | RetInfo _ =>
      Raise (mk_exn AttributeError "'ProcessInfo' object has no attribute 'get'")
  | RetNone => py_get PNone k
  end.

(** [f"pid_{pid}"] *)
Definition pid_placeholder (pid : Z) : string := "pid_" ++ Str.of_Z pid.

Definition add_process (proc_info : proc_ret) (st : LoopState) : LoopState :=
  mk_loop (processes st ++ [proc_info])%list (denied_processes st)
          (accessible_count st + 1) (denied_count st) (probed st).

Definition add_denied_count (st : LoopState) : LoopState :=
  mk_loop (processes st) (denied_processes st)
          (accessible_count st) (denied_count st + 1) (probed st).

Definition add_denied_detail (d : pydict) (st : LoopState) : LoopState :=
  mk_loop (processes st) (denied_processes st ++ [d])%list
          (accessible_count st) (denied_count st) (probed st).

Definition log_probe (pid : Z) (st : LoopState) : LoopState :=
  mk_loop (processes st) (denied_processes st)
          (accessible_count st) (denied_count st) (probed st ++ [pid])%list.

(** The [try] block in the loop of [collect_processes]. *)
Definition classify_try (include_denied_details : bool) (pid : Z)
  : St (LoopState * W) unit :=
  modify (log_probe pid) ;;;
  proc_info <- liftW (get_process_info pid) ;;
  acc <- lift_result (ret_get proc_info "accessible") ;;
  if truthy acc then
    modify (add_process proc_info)
  else
    modify add_denied_count ;;;
    if include_denied_details then
      err <- lift_result (ret_get proc_info "error") ;;
      name <- lift_result (ret_get proc_info "name") ;;
      name' <- lift_result (ret_get proc_info "name") ;;
      modify (add_denied_detail
                [("pid", PInt pid);
                 ("error", err);
                 ("name", if truthy name then name' else PStr (pid_placeholder pid))])
    else ret tt.

(** One turn of the loop: the [try] block and its [except Exception]. *)
Definition classify (include_denied_details : bool) (pid : Z)
  : St (LoopState * W) unit :=
  try_except (classify_try include_denied_details pid)
    (fun e =>
       modify add_denied_count ;;;
       if include_denied_details then
         modify (add_denied_detail
                   [("pid", PInt pid);
                    ("error", PStr (exn_str e));
                    ("name", PStr (pid_placeholder pid))])
       else ret tt).

(** The outcome of a pass: the two values [collect_processes] returns
    and the final loop variables. *)
Record Pass : Type := mk_pass {
  pass_processes : list proc_ret;
  pass_access_info : pydict;
  pass_loop : LoopState
}.

Definition collect_pass (include_denied_details : bool) (max_processes : Z)
  : St W Pass :=
  pids <- _get_pid_list ;;
  let pids := if max_processes >? 0 then slice_to pids max_processes else pids in
  fun w =>
    match for_each pids (classify include_denied_details)
            (mk_loop [] [] 0 0 [], w) with
    | (Raise e, (_, w')) => (Raise e, w')
    | (Ok _, (st, w')) =>
        let access_info :=
          [("total_found_process", PInt (Z.of_nat (List.length pids)));
           ("accessible_processes", PInt (accessible_count st));
           ("permission_denied", PInt (denied_count st))] in
        let access_info :=
          if include_denied_details && truthy (PList (map PDict (denied_processes st)))
          then dict_set access_info "denied_details"
                 (PList (map PDict (denied_processes st)))
          else access_info in
        (Ok (mk_pass (processes st) access_info st), w')
    end.

(** [verbose] only switches progress messages on. *)
Definition collect_processes (verbose include_denied_details : bool)
  (max_processes : Z) : St W (list proc_ret * pydict) :=
  pass <- collect_pass include_denied_details max_processes ;;
  ret (pass_processes pass, pass_access_info pass).

End Defs.
End ProcessCollector.

(** ** class OutputFormatter *)

(** The options of [args] the formatter reads. *)
Record Namespace : Type := mk_args {
  advanced : bool;
  include_system_info : bool;
  show_denied : bool
}.

Module OutputFormatter.
Section Defs.
Context {F : PyFloat}.

(** A JSON document, held as the value it encodes: [json.loads] gives
    back the value [json.dumps] was given, for every value of [pyval]. *)
Record json_text : Type := json_dumps { json_loads_text : pyval }.

(** [for x in v] *)
Definition py_iter (v : pyval) : result (list pyval) :=
  match v with
  | PList l => Ok l
  | PStr s => Ok (map (fun c => PStr (String c "")) (list_ascii_of_string s))
  | PDict d => Ok (map (fun kv => PStr (fst kv)) d)
  | _ => Raise (mk_exn TypeError ("'" ++ type_name v ++ "' object is not iterable"))
  end.

(** [v[k]] for a string [k] *)
Definition py_subscript (v : pyval) (k : string) : result pyval :=
  match v with
  | PDict d =>
      match dict_get d k with
      | Some x => Ok x
      | None => Raise (mk_exn KeyError (Str.repr k))
      end
  | PStr _ => Raise (mk_exn TypeError "string indices must be integers, not 'str'")
  | PList _ => Raise (mk_exn TypeError "list indices must be integers or slices, not str")
  | _ => Raise (mk_exn TypeError ("'" ++ type_name v ++ "' object is not subscriptable"))
  end.

(** [v[0]] *)
Definition py_first (v : pyval) : result pyval :=
  match v with
  | PList (x :: _) => Ok x
  | PList [] => Raise (mk_exn IndexError "list index out of range")
  | PStr (String c _) => Ok (PStr (String c ""))
  | PStr EmptyString => Raise (mk_exn IndexError "string index out of range")
  | PDict _ => Raise (mk_exn KeyError "0")
  | _ => Raise (mk_exn TypeError ("'" ++ type_name v ++ "' object is not subscriptable"))
  end.

(** [v.keys()] *)
Definition py_keys (v : pyval) : result (list string) :=
  match v with
  | PDict d => Ok (dict_keys d)
  | _ => Raise (mk_exn AttributeError
                  ("'" ++ type_name v ++ "' object has no attribute 'keys'"))
  end.

(** The five-field summary of one process. *)
Definition summary (process : pyval) : result pyval :=
  match py_subscript process "pid" with
  | Raise e => Raise e
  | Ok pid =>
  match py_subscript process "name" with
  | Raise e => Raise e
  | Ok name =>
  match py_subscript process "user" with
  | Raise e => Raise e
  | Ok user =>
  match py_subscript process "cpu_percent" with
  | Raise e => Raise e
  | Ok cpu =>
  match py_subscript process "memory_megabyte" with
  | Raise e => Raise e
  | Ok mem =>
      Ok (PDict [("pid", pid); ("name", name); ("user", user);
                 ("cpu_percent", cpu); ("memory_megabyte", mem)])
  end end end end end.

(** The loop of [to_json] that fills [return_json['processes']]. *)
Fixpoint summaries (l : list pyval) (acc : list pyval) : result (list pyval) :=
  match l with
  | [] => Ok acc
  | process :: rest =>
      match summary process with
      | Raise e => Raise e
      | Ok d => summaries rest (acc ++ [d])%list
      end
  end.

Definition no_system_info : pyval :=
  PDict [("system_info",
          PStr "No system information was collected. Please reach to the developer.")].

Definition to_json (data : pydict) (args : option Namespace) : result json_text :=
  match args with
  | None => Raise (mk_exn AttributeError "'NoneType' object has no attribute 'advanced'")
  | Some args =>
      match dict_getitem data "processes" with
      | Raise e => Raise e
      | Ok given =>
          let listed :=
            if negb (advanced args) then
              match py_iter given with
              | Raise e => Raise e
              | Ok l =>
                  match summaries l [] with
                  | Raise e => Raise e
                  | Ok l' => Ok (PList l')
                  end
              end
            else Ok given in
          match listed with
          | Raise e => Raise e
          | Ok procs =>
              let return_json := [("processes", procs)] in
              let return_json :=
                if include_system_info args then
                  dict_set return_json "system_info"
                    (if truthy (pydict_get data "system_info")
                     then pydict_get data "system_info"
                     else no_system_info)
                else return_json in
              let return_json :=
                if show_denied args && truthy (pydict_get data "denied_processes") then
                  dict_set return_json "denied_processes"
                    (pydict_get data "denied_processes")
                else return_json in
              Ok (json_dumps (PDict return_json))
          end
      end
  end.

(** [",".join(str(process[key]) for key in headers)] *)
Fixpoint csv_cells (process : pyval) (headers : list string) : result (list string) :=
  match headers with
  | [] => Ok []
  | key :: rest =>
      match py_subscript process key with
      | Raise e => Raise e
      | Ok v =>
          match csv_cells process rest with
          | Raise e => Raise e
          | Ok cells => Ok (py_str v :: cells)
          end
      end
  end.

(** The loop of [to_csv] that appends one line per process. *)
Fixpoint csv_rows (l : list pyval) (headers : list string) (csv_lines : list string)
  : result (list string) :=
  match l with
  | [] => Ok csv_lines
  | process :: rest =>
      match csv_cells process headers with
      | Raise e => Raise e
      | Ok cells => csv_rows rest headers (csv_lines ++ [String.concat "," cells])%list
      end
  end.

Definition to_csv (data : pydict) (args : option Namespace) : result string :=
  match to_json data args with
  | Raise e => Raise e
  | Ok text =>
      let data_json := json_loads_text text in
      (* data_json.get('processes', []): to_json always sets the key *)
      match py_get data_json "processes" with
      | Raise e => Raise e
      | Ok processes =>
          if negb (truthy processes) then
            Raise (mk_exn ValueError "No process data passed.")
          else
            match py_first processes with
            | Raise e => Raise e
            | Ok first =>
                match py_keys first with
                | Raise e => Raise e
                | Ok headers =>
                    let csv_lines := [String.concat "," headers] in
                    match py_subscript data_json "processes" with
                    | Raise e => Raise e
                    | Ok again =>
                        match py_iter again with
                        | Raise e => Raise e
                        | Ok l =>
                            match csv_rows l headers csv_lines with
                            | Raise e => Raise e
                            | Ok csv_lines => Ok (String.concat newline csv_lines)
                            end
                        end
                    end
                end
            end
      end
  end.

End Defs.
End OutputFormatter.

(** ** Comparison and [sorted]

    The comparison [a < b] of two Python values is not interpreted, like
    the operations on floats: it is the field of [PyCompare], and may
    raise ([TypeError] for values that cannot be ordered). *)

Class PyCompare {F : PyFloat} : Type := {
  py_lt : pyval -> pyval -> result bool
}.

Section Sorting.
Context {F : PyFloat} {C : PyCompare}.

(** [x], whose key is [kx], put into a list in descending order of keys:
    after the elements with a greater key, before those with an equal
    one. *)
Fixpoint insert_by_key (A : Type) (kx : pyval) (x : A) (l : list (pyval * A))
  : result (list (pyval * A)) :=
  match l with
  | [] => Ok [(kx, x)]
  | (ky, y) :: r =>
      match py_lt kx ky with
      | Raise e => Raise e
      | Ok true =>
          match insert_by_key kx x r with
          | Raise e => Raise e
          | Ok r' => Ok ((ky, y) :: r')
          end
      | Ok false => Ok ((kx, x) :: l)
      end
  end.

(** [sorted(l, key=..., reverse=True)] on a list that comes with its
    keys.  CPython's sort is stable, also when reversed; on keys that [<]
    orders as a strict weak order (numbers other than NaN, for one) every
    stable sort returns this list.  On other keys the comparisons made,
    and so the exception raised first, depend on the algorithm. *)
Fixpoint sorted_by_key_reverse (A : Type) (l : list (pyval * A))
  : result (list (pyval * A)) :=
  match l with
  | [] => Ok []
  | (k, x) :: r =>
      match sorted_by_key_reverse r with
      | Raise e => Raise e
      | Ok r' => insert_by_key k x r'
      end
  end.

(** The keys of a list, computed in order before anything is compared. *)
Fixpoint with_keys (A B : Type) (key : A -> result (pyval * B)) (l : list A)
  : result (list (pyval * B)) :=
  match l with
  | [] => Ok []
  | x :: r =>
      match key x with
      | Raise e => Raise e
      | Ok kx =>
          match with_keys key r with
          | Raise e => Raise e
          | Ok r' => Ok (kx :: r')
          end
      end
  end.

End Sorting.

(** [s.endswith(suffix)] *)
Definition endswith (s suffix : string) : bool :=
  let n := String.length s in
  let m := String.length suffix in
  (m <=? n)%nat && String.eqb (String.substring (n - m) m s) suffix.

(** [d.get(k, default)] *)
Definition dict_get_default (A : Type) (d : list (string * A)) (k : string) (default : A) : A :=
  match dict_get d k with
  | Some v => v
  | None => default
  end.

(** ** class SystemInfo ([src/system_info.py]) *)

Module SystemInfo.

(** What [psutil.virtual_memory()], [psutil.disk_partitions()],
    [psutil.disk_usage()] and [psutil.net_if_addrs()] return, as far as
    the code reads them. *)
Record svmem : Type := mk_svmem { total : Z; available : Z; used : Z }.

Record sdiskpart : Type := mk_sdiskpart {
  device : string; mountpoint : string; fstype : string
}.

Record sdiskusage {F : PyFloat} : Type := mk_sdiskusage {
  usage_total : Z; usage_used : Z; usage_free : Z; usage_percent : pyfloat
}.

Record snicaddr : Type := mk_snicaddr {
  address : string; netmask : option string; broadcast : option string
}.

(** What the module asks of [platform], [psutil] and [datetime]. *)
Class SystemHost {F : PyFloat} (W : Type) : Type := {
  platform_system : St W string;
  platform_version : St W string;
  platform_node : St W string;
  psutil_boot_time : St W pyfloat;
  (* datetime.datetime.fromtimestamp(t).strftime('%Y-%m-%d %H:%M:%S') *)
  strftime_local : pyfloat -> St W string;
  psutil_virtual_memory : St W svmem;
  (* n / (1024.0 ** 3) for an integer n *)
  div_gib : Z -> pyfloat;
  psutil_disk_partitions : St W (list sdiskpart);
  psutil_disk_usage : string -> St W sdiskusage;
  (* a dict from interface names to lists of addresses *)
  psutil_net_if_addrs : St W (list (string * list snicaddr));
  (* psutil.cpu_count(), None when it cannot be determined *)
  psutil_cpu_count : St W (option Z)
}.

Section Defs.
Context {F : PyFloat} {W : Type} {M : SystemHost W}.

(** [self.info[k] = v]; [self.info] is the local state. *)
Definition info_set (k : string) (v : pyval) : St (pydict * W) unit :=
  modify (fun info => dict_set info k v).

(** The conditional expression that names the system: [platform.system()]
    is called anew for each test that is reached. *)
Definition os_label : St W string :=
  s <- platform_system ;;
  if String.eqb s "Darwin" then ret "MacOS"
  else
    s <- platform_system ;;
    if Str.contains "Linux" s then ret "Linux"
    else
      s <- platform_system ;;
      if Str.contains "Windows" s then ret "Windows" else ret "Unknown".

(** [get_system_info] returns [self.info] itself; the model returns its
    value at that moment. *)
Definition get_system_info : St (pydict * W) pydict :=
  label <- liftW os_label ;;
  info_set "os" (PStr label) ;;;
  version <- liftW platform_version ;;
  info_set "os_version" (PStr version) ;;;
  node <- liftW platform_node ;;
  info_set "hostname" (PStr node) ;;;
  t <- liftW psutil_boot_time ;;
  text <- liftW (strftime_local t) ;;
  info_set "boot_time" (PStr text) ;;;
  m <- liftW psutil_virtual_memory ;;
  info_set "memory_total_gb" (PFloat (div_gib (total m))) ;;;
  m <- liftW psutil_virtual_memory ;;
  info_set "memory_available_gb" (PFloat (div_gib (available m))) ;;;
  m <- liftW psutil_virtual_memory ;;
  info_set "memory_used_gb" (PFloat (div_gib (used m))) ;;;
  get_local.

Definition disk_entry (disk : sdiskpart) (usage : sdiskusage) : pydict :=
  [("device", PStr (device disk));
   ("mountpoint", PStr (mountpoint disk));
   ("filesystem_type", PStr (fstype disk));
   ("total_size", PFloat (div_gib (usage_total usage)));
   ("used_size", PFloat (div_gib (usage_used usage)));
   ("free_size", PFloat (div_gib (usage_free usage)));
   ("percent", PFloat (usage_percent usage))].

(** The loop of [get_disk_info]. *)
Fixpoint disk_loop (partitions : list sdiskpart) (disk_info : list pydict)
  : St W (list pydict) :=
  match partitions with
  | [] => ret disk_info
  | disk :: rest =>
      usage <- psutil_disk_usage (mountpoint disk) ;;
      disk_loop rest (disk_info ++ [disk_entry disk usage])%list
  end.

Definition get_disk_info : St W (list pydict) :=
  partitions <- psutil_disk_partitions ;;
  match partitions with
  | [] => ret []
  | _ => disk_loop partitions []
  end.

(** [psutil.net_if_addrs()[interface]] *)
Definition addrs_of (interface : string) : St W (list snicaddr) :=
  table <- psutil_net_if_addrs ;;
  lift_result (dict_getitem table interface).

(** [psutil.net_if_addrs()[interface][0]] *)
Definition first_addr (interface : string) : St W snicaddr :=
  addrs <- addrs_of interface ;;
  lift_result (list_getitem addrs 0).

Definition opt_str (s : option string) : pyval :=
  match s with
  | Some s => PStr s
  | None => PNone
  end.

(** The loop of [get_network_info]. *)
Fixpoint network_loop (interfaces : list string) (network_info : list pydict)
  : St W (list pydict) :=
  match interfaces with
  | [] => ret network_info
  | interface :: rest =>
      addrs <- addrs_of interface ;;
      match addrs with
      | [] => network_loop rest network_info
      | _ =>
          a <- first_addr interface ;;
          n <- first_addr interface ;;
          b <- first_addr interface ;;
          network_loop rest
            (network_info ++
             [[("interface", PStr interface);
               ("ip_address", PStr (address a));
               ("netmask", opt_str (netmask n));
               ("broadcast", opt_str (broadcast b))]])%list
      end
  end.

Definition get_network_info : St W (list pydict) :=
  table <- psutil_net_if_addrs ;;
  network_loop (dict_keys table) [].

Definition get_system_summary : St (pydict * W) pydict :=
  system_info <- get_system_info ;;
  disk_info <- liftW get_disk_info ;;
  network_info <- liftW get_network_info ;;
  ret [("system_info", PDict system_info);
       ("disk_info", PList (map PDict disk_info));
       ("network_info", PList (map PDict network_info))].

End Defs.
End SystemInfo.

(** ** The collector as an object *)

Module CollectorObject.
Section Defs.
Context {F : PyFloat} {W : Type} {H : Host W} {M : SystemInfo.SystemHost W}.

(** The attributes [ProcessCollector.__init__] sets.  No method assigns
    to any of them afterwards. *)
Record t : Type := mk {
  os : string;
  collection_timestamp : pyval;
  total_memory : option Z;
  cpu_count : Z
}.

(** [psutil.cpu_count() or 1] *)
Definition cpu_count_or_1 (n : option Z) : Z :=
  match n with
  | Some n => if n =? 0 then 1 else n
  | None => 1
  end.

Definition __init__ : St W t :=
  total_memory <- ProcessCollector._get_total_memory ;;
  n <- SystemInfo.psutil_cpu_count ;;
  ret (mk ProcessCollector.os PNone total_memory (cpu_count_or_1 n)).

Definition get_collection_timestamp (self : t) : pyval := collection_timestamp self.

End Defs.
End CollectorObject.

(** What reading the local variable [output_content] raises when no
    branch has bound it: an [UnboundLocalError], with the text Python
    3.11 and later give it. *)
Definition unbound_output_content : exn :=
  mk_exn OtherException
    "cannot access local variable 'output_content' where it is not associated with a value".

(** ** class ProcessMonitorCLI ([src/cli.py]) *)

(** The text [to_json] or [to_csv] made, as it is printed or written. *)
Inductive document {F : PyFloat} : Type :=
| JsonText (j : OutputFormatter.json_text)
| CsvText (s : string).

(** What the CLI asks of the file system and of the console. *)
Class CliHost {F : PyFloat} (W : Type) : Type := {
  (* Path(file).parent.mkdir(parents=True, exist_ok=True) *)
  parent_mkdir : string -> St W unit;
  (* Path(file).exists() and Path(file).is_file() *)
  path_exists : string -> St W bool;
  path_is_file : string -> St W bool;
  (* os.makedirs(path, exist_ok=True) *)
  os_makedirs : string -> St W unit;
  os_path_join : string -> string -> string;
  (* open(path, 'w', newline='') *)
  open_w : string -> St W unit;
  (* f.write(text) on the file opened at path *)
  file_write : string -> document -> St W unit;
  (* print(output_content) *)
  print_output : document -> St W unit;
  (* os.system(command) *)
  os_system : string -> St W Z
}.

Module ProcessMonitorCLI.

(** The attributes of the [argparse.Namespace] the parser makes. *)
Record Args : Type := mk_Args {
  output : string;
  file : option string;
  advanced : bool;
  verbose : bool;
  show_denied : bool;
  include_system_info : bool;
  help_visualization : bool;
  limit : Z;
  automation : bool
}.

(** The three options the formatter reads. *)
Definition formatter_args (args : Args) : Namespace :=
  mk_args (advanced args) (include_system_info args) (show_denied args).

Definition set_output (v : string) (a : Args) : Args :=
  mk_Args v (file a) (advanced a) (verbose a) (show_denied a)
    (include_system_info a) (help_visualization a) (limit a) (automation a).
Definition set_file (v : option string) (a : Args) : Args :=
  mk_Args (output a) v (advanced a) (verbose a) (show_denied a)
    (include_system_info a) (help_visualization a) (limit a) (automation a).
Definition set_advanced (v : bool) (a : Args) : Args :=
  mk_Args (output a) (file a) v (verbose a) (show_denied a)
    (include_system_info a) (help_visualization a) (limit a) (automation a).
Definition set_verbose (v : bool) (a : Args) : Args :=
  mk_Args (output a) (file a) (advanced a) v (show_denied a)
    (include_system_info a) (help_visualization a) (limit a) (automation a).
Definition set_show_denied (v : bool) (a : Args) : Args :=
  mk_Args (output a) (file a) (advanced a) (verbose a) v
    (include_system_info a) (help_visualization a) (limit a) (automation a).
Definition set_include_system_info (v : bool) (a : Args) : Args :=
  mk_Args (output a) (file a) (advanced a) (verbose a) (show_denied a)
    v (help_visualization a) (limit a) (automation a).
Definition set_limit (v : Z) (a : Args) : Args :=
  mk_Args (output a) (file a) (advanced a) (verbose a) (show_denied a)
    (include_system_info a) (help_visualization a) v (automation a).

(** [if args.file:] gives the path when it is neither [None] nor empty. *)
Definition file_given (a : Args) : option string :=
  match file a with
  | Some path => if String.eqb path "" then None else Some path
  | None => None
  end.

(** The branches of the [if]/[elif] chain of the interactive loop. *)
Inductive command : Type :=
| Exit | Help | Limit | Output | File | Verbose | Advanced | ShowDenied
| IncludeSystemInfo | CollectData | VisualizationHelp | Clear
| ShowParameters | Unknown.

(** The branch the chain takes for a line: the first whose word is in
    the line, lower-cased. *)
Definition command_of (user_input : string) : command :=
  let line := Str.lower user_input in
  if Str.contains "exit" line then Exit
  else if Str.contains "help" line then Help
  else if Str.contains "limit" line then Limit
  else if Str.contains "output" line then Output
  else if Str.contains "file" line then File
  else if Str.contains "verbose" line then Verbose
  else if Str.contains "advanced" line then Advanced
  else if Str.contains "show denied" line then ShowDenied
  else if Str.contains "include system info" line then IncludeSystemInfo
  else if Str.contains "collect data" line then CollectData
  else if Str.contains "visualization help" line then VisualizationHelp
  else if Str.contains "clear" line then Clear
  else if Str.contains "show parameters" line then ShowParameters
  else Unknown.

(** [user_input.split(" ")[-1]] *)
Definition last_word (user_input : string) : string :=
  List.last (Str.split user_input " ") "".

Section Defs.
Context {F : PyFloat} {C : PyCompare} {W : Type}
  {H : Host W} {M : SystemInfo.SystemHost W} {K : CliHost W}.

(** The objects [__init__] makes: the collector, and a [SystemInfo]
    whose [info] is empty. *)
Definition __init__ : St W (CollectorObject.t * pydict) :=
  collector <- CollectorObject.__init__ ;;
  ret (collector, []).

(** The [try] block of [validate_arguments]; [errors] is the local
    state. *)
Definition validate_try (path : string) : St (list string * W) unit :=
  liftW (parent_mkdir path) ;;;
  present <- liftW (path_exists path) ;;
  if present then
    regular <- liftW (path_is_file path) ;;
    if negb regular then
      modify (fun errors =>
                (errors ++ [("Output path exists but is not a file: " ++ path)%string])%list)
    else ret tt
  else ret tt.

Definition validate_arguments (args : Args) : St W bool :=
  fun w =>
    if limit args <=? 0 then (Ok false, w)
    else
      match
        match file_given args with
        | Some path =>
            try_except (validate_try path)
              (fun e =>
                 if isinstance e PermissionError then
                   modify (fun errors =>
                             (errors ++ [("Permission denied: cannot write to " ++ path)%string])%list)
                 else
                   modify (fun errors =>
                             (errors ++ [("Invalid output path " ++ path ++ ": "
                                          ++ exn_str e)%string])%list))
        | None => ret tt
        end ([], w)
      with
      | (Ok _, (errors, w')) =>
          (Ok match errors with [] => true | _ => false end, w')
      | (Raise e, (_, w')) => (Raise e, w')
      end.

(** [lambda p: p.get('memory_megabyte', 0)], with the record it is the
    key of. *)
Definition memory_key (p : proc_ret) : result (pyval * pydict) :=
  match p with
  | RetDict d => Ok (dict_get_default d "memory_megabyte" (PInt 0), d)
  | RetInfo _ =>
      Raise (mk_exn AttributeError "'ProcessInfo' object has no attribute 'get'")
  | RetNone =>
      Raise (mk_exn AttributeError "'NoneType' object has no attribute 'get'")
  end.

(** [sorted(processes, key=lambda p: p.get('memory_megabyte', 0), reverse=True)] *)
Definition top_processes (processes : list proc_ret) : result (list pydict) :=
  match with_keys memory_key processes with
  | Raise e => Raise e
  | Ok keyed =>
      match sorted_by_key_reverse keyed with
      | Raise e => Raise e
      | Ok l => Ok (map snd l)
      end
  end.

(** The [SystemInfo.info] of [self.system_info] is the local state. *)
Definition collect_and_format_data (collector : CollectorObject.t) (args : Args)
  : St (pydict * W) pydict :=
  collected <- liftW (ProcessCollector.collect_processes
                        (verbose args) (show_denied args) (limit args)) ;;
  let processes := fst collected in
  let access_info := snd collected in
  top <- lift_result (top_processes processes) ;;
  let output_data :=
    [("processes", PList (map PDict top));
     ("metadata",
      PDict [("collection_timestamp",
              CollectorObject.get_collection_timestamp collector);
             ("total_processes_found",
              dict_get_default access_info "total_found"
                (PInt (Z.of_nat (List.length processes))));
             ("accessible_processes", PInt (Z.of_nat (List.length processes)));
             ("permission_denied",
              dict_get_default access_info "permission_denied" (PInt 0))])] in
  output_data <-
    (if include_system_info args then
       summary <- SystemInfo.get_system_summary ;;
       ret (dict_set output_data "system_info" (PDict summary))
     else ret output_data) ;;
  if show_denied args && truthy (pydict_get access_info "denied_details") then
    details <- lift_result (dict_getitem access_info "denied_details") ;;
    ret (dict_set output_data "denied_processes" details)
  else ret output_data.

(** The first assignments of [output_data]: [None] when neither branch
    binds [output_content]. *)
Definition format_output (data : pydict) (args : Args) : result (option document) :=
  if String.eqb (output args) "json" then
    match OutputFormatter.to_json data (Some (formatter_args args)) with
    | Ok j => Ok (Some (JsonText j))
    | Raise e => Raise e
    end
  else if String.eqb (output args) "csv" then
    match OutputFormatter.to_csv data (Some (formatter_args args)) with
    | Ok s => Ok (Some (CsvText s))
    | Raise e => Raise e
    end
  else Ok None.

(** Reading the local variable [output_content]. *)
Definition read_output_content (output_content : option document) : result document :=
  match output_content with
  | Some text => Ok text
  | None => Raise unbound_output_content
  end.

(** [args] is the local state: the function assigns to [args.file]. *)
Definition output_data (data : pydict) : St (Args * W) unit :=
  args <- get_local ;;
  output_content <- lift_result (format_output data args) ;;
  match file_given args with
  | Some path =>
      (if negb (endswith path ".txt") then
         liftW (os_makedirs path) ;;;
         modify (set_file (Some (os_path_join path "processes.txt")))
       else ret tt) ;;;
      args <- get_local ;;
      let path := match file args with Some p => p | None => "" end in
      liftW (open_w path) ;;;
      text <- lift_result (read_output_content output_content) ;;
      liftW (file_write path text)
  | None =>
      text <- lift_result (read_output_content output_content) ;;
      liftW (print_output text)
  end.

(** The state of a run: the parsed arguments and [system_info.info]. *)
Definition on_info (A : Type) (m : St (pydict * W) A) : St ((Args * pydict) * W) A :=
  fun s =>
    match s with
    | ((args, info), w) =>
        match m (info, w) with
        | (r, (info', w')) => (r, ((args, info'), w'))
        end
    end.

Definition on_args (A : Type) (m : St (Args * W) A) : St ((Args * pydict) * W) A :=
  fun s =>
    match s with
    | ((args, info), w) =>
        match m (args, w) with
        | (r, (args', w')) => (r, ((args', info), w'))
        end
    end.

Definition set_arg (f : Args -> Args) : St ((Args * pydict) * W) unit :=
  on_args (modify f).

(** [data = self.collect_and_format_data(parsed_args);
     self.output_data(data, parsed_args)] *)
Definition collect_and_output (collector : CollectorObject.t)
  : St ((Args * pydict) * W) unit :=
  parsed_args <- on_args get_local ;;
  data <- on_info (collect_and_format_data collector parsed_args) ;;
  on_args (output_data data).

(** The body of a branch of the interactive loop, [Exit] apart. *)
Definition execute (collector : CollectorObject.t) (c : command) (user_input : string)
  : St ((Args * pydict) * W) unit :=
  match c with
  | Limit =>
      if (List.length (Str.split_ws user_input) <? 2)%nat then ret tt
      else
        n <- lift_result (py_int (last_word user_input)) ;;
        set_arg (set_limit n)
  | Output => set_arg (set_output (last_word user_input))
  | File => set_arg (set_file (Some (last_word user_input)))
  | Verbose => set_arg (fun a => set_verbose (negb (verbose a)) a)
  | Advanced => set_arg (fun a => set_advanced (negb (advanced a)) a)
  | ShowDenied => set_arg (fun a => set_show_denied (negb (show_denied a)) a)
  | IncludeSystemInfo =>
      set_arg (fun a => set_include_system_info (negb (include_system_info a)) a)
  | CollectData => collect_and_output collector
  | Clear =>
      (if Str.contains "win" sys_platform
       then liftW (os_system "cls") else liftW (os_system "clear")) ;;;
      ret tt
  | Exit | Help | VisualizationHelp | ShowParameters | Unknown => ret tt
  end.

(** The [while True] loop, on the lines [input()] reads: at the end of
    the input [input()] raises [EOFError]. *)
Fixpoint interactive (collector : CollectorObject.t) (stdin : list string)
  : St ((Args * pydict) * W) Z :=
  match stdin with
  | [] => raise (mk_exn OtherException "EOF when reading a line")
  | user_input :: rest =>
      match command_of user_input with
      | Exit => ret 0
      | c => execute collector c user_input ;;; interactive collector rest
      end
  end.

(** [run], from the arguments the parser returned.  The state holds
    [parsed_args] and [system_info.info]. *)
Definition run (collector : CollectorObject.t) (stdin : list string)
  : St ((Args * pydict) * W) Z :=
  parsed_args <- on_args get_local ;;
  if negb (automation parsed_args) then interactive collector stdin
  else
    valid <- liftW (validate_arguments parsed_args) ;;
    if negb valid then ret 1
    else collect_and_output collector ;;; ret 0.

End Defs.
End ProcessMonitorCLI.

(** ** The sign of a float

    The comparison [x >= 0.0], uninterpreted like the operations of
    [PyFloat]. *)
Class PyFloatOrder {F : PyFloat} : Type := {
  float_nonneg : pyfloat -> bool
}.

(** ** Machines to run the model on

    [Milli] stands in for binary floating point when the model is run: a
    number with three decimals, held as its count of thousandths.  It is
    one implementation of [PyFloat] among others; no theorem depends on
    it, the examples alone use it. *)

Module Milli.

Definition round2 (x : Z) : Z :=
  let q := x / 10 in
  let r := x mod 10 in
  if r <? 5 then 10 * q
  else if 5 <? r then 10 * (q + 1)
  else if Z.even q then 10 * q else 10 * (q + 1).

Definition pad (width : nat) (n : Z) : string :=
  let s := Str.of_Z n in
  string_of_list_ascii (repeat "0"%char (width - String.length s)) ++ s.

Definition to_str (x : Z) : string :=
  let a := Z.abs x in
  let f := a mod 1000 in
  (if x <? 0 then "-" else "") ++ Str.of_Z (a / 1000) ++ "." ++
  (if f mod 100 =? 0 then Str.of_Z (f / 100)
   else if f mod 10 =? 0 then pad 2 (f / 10)
   else pad 3 f).

(** The first three decimals of the fraction digits [f]. *)
Definition fraction (f : string) : option Z :=
  match list_ascii_of_string f with
  | [] => Some 0
  | l =>
      if forallb Str.is_digit l
      then Str.digits (firstn 3 (l ++ repeat "0"%char 3)) 0 false
      else None
  end.

Definition of_str (s : string) : option Z :=
  let s := Str.strip s in
  let negative := Str.startswith s "-" in
  match Str.split s "." with
  | [i] => option_map (fun n => 1000 * n) (Str.int i)
  | [i; f] =>
      match Str.int i, fraction f with
      | Some n, Some m => Some (if negative then 1000 * n - m else 1000 * n + m)
      | _, _ => None
      end
  | _ => None
  end.

#[export] Instance float : PyFloat := {|
  pyfloat := Z;
  float_zero := 0;
  float_one := 1000;
  float_truth := fun x => negb (x =? 0);
  float_round2 := round2;
  float_str := to_str;
  float_of_str := of_str;
  float_to_int := fun x => Some (Z.quot x 1000);
  float_div_int := fun x n => x / n;
  int_truediv := fun a b => 1000 * a / b
|}.

End Milli.

(** A machine whose answers are fixed tables; its state counts the calls
    made to it. *)
Definition tick (A : Type) (r : result A) : St nat A := fun n => (r, S n).

Definition not_found : exn := mk_exn OSError "[Errno 2] No such file or directory".

Definition box (platform : string)
  (meminfo : result (list string)) (memory_command : result Completed)
  (proc_entries : list string) (pid_command : result Completed)
  (status : Z -> option (list string)) (username : Z -> result string)
  (process_command : Z -> result Completed)
  (json : string -> result (@pyval Milli.float)) : @Host Milli.float nat := {|
  sys_platform := platform;
  run_sysctl_memsize := tick memory_command;
  read_meminfo := tick meminfo;
  run_powershell_memory := tick memory_command;
  run_ps_axo_pid := tick pid_command;
  proc_iterdir := tick (Ok proc_entries);
  proc_is_dir := fun name => tick (Ok (Str.isdigit name));
  run_powershell_pids := tick pid_command;
  status_file_exists := fun pid =>
    tick (Ok (match status pid with Some _ => true | None => false end));
  read_status_file := fun pid =>
    tick (match status pid with Some l => Ok l | None => Raise not_found end);
  psutil_Process := fun _ => tick (Ok tt);
  psutil_username := fun pid => tick (username pid);
  psutil_is_running := fun _ => tick (Ok true);
  psutil_cpu_percent := fun _ _ => tick (Ok (25000 : @pyfloat Milli.float));
  psutil_cpu_affinity := fun _ => tick (Ok [0; 1]);
  psutil_memory_rss := fun _ => tick (Ok 10485760);
  run_ps_pid := fun pid => tick (process_command pid);
  run_powershell_pid := fun pid => tick (process_command pid);
  json_loads := json
|}.

Definition no_command : result Completed := Raise not_found.

Definition no_json (s : string) : result (@pyval Milli.float) :=
  Raise (mk_exn JSONDecodeError "Expecting value: line 1 column 1 (char 0)").

Definition tab : string := String "009"%char EmptyString.

(** The status text of a sleeping process called [proc<pid>]. *)
Definition status_text (pid : Z) : option (list string) :=
  Some ["Name:" ++ tab ++ "proc" ++ Str.of_Z pid ++ newline;
        "State:" ++ tab ++ "S (sleeping)" ++ newline;
        "Pid:" ++ tab ++ Str.of_Z pid ++ newline].

Definition live_status (pid : Z) : option (list string) :=
  if existsb (Z.eqb pid) [10; 20; 30; 40; 50] then status_text pid else None.

Definition meminfo_text : list string :=
  ["MemTotal:       16384000 kB" ++ newline; "MemFree:         1024000 kB" ++ newline].

(** A Linux machine with processes 10, 20, 30, 40 and 50, listed by
    [/proc] in no particular order; the owner of process 40 cannot be
    read. *)
Definition linux_box : @Host Milli.float nat :=
  box "linux" (Ok meminfo_text) no_command
    ["30"; "self"; "10"; "50"; "cpuinfo"; "20"; "40"] no_command
    live_status
    (fun pid => if pid =? 40
                then Raise (mk_exn AccessDenied "psutil.AccessDenied (pid=40)")
                else Ok "root")
    (fun _ => no_command) no_json.

(** The same machine, where reading the owner of process 40 fails with an
    exception that carries no text (as [AssertionError()] or
    [MemoryError()] do). *)
Definition terse_box : @Host Milli.float nat :=
  box "linux" (Ok meminfo_text) no_command
    ["30"; "self"; "10"; "50"; "cpuinfo"; "20"; "40"] no_command
    live_status
    (fun pid => if pid =? 40 then Raise (mk_exn OtherException "") else Ok "root")
    (fun _ => no_command) no_json.

(** A machine of a platform the collector has no branch for. *)
Definition freebsd_box : @Host Milli.float nat :=
  box "freebsd13" (Raise not_found) no_command [] no_command
    (fun _ => None) (fun _ => Ok "root") (fun _ => no_command) no_json.

Definition quoted (s : string) : string :=
  String "034"%char EmptyString ++ s ++ String "034"%char EmptyString.

(** What PowerShell would print for a process whose memory column is text. *)
Definition svchost_text : string :=
  "{" ++ quoted "Name" ++ ": " ++ quoted "svchost" ++ ", " ++
  quoted "Memory (MB)" ++ ": " ++ quoted "n/a" ++ "}".

Definition svchost_json (s : string) : result (@pyval Milli.float) :=
  if String.eqb s svchost_text
  then Ok (PDict [("Name", PStr "svchost"); ("Memory (MB)", PStr "n/a")])
  else no_json s.

(** A Windows machine: PowerShell answers for process 4242 only. *)
Definition windows_box : @Host Milli.float nat :=
  box "win32" (Raise not_found) (Ok (mk_completed 0 ("15.92" ++ newline)))
    [] no_command
    (fun _ => None) (fun _ => Ok "SYSTEM")
    (fun pid => if pid =? 4242
                then Ok (mk_completed 0 (svchost_text ++ newline))
                else Ok (mk_completed 1 ""))
    svchost_json.

Definition ps_header : string := "  PID USER      %CPU %MEM STAT".

(** A macOS machine: [ps] answers for process 501 only. *)
Definition darwin_box : @Host Milli.float nat :=
  box "darwin" (Raise not_found) (Ok (mk_completed 0 ("hw.memsize: 17179869184" ++ newline)))
    []
    (Ok (mk_completed 0 ("  PID" ++ newline ++ "    1" ++ newline ++ "  501" ++ newline)))
    (fun _ => None) (fun _ => Ok "root")
    (fun pid => if pid =? 501
                then Ok (mk_completed 0
                           (ps_header ++ newline ++ "  501 alice      1.5  0.3 S" ++ newline))
                else Ok (mk_completed 1 ""))
    no_json.

(** A Linux machine whose [/proc/meminfo] cannot be opened. *)
Definition sealed_box : @Host Milli.float nat :=
  box "linux" (Raise (mk_exn PermissionError "[Errno 13] Permission denied: '/proc/meminfo'"))
    no_command [] no_command (fun _ => None) (fun _ => Ok "root")
    (fun _ => no_command) no_json.

(** The record of a process of [linux_box] whose owner can be read. *)
Definition record_of_pid (pid : Z) : @pydict Milli.float :=
  [("pid", PInt pid); ("name", PStr ("proc" ++ Str.of_Z pid)); ("user", PStr "root");
   ("cpu_percent", PFloat (12500 : @pyfloat Milli.float));
   ("memory_megabyte", PFloat (10000 : @pyfloat Milli.float));
   ("status", PStr "S (sleeping)"); ("accessible", PBool true); ("error", PNone)].

(** The record of process 40, given the text of the exception. *)
Definition record_of_40 (text : string) : @pydict Milli.float :=
  [("pid", PInt 40); ("name", PStr "proc40"); ("user", PNone);
   ("cpu_percent", PFloat (0 : @pyfloat Milli.float));
   ("memory_megabyte", PFloat (0 : @pyfloat Milli.float));
   ("status", PStr "S (sleeping)"); ("accessible", PBool false); ("error", PStr text)].

(** Two reports for the formatter. *)
Definition empty_report : @pydict Milli.float :=
  [("processes", PList []); ("metadata", PDict [])].

Definition small_report : @pydict Milli.float :=
  [("processes", PList (map PDict [record_of_pid 50; record_of_pid 30]));
   ("metadata", PDict [])].

Definition plain_args : Namespace := mk_args false false false.

(** * Vocabulary of the properties *)

(** The value a run returned, if it did not raise. *)
Definition returned (A W : Type) (run : result A * W) : option A :=
  match run with
  | (Ok a, _) => Some a
  | (Raise _, _) => None
  end.

(** Lists in descending order. *)
Definition descending (l : list Z) : Prop := StronglySorted Z.ge l.

(** ** A program logic for [St] *)

Section Triples.
Context {L W : Type}.

(** From a local state satisfying [P], the computation ends with a value
    and a local state satisfying [Q], or raises with [E]; the machine
    state is unconstrained. *)
Definition triple (A : Type) (P : L -> Prop) (m : St (L * W) A)
  (Q : A -> L -> Prop) (E : exn -> L -> Prop) : Prop :=
  forall l w, P l ->
    match m (l, w) with
    | (Ok a, (l', _)) => Q a l'
    | (Raise e, (l', _)) => E e l'
    end.

End Triples.

Section Vocabulary.
Context {F : PyFloat} {W : Type} {H : Host W}.

(** Every exception the computation raises has a text. *)
Definition texted (S A : Type) (m : St S A) : Prop :=
  forall s e s', m s = (Raise e, s') -> exn_str e <> "".

(** The exceptions of [psutil], of the PowerShell query and of
    [json.loads] all have a text. *)
Record host_texted : Prop := {
  texted_Process : forall pid, texted (psutil_Process pid);
  texted_username : forall pid, texted (psutil_username pid);
  texted_is_running : forall pid, texted (psutil_is_running pid);
  texted_cpu_percent : forall pid i, texted (psutil_cpu_percent pid i);
  texted_cpu_affinity : forall pid, texted (psutil_cpu_affinity pid);
  texted_memory_rss : forall pid, texted (psutil_memory_rss pid);
  texted_powershell_pid : forall pid, texted (run_powershell_pid pid);
  texted_json_loads : forall s e, json_loads s = Raise e -> exn_str e <> ""
}.

Definition worded (e : exn) : Prop := host_texted -> exn_str e <> "".

(** The two fields agree: accessible with no error, or denied with one. *)
Definition info_ok (p : ProcessInfo.t) : Prop :=
  if ProcessInfo.accessible p then ProcessInfo.error p = None
  else exists s, ProcessInfo.error p = Some s /\ (host_texted -> s <> "").

Definition is_float (v : pyval) : Prop :=
  match v with PFloat _ => True | _ => False end.

(** A [ProcessInfo] that nothing was denied to yet. *)
Definition unflagged (p : ProcessInfo.t) : Prop :=
  ProcessInfo.accessible p = true /\ ProcessInfo.error p = None.

(** A [ProcessInfo] that was denied, with its error set. *)
Definition denied (p : ProcessInfo.t) : Prop :=
  ProcessInfo.accessible p = false /\
  exists s, ProcessInfo.error p = Some s /\ (host_texted -> s <> "").

(** The fields no handler touches: the PID asked for and a CPU figure
    that is a float. *)
Definition framed (pid : Z) (p : ProcessInfo.t) : Prop :=
  ProcessInfo.pid p = pid /\ is_float (ProcessInfo.cpu_percent p).

(** What a platform variant may hand back for [pid]. *)
Definition record_of (pid : Z) (r : proc_ret) : Prop :=
  match r with
  | RetInfo p => info_ok p /\ ProcessInfo.accessible p = false
  | RetDict d =>
      exists p, ProcessInfo.to_dict p = Ok d /\ info_ok p /\ ProcessInfo.pid p = pid
  | RetNone => False
  end.

Import ProcessCollector.

(** A step that keeps the invariant [I]; what it raises satisfies [T]. *)
Definition keeps (A : Type) (T : exn -> Prop) (I : ProcessInfo.t -> Prop)
  (m : St (ProcessInfo.t * W) A) : Prop :=
  triple I m (fun _ p => I p) (fun e p => I p /\ T e).

(** What the [try] block of the Linux variant keeps true of its
    [ProcessInfo] up to an exception, and that of the Windows variant,
    where the memory figure is whatever the JSON text held. *)
Definition linux_inv (pid : Z) (p : ProcessInfo.t) : Prop :=
  unflagged p /\ framed pid p /\ is_float (ProcessInfo.memory_megabyte p).

Definition windows_inv (pid : Z) (p : ProcessInfo.t) : Prop :=
  unflagged p /\ framed pid p.

(** The platforms [get_process_info] has a branch for. *)
Definition supported : bool :=
  Str.startswith os "linux" || String.eqb os "darwin" || Str.contains "win" os.

(** The PIDs a pass goes through: the enumerated ones, cut to the limit
    when the limit is positive. *)
Definition pass_pids (enumerated : list Z) (max_processes : Z) : list Z :=
  if max_processes >? 0 then slice_to enumerated max_processes else enumerated.

End Vocabulary.

Section EngineVocabulary.
Context {F : PyFloat}.

(** The elements of [l] whose flag in [keep] is set. *)
Fixpoint select (A : Type) (keep : list bool) (l : list A) : list A :=
  match keep, l with
  | b :: keep', x :: l' => if b then x :: select keep' l' else select keep' l'
  | _, _ => []
  end.

(** A record of [pid] that the loop took as accessible: the [dict] that
    [to_dict] made of a [ProcessInfo] for [pid] with nothing denied. *)
Definition accepted (pid : Z) (r : proc_ret) : Prop :=
  exists p d, r = RetDict d /\
    ProcessInfo.to_dict p = Ok d /\
    ProcessInfo.pid p = pid /\
    ProcessInfo.accessible p = true /\
    ProcessInfo.error p = None.

(** An entry of [denied_details] for [pid]. *)
Definition detail_of (pid : Z) (d : pydict) : Prop :=
  exists e n, d = [("pid", PInt pid); ("error", e); ("name", n)] /\ truthy n = true.

(** The loop variables after the PIDs [done] were probed: [verdicts]
    tells, probe by probe, on which side the PID was counted. *)
Definition tally (include_denied_details : bool) (done : list Z) (st : LoopState)
  : Prop :=
  probed st = done /\
  exists verdicts,
    List.length verdicts = List.length done /\
    Forall2 accepted (select verdicts done) (processes st) /\
    accessible_count st = Z.of_nat (List.length (select verdicts done)) /\
    denied_count st = Z.of_nat (List.length (select (map negb verdicts) done)) /\
    if include_denied_details
    then Forall2 detail_of (select (map negb verdicts) done) (denied_processes st)
    else denied_processes st = [].

End EngineVocabulary.

Section ProbeVocabulary.
Context {F : PyFloat} {W : Type} {H : Host W}.
Import ProcessCollector.

(** The calls [get_process_info(pid)] for the PIDs of [pids], made one
    after the other on the machine: what each call returned or raised,
    in call order, and the machine after the last of them. *)
Fixpoint probes (pids : list Z) (w : W) : list (result proc_ret) * W :=
  match pids with
  | [] => ([], w)
  | pid :: rest =>
      match get_process_info pid w with
      | (r, w1) =>
          match probes rest w1 with
          | (rs, w2) => (r :: rs, w2)
          end
      end
  end.

End ProbeVocabulary.

Section OutcomeVocabulary.
Context {F : PyFloat}.
Import ProcessCollector.

(** The side of the loop the outcome of a call falls on: [true] when
    the call returned and [proc_info.get('accessible')] is truthy,
    [false] when that is falsy, when [get] raises and when the call
    itself raised. *)
Definition taken (r : result proc_ret) : bool :=
  match r with
  | Ok proc_info =>
      match ret_get proc_info "accessible" with
      | Ok acc => truthy acc
      | Raise _ => false
      end
  | Raise _ => false
  end.

Definition left_out (r : result proc_ret) : bool := negb (taken r).

(** The values among the outcomes that fall on the accessible side, in
    order. *)
Fixpoint kept (outcomes : list (result proc_ret)) : list proc_ret :=
  match outcomes with
  | [] => []
  | Ok proc_info :: rest =>
      if taken (Ok proc_info) then proc_info :: kept rest else kept rest
  | Raise _ :: rest => kept rest
  end.

(** How many of the outcomes satisfy [f]. *)
Definition tally_of (f : result proc_ret -> bool) (outcomes : list (result proc_ret)) : Z :=
  Z.of_nat (List.length (filter f outcomes)).

End OutcomeVocabulary.

Section SignVocabulary.
Context {F : PyFloat} {O : PyFloatOrder}.





End SignVocabulary.

Section HostSignVocabulary.
Context {F : PyFloat} {O : PyFloatOrder} {W : Type} {H : Host W}.


End HostSignVocabulary.

Section RecordVocabulary.
Context {F : PyFloat}.

(** The [accessible] and [error] fields of a record, whichever of the two
    forms it has. *)
Definition record_accessible (r : proc_ret) : option pyval :=
  match r with
  | RetInfo p => Some (PBool (ProcessInfo.accessible p))
  | RetDict d => dict_get d "accessible"
  | RetNone => None
  end.

Definition record_error (r : proc_ret) : option pyval :=
  match r with
  | RetInfo p => Some (ProcessInfo.error_value (ProcessInfo.error p))
  | RetDict d => dict_get d "error"
  | RetNone => None
  end.

End RecordVocabulary.

Section MemoryVocabulary.
Context {F : PyFloat} {W : Type} {H : Host W}.
Import ProcessCollector.

(** The branch of [_get_total_memory] the platform name selects. *)
Inductive memory_branch : Type := SysctlBranch | MeminfoBranch | PowershellBranch | NoBranch.

Definition memory_branch_of (platform : string) : memory_branch :=
  if Str.contains "darwin" (Str.lower platform) then SysctlBranch
  else if Str.contains "linux" (Str.lower platform) then MeminfoBranch
  else if Str.contains "win" (Str.lower platform) then PowershellBranch
  else NoBranch.

(** The ways the [sysctl] and [/proc/meminfo] probes fail, from the
    machine state [w] to [w']. *)
Inductive probe_failure (w w' : W) : Prop :=
| sysctl_not_run (e : exn) :
    memory_branch_of os = SysctlBranch ->
    run_sysctl_memsize w = (Raise e, w') ->
    probe_failure w w'
| sysctl_not_parsed (result : Completed) :
    memory_branch_of os = SysctlBranch ->
    run_sysctl_memsize w = (Ok result, w') ->
    returncode result = 0 ->
    (forall field, nth_error (Str.split (stdout result) ":") 1 = Some field ->
                   Str.int (Str.strip field) = None) ->
    probe_failure w w'
| meminfo_not_read (e : exn) :
    memory_branch_of os = MeminfoBranch ->
    read_meminfo w = (Raise e, w') ->
    probe_failure w w'
| meminfo_not_parsed (lines : list string) (e : exn) :
    memory_branch_of os = MeminfoBranch ->
    read_meminfo w = (Ok lines, w') ->
    meminfo_scan lines = Raise e ->
    probe_failure w w'.

End MemoryVocabulary.

Section FormatterVocabulary.
Context {F : PyFloat}.

Definition five_fields : list string :=
  ["pid"; "name"; "user"; "cpu_percent"; "memory_megabyte"].

(** The header row [to_csv] writes for a list that starts with [first]. *)
Definition csv_headers (args : Namespace) (first : pydict) : list string :=
  if advanced args then dict_keys first else five_fields.

(** The record has every key of [keys]. *)
Definition has_keys (keys : list string) (r : pydict) : Prop :=
  forall k, In k keys -> dict_get r k <> None.

(** The line [to_csv] writes for one record. *)
Definition csv_line (headers : list string) (r : pydict) : string :=
  String.concat "," (map (fun k => py_str (pydict_get r k)) headers).

(** The five-field record [to_json] keeps of [r]. *)
Definition five_of (r : pydict) : pydict :=
  map (fun k => (k, pydict_get r k)) five_fields.

End FormatterVocabulary.

(** ** More machines to run the model on *)

(** Comparison on the values of the [Milli] machine: numbers by value,
    strings and lists in lexicographic order, nothing else. *)
Module MilliOrder.

Definition number (v : @pyval Milli.float) : option Z :=
  match v with
  | PBool b => Some (if b then 1000 else 0)
  | PInt n => Some (1000 * n)
  | PFloat x => Some x
  | _ => None
  end.

(** [a == b] *)
Fixpoint eqv (a b : @pyval Milli.float) {struct a} : bool :=
  match a, b with
  | PNone, PNone => true
  | PStr s, PStr t => String.eqb s t
  | PList l, PList m =>
      (fix all2 (l m : list pyval) {struct l} : bool :=
         match l, m with
         | [], [] => true
         | x :: l', y :: m' => eqv x y && all2 l' m'
         | _, _ => false
         end) l m
  | PDict d, PDict e =>
      (List.length d =? List.length e)%nat &&
      (fix all (d : list (string * pyval)) {struct d} : bool :=
         match d with
         | [] => true
         | (k, x) :: d' =>
             match dict_get e k with
             | Some y => eqv x y
             | None => false
             end && all d'
         end) d
  | _, _ =>
      match number a, number b with
      | Some x, Some y => x =? y
      | _, _ => false
      end
  end.

Definition unordered (a b : @pyval Milli.float) : exn :=
  mk_exn TypeError
    ("'<' not supported between instances of '" ++ type_name a ++ "' and '"
     ++ type_name b ++ "'").

(** [a < b] *)
Fixpoint lt (a b : @pyval Milli.float) {struct a} : result bool :=
  match a, b with
  | PStr s, PStr t => Ok (String.ltb s t)
  | PList l, PList m =>
      (fix lex (l m : list pyval) {struct l} : result bool :=
         match l, m with
         | [], [] => Ok false
         | [], _ :: _ => Ok true
         | _ :: _, [] => Ok false
         | x :: l', y :: m' => if eqv x y then lex l' m' else lt x y
         end) l m
  | _, _ =>
      match number a, number b with
      | Some x, Some y => Ok (x <? y)
      | _, _ => Raise (unordered a b)
      end
  end.

#[export] Instance compare : @PyCompare Milli.float := {| py_lt := lt |}.

End MilliOrder.

(** A machine for [system_info.py]: one disk, a loopback interface, and
    an interface without an address. *)
Definition office : @SystemInfo.SystemHost Milli.float nat := {|
  SystemInfo.platform_system := tick (Ok "Linux");
  SystemInfo.platform_version := tick (Ok "#1 SMP");
  SystemInfo.platform_node := tick (Ok "host1");
  SystemInfo.psutil_boot_time := tick (Ok (1700000000000 : @pyfloat Milli.float));
  SystemInfo.strftime_local := fun _ => tick (Ok "2023-11-14 22:13:20");
  SystemInfo.psutil_virtual_memory :=
    tick (Ok (SystemInfo.mk_svmem 17179869184 8589934592 8589934592));
  SystemInfo.div_gib := fun n => 1000 * n / 1073741824;
  SystemInfo.psutil_disk_partitions :=
    tick (Ok [SystemInfo.mk_sdiskpart "/dev/sda1" "/" "ext4"]);
  SystemInfo.psutil_disk_usage := fun _ =>
    tick (Ok (@SystemInfo.mk_sdiskusage Milli.float
                107374182400 53687091200 53687091200 50000));
  SystemInfo.psutil_net_if_addrs :=
    tick (Ok [("lo", [SystemInfo.mk_snicaddr "127.0.0.1" (Some "255.0.0.0") None]);
              ("tun0", [])]);
  SystemInfo.psutil_cpu_count := tick (Ok (Some 8))
|}.

(** A Windows machine with an optical drive that is not ready. *)
Definition office_with_empty_drive : @SystemInfo.SystemHost Milli.float nat := {|
  SystemInfo.platform_system := tick (Ok "Windows");
  SystemInfo.platform_version := tick (Ok "10.0.19045");
  SystemInfo.platform_node := tick (Ok "host2");
  SystemInfo.psutil_boot_time := tick (Ok (1700000000000 : @pyfloat Milli.float));
  SystemInfo.strftime_local := fun _ => tick (Ok "2023-11-14 22:13:20");
  SystemInfo.psutil_virtual_memory :=
    tick (Ok (SystemInfo.mk_svmem 17179869184 8589934592 8589934592));
  SystemInfo.div_gib := fun n => 1000 * n / 1073741824;
  SystemInfo.psutil_disk_partitions :=
    tick (Ok [SystemInfo.mk_sdiskpart "D:" "D:" "cdfs"]);
  SystemInfo.psutil_disk_usage := fun _ =>
    tick (Raise (mk_exn PermissionError "[WinError 21] The device is not ready"));
  SystemInfo.psutil_net_if_addrs := tick (Ok []);
  SystemInfo.psutil_cpu_count := tick (Ok None)
|}.

(** A console and a file system where [out] is a directory and nothing
    else exists; every call succeeds. *)
Definition desk : @CliHost Milli.float nat := {|
  parent_mkdir := fun _ => tick (Ok tt);
  path_exists := fun path => tick (Ok (String.eqb path "out"));
  path_is_file := fun _ => tick (Ok false);
  os_makedirs := fun _ => tick (Ok tt);
  os_path_join := fun a b => a ++ "/" ++ b;
  open_w := fun _ => tick (Ok tt);
  file_write := fun _ _ => tick (Ok tt);
  print_output := fun _ => tick (Ok tt);
  os_system := fun _ => tick (Ok 0)
|}.

(** The arguments the parser makes of an empty command line, and those
    of [--automation 1]. *)
Definition default_args : ProcessMonitorCLI.Args :=
  ProcessMonitorCLI.mk_Args "json" None false false false false false 5 false.

Definition automation_args : ProcessMonitorCLI.Args :=
  ProcessMonitorCLI.mk_Args "json" None false false false false false 5 true.

(** A Windows machine whose PowerShell lists five process ids, one to a
    line and without a header, and answers for none of them. *)
Definition powershell_box : @Host Milli.float nat :=
  box "win32" (Raise not_found) (Ok (mk_completed 0 ("15.92" ++ newline)))
    []
    (Ok (mk_completed 0
           ("4" ++ newline ++ "108" ++ newline ++ "372" ++ newline ++
            "4242" ++ newline ++ "5120" ++ newline)))
    (fun _ => None) (fun _ => Ok "SYSTEM")
    (fun _ => Ok (mk_completed 1 ""))
    no_json.

(** Arguments for a CSV export in automation mode. *)
Definition csv_args : ProcessMonitorCLI.Args :=
  ProcessMonitorCLI.mk_Args "csv" None false false false false false 5 true.

(** Three records with different memory figures, the last with none. *)
Definition ranked_records : list (@pydict Milli.float) :=
  [[("pid", PInt 1); ("memory_megabyte", PFloat (1500 : @pyfloat Milli.float))];
   [("pid", PInt 2); ("memory_megabyte", PInt 7)];
   [("pid", PInt 3)]].

(** The number a value of the [Milli] machine stands for, in thousandths. *)
Definition milli_rank (v : @pyval Milli.float) : Z :=
  match MilliOrder.number v with
  | Some x => x
  | None => 0
  end.

(** A report whose second record lacks the [name] of the first. *)
Definition uneven_report : @pydict Milli.float :=
  [("processes",
    PList (map PDict [[("pid", PInt 1); ("name", PStr "init")]; [("pid", PInt 2)]]))].

Definition advanced_args : Namespace := mk_args true false false.

(** A [ProcessInfo] as the Linux variant leaves it for process 50 of
    [linux_box]. *)
Definition info_of_50 : @ProcessInfo.t Milli.float :=
  ProcessInfo.mk 50 (PStr "proc50") (PStr "root")
    (PFloat (12500 : @pyfloat Milli.float)) (PFloat (10000 : @pyfloat Milli.float))
    (PStr "S (sleeping)") true None.

(** The collector [__init__] makes on [linux_box] and on [darwin_box]. *)
Definition linux_collector : @CollectorObject.t Milli.float :=
  CollectorObject.mk "linux" PNone (Some 16777216000) 8.

Definition darwin_collector : @CollectorObject.t Milli.float :=
  CollectorObject.mk "darwin" PNone (Some 17179869184) 8.

(** The report of [linux_box] under [automation_args]. *)
Definition linux_report : @pydict Milli.float :=
  [("processes",
    PList (map PDict [record_of_pid 50; record_of_pid 30; record_of_pid 20;
                      record_of_pid 10]));
   ("metadata",
    PDict [("collection_timestamp", PNone);
           ("total_processes_found", PInt 4);
           ("accessible_processes", PInt 4);
           ("permission_denied", PInt 1)])].

(** Arguments with a format the formatter does not know. *)
Definition xml_args : ProcessMonitorCLI.Args :=
  ProcessMonitorCLI.mk_Args "xml" (Some "out") false false false false false 5 false.

(** The sign of a number of the [Milli] machine. *)
#[export] Instance milli_sign : @PyFloatOrder Milli.float :=
  @Build_PyFloatOrder Milli.float (fun x : Z => 0 <=? x).





(** ** Vocabulary of the further properties *)

Section PassVocabulary.
Context {F : PyFloat}.
Import ProcessCollector.

(** The entry of [denied_details] the loop writes for a PID whose record
    has no [get]: the variant handed back a [ProcessInfo] object. *)
Definition blind_detail (pid : Z) : pydict :=
  [("pid", PInt pid);
   ("error", PStr "'ProcessInfo' object has no attribute 'get'");
   ("name", PStr (pid_placeholder pid))].

(** What one turn of the loop does to its variables for such a PID. *)
Definition blind_step (idd : bool) (pid : Z) (st : LoopState) : LoopState :=
  let st := add_denied_count (log_probe pid st) in
  if idd then add_denied_detail (blind_detail pid) st else st.

End PassVocabulary.

(** A line that says nothing about the key [k]. *)
Definition silent_on (k : string) (line : string) : Prop :=
  forall a b, Str.split1 line ":" = [a; b] -> Str.strip a <> k.

Section VariantVocabulary.
Context {F : PyFloat} {W : Type} {H : Host W}.
Import ProcessCollector.

(** The platforms [get_process_info] takes for Windows: the third test
    of its dispatch, reached when the first two fail. *)
Definition on_windows : bool :=
  negb (Str.startswith os "linux") && negb (String.eqb os "darwin") &&
  Str.contains "win" os.

(** [proc_data.returncode == 0 and proc_data.stdout.strip()] *)
Definition answered (proc_data : Completed) : bool :=
  (returncode proc_data =? 0) && negb (String.eqb (Str.strip (stdout proc_data)) "").

(** The [dict] of a process nothing was learnt about but the reason. *)
Definition blank_record (pid : Z) (reason : string) : pydict :=
  [("pid", PInt pid); ("name", PNone); ("user", PNone);
   ("cpu_percent", PFloat (float_round2 float_zero));
   ("memory_megabyte", PFloat (float_round2 float_zero));
   ("status", PNone); ("accessible", PBool false); ("error", PStr reason)].

End VariantVocabulary.

(** The integers among [texts], in order: what a loop appends that calls
    [int] on each text and skips the ones it rejects. *)
Definition parsed_pids (texts : list string) : list Z :=
  flat_map (fun s => match Str.int s with Some n => [n] | None => [] end) texts.

(** The first whitespace-separated field of each line that has one. *)
Definition first_fields (lines : list string) : list string :=
  flat_map (fun s => match Str.split_ws s with t :: _ => [t] | [] => [] end) lines.

Section FormatterVocabulary2.
Context {F : PyFloat}.

(** The first key of [keys] the record does not have. *)
Definition missing_of (keys : list string) (r : pydict) : option string :=
  find (fun k => match dict_get r k with Some _ => false | None => true end) keys.

(** That key for the first record of [recs] that lacks one. *)
Fixpoint first_missing (keys : list string) (recs : list pydict) : option string :=
  match recs with
  | [] => None
  | r :: rest =>
      match missing_of keys r with
      | Some k => Some k
      | None => first_missing keys rest
      end
  end.

(** The entries [to_json] adds after [processes]. *)
Definition optional_entries (data : pydict) (args : Namespace) : pydict :=
  ((if include_system_info args
    then [("system_info",
           if truthy (pydict_get data "system_info")
           then pydict_get data "system_info"
           else OutputFormatter.no_system_info)]
    else []) ++
   (if show_denied args && truthy (pydict_get data "denied_processes")
    then [("denied_processes", pydict_get data "denied_processes")]
    else []))%list.

(** The header row of the full records. *)
Definition eight_fields : list string :=
  ["pid"; "name"; "user"; "cpu_percent"; "memory_megabyte";
   "status"; "accessible"; "error"].

End FormatterVocabulary2.

(** The key [collect_and_format_data] sorts a record by. *)
Definition memory_of {F : PyFloat} (d : pydict) : pyval :=
  dict_get_default d "memory_megabyte" (PInt 0).

Section SortedVocabulary.
Context {F : PyFloat} {C : PyCompare}.

(** The keys of a list are ranked by [rank] when [<] on them is [<] on
    their ranks. *)
Definition ranked (rank : pyval -> Z) (keys : list pyval) : Prop :=
  forall a b, In a keys -> In b keys -> py_lt a b = Ok (rank a <? rank b).

(** Descending order of the ranks of the keys. *)
Definition by_rank (A : Type) (rank : pyval -> Z) (l : list (pyval * A)) : Prop :=
  StronglySorted (fun p q => rank (fst q) <= rank (fst p)) l.

End SortedVocabulary.

Section SystemVocabulary.
Context {F : PyFloat}.

(** The keys [get_system_info] assigns, in the order it assigns them. *)
Definition info_keys : list string :=
  ["os"; "os_version"; "hostname"; "boot_time";
   "memory_total_gb"; "memory_available_gb"; "memory_used_gb"].

(** [info] holds the first keys of [info_keys], at least [k] of them. *)
Definition info_filled (k : nat) (info : pydict) : Prop :=
  exists n, (k <= n)%nat /\ dict_keys info = firstn n info_keys.

(** The entry [get_network_info] writes for an interface: none without
    an address, else that of its first address. *)
Definition network_entry (row : string * list SystemInfo.snicaddr) : list pydict :=
  match snd row with
  | [] => []
  | a :: _ =>
      [[("interface", PStr (fst row));
        ("ip_address", PStr (SystemInfo.address a));
        ("netmask", SystemInfo.opt_str (SystemInfo.netmask a));
        ("broadcast", SystemInfo.opt_str (SystemInfo.broadcast a))]]
  end.

End SystemVocabulary.

(** * Properties *)

(** ** The string built-ins on examples *)

Example strip_ex : Str.strip "  8589934592
" = "8589934592".
Proof. reflexivity. Qed.

Example split_ws_ex : Str.split_ws "  501 root   0.0  0.1 Ss  " = ["501"; "root"; "0.0"; "0.1"; "Ss"].
Proof. reflexivity. Qed.

Example split_ws_max_ex : Str.split_ws_max "a b  c d " 2 = ["a"; "b"; "c d "].
Proof. reflexivity. Qed.

Example split_ex : Str.split "hw.memsize: 17179869184" ":" = ["hw.memsize"; " 17179869184"].
Proof. reflexivity. Qed.

Example split1_ex : Str.split1 "Name:	a:b" ":" = ["Name"; "	a:b"].
Proof. reflexivity. Qed.

Example int_ex :
  Str.int " 42 " = Some 42 /\ Str.int "-7" = Some (-7) /\ Str.int "1_000" = Some 1000 /\
  Str.int "PID" = None /\ Str.int "" = None /\ Str.int "4_" = None.
Proof. repeat split; reflexivity. Qed.

Example int_blanks_ex :
  Str.int (String "028" "7") = None /\ Str.strip (String "028" "7") = "7" /\
  Str.int (String "009" "7") = Some 7 /\ Str.int (String "011" "7 ") = Some 7.
Proof. repeat split; reflexivity. Qed.

Example repr_ex :
  Str.repr "pid" = "'pid'" /\
  Str.repr "it's" = String "034" ("it's" ++ String "034" "") /\
  Str.repr (String "009" "a\b") = "'\ta\\b'" /\
  Str.repr (String "031" "") = "'\x1f'".
Proof. repeat split; reflexivity. Qed.

Example contains_ex : Str.contains "win" "darwin" = true /\ Str.contains "win" "freebsd13" = false.
Proof. split; reflexivity. Qed.


(** ** Sorting *)

Lemma insert_desc_In (x y : Z) (l : list Z) :
  In y (insert_desc x l) -> y = x \/ In y l.
Proof.
  induction l as [|z r IH]; simpl.
  - intros [->|[]]; auto.
  - destruct (z <=? x); simpl; intros [->|Hin]; auto.
    destruct (IH Hin); auto.
Qed.

Lemma insert_desc_descending (x : Z) (l : list Z) :
  descending l -> descending (insert_desc x l).
Proof.
  unfold descending.
  induction l as [|z r IH]; simpl; intros Hs.
  - constructor; constructor.
  - inversion Hs as [|? ? Hr Hall]; subst.
    destruct (z <=? x) eqn:Hzx.
    + apply Z.leb_le in Hzx.
      constructor; [assumption|].
      constructor; [lia|].
      rewrite Forall_forall in Hall |- *.
      intros y Hy. specialize (Hall y Hy). lia.
    + apply Z.leb_gt in Hzx.
      constructor; [auto|].
      rewrite Forall_forall in Hall |- *.
      intros y Hy. destruct (insert_desc_In _ _ _ Hy) as [->|Hin]; [lia|auto].
Qed.

Lemma sorted_reverse_descending (l : list Z) : descending (sorted_reverse l).
Proof.
  induction l as [|x r IH]; simpl.
  - constructor.
  - apply insert_desc_descending, IH.
Qed.

Lemma insert_desc_perm (x : Z) (l : list Z) : Permutation (x :: l) (insert_desc x l).
Proof.
  induction l as [|z r IH]; simpl; [reflexivity|].
  destruct (z <=? x); [reflexivity|].
  rewrite perm_swap. constructor. exact IH.
Qed.

Lemma sorted_reverse_perm (l : list Z) : Permutation l (sorted_reverse l).
Proof.
  induction l as [|x r IH]; simpl; [constructor|].
  rewrite <- insert_desc_perm. constructor. exact IH.
Qed.

Lemma firstn_In (A : Type) (y : A) (n : nat) (l : list A) :
  In y (firstn n l) -> In y l.
Proof.
  revert l. induction n as [|n IH]; intros l; simpl; [intros []|].
  destruct l as [|x r]; simpl; [intros []|].
  intros [->|Hin]; auto.
Qed.

Lemma firstn_descending (n : nat) (l : list Z) :
  descending l -> descending (firstn n l).
Proof.
  unfold descending. revert l.
  induction n as [|n IH]; intros [|x r] Hs; simpl; try constructor.
  - inversion Hs; subst. auto.
  - inversion Hs as [|? ? _ Hall]; subst.
    rewrite Forall_forall in Hall |- *.
    intros y Hy. apply Hall. eapply firstn_In; eauto.
Qed.

Lemma firstn_length_min (A : Type) (n : Z) (l : list A) :
  0 < n ->
  Z.of_nat (List.length (firstn (Z.to_nat n) l)) = Z.min n (Z.of_nat (List.length l)).
Proof.
  intros Hn. rewrite length_firstn. lia.
Qed.

(** ** Rules of the program logic *)

Section Logic.
Context {L W : Type}.

Lemma triple_ret (A : Type) (P : L -> Prop) (a : A) Q E :
  (forall l, P l -> Q a l) -> triple (W:=W) P (ret a) Q E.
Proof. intros HQ l w HP. simpl. auto. Qed.

Lemma triple_raise (A : Type) (P : L -> Prop) (e : exn) (Q : A -> L -> Prop) E :
  (forall l, P l -> E e l) -> triple (W:=W) P (raise e) Q E.
Proof. intros HE l w HP. simpl. auto. Qed.

Lemma triple_bind (A B : Type) (P : L -> Prop) (m : St (L * W) A)
  (k : A -> St (L * W) B) (R : A -> L -> Prop) Q E :
  triple P m R E -> (forall a, triple (R a) (k a) Q E) -> triple P (bind m k) Q E.
Proof.
  intros Hm Hk l w HP. unfold bind.
  specialize (Hm l w HP).
  destruct (m (l, w)) as [[a|e] [l' w']]; [|exact Hm].
  exact (Hk a l' w' Hm).
Qed.

Lemma triple_weaken (A : Type) (P P' : L -> Prop) (m : St (L * W) A) Q Q' E E' :
  triple P' m Q' E' ->
  (forall l, P l -> P' l) -> (forall a l, Q' a l -> Q a l) ->
  (forall e l, E' e l -> E e l) ->
  triple P m Q E.
Proof.
  intros Hm HP HQ HE l w Hl.
  specialize (Hm l w (HP l Hl)).
  destruct (m (l, w)) as [[a|e] [l' w']]; auto.
Qed.

Lemma triple_modify (P : L -> Prop) (f : L -> L) Q E :
  (forall l, P l -> Q tt (f l)) -> triple (W:=W) P (modify f) Q E.
Proof. intros HQ l w HP. simpl. auto. Qed.

Lemma triple_get_local (P : L -> Prop) Q E :
  (forall l, P l -> Q l l) -> triple (W:=W) P get_local Q E.
Proof. intros HQ l w HP. simpl. auto. Qed.

Lemma triple_lift_result (A : Type) (P : L -> Prop) (r : result A) Q E :
  (forall l, P l -> match r with Ok a => Q a l | Raise e => E e l end) ->
  triple (W:=W) P (lift_result r) Q E.
Proof. intros Hr l w HP. unfold lift_result. specialize (Hr l HP). destruct r; auto. Qed.

(** A call to the machine leaves the local state alone. *)
Lemma triple_liftW (A : Type) (P : L -> Prop) (m : St W A)
  (V : A -> Prop) (T : exn -> Prop) :
  (forall w, match m w with (Ok a, _) => V a | (Raise e, _) => T e end) ->
  triple P (liftW m) (fun a l => P l /\ V a) (fun e l => P l /\ T e).
Proof.
  intros Hm l w HP. unfold liftW. simpl.
  specialize (Hm w). destruct (m w) as [[a|e] w']; auto.
Qed.

Lemma triple_try_except (A : Type) (P : L -> Prop) (m : St (L * W) A)
  (h : exn -> St (L * W) A) Q (R : exn -> L -> Prop) E :
  triple P m Q R -> (forall e, triple (R e) (h e) Q E) ->
  triple P (try_except m h) Q E.
Proof.
  intros Hm Hh l w HP. unfold try_except.
  specialize (Hm l w HP).
  destruct (m (l, w)) as [[a|e] [l' w']]; [exact Hm|].
  exact (Hh e l' w' Hm).
Qed.




End Logic.

(** ** The platform variants *)

Section Variants.
Context {F : PyFloat} {W : Type} {H : Host W}.
Import ProcessCollector.

Lemma worded_text (c : exn_class) (s : string) : s <> "" -> worded (mk_exn c s).
Proof. intros Hs _. exact Hs. Qed.

Lemma host_worded (A : Type) (m : St W A) :
  (host_texted -> texted m) ->
  forall w, match m w with (Ok _, _) => True | (Raise e, _) => worded e end.
Proof.
  intros Hm w. destruct (m w) as [[a|e] w'] eqn:Hrun; [exact I|].
  intros HT. exact (Hm HT w e w' Hrun).
Qed.

Lemma cpu_usage_worded (pid : Z) (i : pyfloat) (w : W) :
  match _get_cpu_usage pid i w with
  | (Ok _, _) => True
  | (Raise e, _) => worded e
  end.
Proof.
  unfold _get_cpu_usage, try_except_of, try_except, bind.
  pose proof (host_worded (fun HT => texted_Process HT pid) w) as H1.
  destruct (psutil_Process pid w) as [[[]|e1] w1]; simpl.
  2:{ destruct (is_lookup_error e1); simpl; auto. }
  pose proof (host_worded (fun HT => texted_is_running HT pid) w1) as H2.
  destruct (psutil_is_running pid w1) as [[running|e2] w2]; simpl.
  2:{ destruct (is_lookup_error e2); simpl; auto. }
  destruct running; simpl; [|exact I].
  pose proof (host_worded (fun HT => texted_cpu_percent HT pid i) w2) as H3.
  destruct (psutil_cpu_percent pid i w2) as [[percent|e3] w3]; simpl.
  2:{ destruct (is_lookup_error e3); simpl; auto. }
  pose proof (host_worded (fun HT => texted_Process HT pid) w3) as H4.
  destruct (psutil_Process pid w3) as [[[]|e4] w4]; simpl.
  2:{ destruct (is_lookup_error e4); simpl; auto. }
  pose proof (host_worded (fun HT => texted_cpu_affinity HT pid) w4) as H5.
  destruct (psutil_cpu_affinity pid w4) as [[affinity|e5] w5]; simpl.
  2:{ destruct (is_lookup_error e5); simpl; auto. }
  destruct affinity; simpl; [|exact I].
  apply worded_text. discriminate.
Qed.

Lemma dict_getitem_worded (A : Type) (d : list (string * A)) (k : string) :
  match dict_getitem d k with Ok _ => True | Raise e => worded e end.
Proof.
  unfold dict_getitem. destruct (dict_get d k); [exact I|].
  apply worded_text. discriminate.
Qed.

Lemma py_get_worded (v : pyval) (k : string) :
  match py_get v k with Ok _ => True | Raise e => worded e end.
Proof. destruct v; simpl; try exact I; apply worded_text; discriminate. Qed.

Lemma json_loads_worded (s : string) :
  match json_loads s with Ok _ => True | Raise e => worded e end.
Proof.
  destruct (json_loads s) as [v|e] eqn:Hs; [exact I|].
  intros HT. exact (texted_json_loads HT s Hs).
Qed.

Lemma triple_deny (msg : string) (P : ProcessInfo.t -> Prop) Q E :
  (forall p, P p ->
     Q tt (ProcessInfo.set_error msg (ProcessInfo.set_accessible false p))) ->
  triple (W:=W) P (deny msg) Q E.
Proof. intros HQ p w HP. simpl. auto. Qed.

Lemma deny_denied (msg : string) (p : ProcessInfo.t) :
  (host_texted -> msg <> "") ->
  denied (ProcessInfo.set_error msg (ProcessInfo.set_accessible false p)).
Proof. intros Hmsg. unfold denied; simpl. eauto. Qed.

(** [proc_info.accessible = False; proc_info.error = msg; return proc_info] *)
Lemma early_return (msg : string) (P N : ProcessInfo.t -> Prop) E :
  msg <> "" ->
  triple (W:=W) P
    (deny msg ;;; proc_info <- get_local ;; ret (Some (RetInfo proc_info)))
    (fun r p =>
       match r with
       | Some ret => ret = RetInfo p /\ denied p
       | None => N p
       end) E.
Proof.
  intros Hmsg p w _. simpl. split; [reflexivity|].
  apply deny_denied. auto.
Qed.

Lemma keeps_bind (A B : Type) T I (m : St (ProcessInfo.t * W) A)
  (k : A -> St (ProcessInfo.t * W) B) Q :
  keeps T I m ->
  (forall a, triple I (k a) Q (fun e p => I p /\ T e)) ->
  triple I (bind m k) Q (fun e p => I p /\ T e).
Proof. intros Hm Hk. eapply triple_bind; [exact Hm|exact Hk]. Qed.

Lemma keeps_call (A : Type) (T : exn -> Prop) I (m : St W A) :
  (forall w, match m w with (Ok _, _) => True | (Raise e, _) => T e end) ->
  keeps T I (liftW m).
Proof.
  intros Hm. unfold keeps.
  eapply triple_weaken.
  - apply (@triple_liftW _ _ _ I _ (fun _ => True) T). exact Hm.
  - auto.
  - simpl; tauto.
  - simpl; tauto.
Qed.

Lemma keeps_result (A : Type) (T : exn -> Prop) I (r : result A) :
  match r with Ok _ => True | Raise e => T e end ->
  keeps (W:=W) T I (lift_result r).
Proof. intros Hr. apply triple_lift_result. intros p HI. destruct r; auto. Qed.

Lemma keeps_modify (T : exn -> Prop) (I : ProcessInfo.t -> Prop)
  (f : ProcessInfo.t -> ProcessInfo.t) :
  (forall p, I p -> I (f p)) -> keeps (W:=W) T I (modify f).
Proof. intros Hf. apply triple_modify. exact Hf. Qed.

Lemma any_result (A : Type) (r : result A) :
  match r with Ok _ => True | Raise _ => True end.
Proof. destruct r; exact I. Qed.

Lemma any_call (A : Type) (m : St W A) (w : W) :
  match m w with (Ok _, _) => True | (Raise _, _) => True end.
Proof. destruct (m w) as [[?|?] ?]; exact I. Qed.

(** Runs through a block of assignments and calls that keep [I]. *)
Ltac keep_going :=
  repeat first
    [ apply triple_ret; intros ? ?; assumption
    | apply keeps_bind; [|intros ?]
    | apply keeps_result;
      first [apply dict_getitem_worded | apply py_get_worded
            | apply json_loads_worded | apply any_result]
    | apply keeps_call; intros ?;
      first [apply cpu_usage_worded | apply any_call]
    | apply keeps_call; apply host_worded; intros HT; solve [apply HT]
    | apply triple_raise; intros ? ?; split; [assumption|exact I]
    | apply keeps_modify; unfold unflagged, framed; simpl; intuition auto ].

Lemma read_proc_status_total (pid : Z) (w : W) :
  exists d w', _read_proc_status pid w = (Ok d, w').
Proof.
  unfold _read_proc_status, try_except, bind, lift_result, ret.
  destruct (status_file_exists pid w) as [[present|e] w1]; simpl; eauto.
  destruct present; simpl; eauto.
  destruct (read_status_file pid w1) as [[lines|e] w2]; simpl; eauto.
  destruct (status_scan lines []); simpl; eauto.
Qed.

Lemma linux_try_spec (pid : Z) :
  triple (W:=W) (linux_inv pid) (linux_try pid)
    (fun r p =>
       match r with
       | Some ret => ret = RetInfo p /\ denied p
       | None => linux_inv pid p
       end)
    (fun e p => linux_inv pid p /\ worded e).
Proof.
  unfold linux_try, linux_inv.
  apply keeps_bind.
  { unfold keeps. intros p w HI. unfold liftW; simpl.
    destruct (read_proc_status_total pid w) as (d & w' & ->). exact HI. }
  intros stat_data.
  destruct (stat_data_missing stat_data).
  - apply early_return. discriminate.
  - keep_going.
Qed.

Lemma to_dict_floats (p : ProcessInfo.t) :
  is_float (ProcessInfo.cpu_percent p) -> is_float (ProcessInfo.memory_megabyte p) ->
  exists d, ProcessInfo.to_dict p = Ok d.
Proof.
  unfold ProcessInfo.to_dict.
  destruct (ProcessInfo.cpu_percent p); simpl; try tauto.
  destruct (ProcessInfo.memory_megabyte p); simpl; try tauto.
  eauto.
Qed.

Lemma info_ok_unflagged (p : ProcessInfo.t) : unflagged p -> info_ok p.
Proof. intros [Ha He]. unfold info_ok. rewrite Ha. exact He. Qed.

Lemma info_ok_denied (p : ProcessInfo.t) : denied p -> info_ok p.
Proof. intros [Ha He]. unfold info_ok. rewrite Ha. exact He. Qed.

Lemma init_unflagged (pid : Z) : unflagged (ProcessInfo.__init__ pid).
Proof. split; reflexivity. Qed.

Lemma init_framed (pid : Z) : framed pid (ProcessInfo.__init__ pid).
Proof. split; [reflexivity|exact I]. Qed.

(** The Linux variant always returns a record. *)
Lemma linux_returns (pid : Z) (w : W) :
  exists r w', _get_process_info_linux pid w = (Ok r, w') /\ record_of pid r.
Proof.
  assert (Hrun : triple (W:=W) (linux_inv pid)
            (try_except (linux_try pid)
               (fun e =>
                  (if isinstance e PermissionError
                   then deny "Permission denied"
                   else deny (exn_str e)) ;;;
                  ret None))
            (fun r p =>
               match r with
               | Some ret => ret = RetInfo p /\ denied p
               | None =>
                   (unflagged p \/ denied p) /\ framed pid p /\
                   is_float (ProcessInfo.memory_megabyte p)
               end)
            (fun _ _ => False)).
  { eapply triple_try_except.
    - eapply triple_weaken; [apply linux_try_spec|auto| |intros e p He; exact He].
      intros [ret|] p; unfold linux_inv; tauto.
    - intros e. eapply triple_bind with (R := fun _ p =>
        denied p /\ framed pid p /\ is_float (ProcessInfo.memory_megabyte p)).
      + destruct (isinstance e PermissionError); apply triple_deny;
          intros p [(Hu & Hf & Hm) He]; (split; [apply deny_denied|]);
          try discriminate; auto.
      + intros ?. apply triple_ret. tauto. }
  assert (Hinit : linux_inv pid (ProcessInfo.__init__ pid)).
  { repeat split; exact I. }
  unfold _get_process_info_linux.
  specialize (Hrun (ProcessInfo.__init__ pid) w Hinit).
  destruct (try_except _ _ (ProcessInfo.__init__ pid, w)) as [[[ret|]|e] [p w']].
  - destruct Hrun as [-> Hd].
    do 2 eexists. split; [reflexivity|]. simpl. split; [apply info_ok_denied|]; apply Hd.
  - destruct Hrun as (Hs & [Hpid Hcpu] & Hmem).
    destruct (to_dict_floats p Hcpu Hmem) as [d Hd].
    unfold return_to_dict. rewrite Hd. do 2 eexists. split; [reflexivity|].
    simpl. exists p. repeat split; auto.
    destruct Hs; [apply info_ok_unflagged|apply info_ok_denied]; assumption.
  - destruct Hrun.
Qed.


(** The macOS variant always returns a [ProcessInfo] object, and a denied
    one: the name is read from an attribute the class does not have. *)
Lemma macos_returns (pid : Z) (w : W) :
  exists p w', _get_process_info_macos pid w = (Ok (RetInfo p), w') /\ denied p.
Proof.
  assert (Htry : triple (W:=W) unflagged (macos_try pid)
            (fun r p =>
               match r with
               | Some ret => ret = RetInfo p /\ denied p
               | None => False
               end)
            (fun e p => unflagged p /\ True)).
  { unfold macos_try.
    apply keeps_bind; [keep_going|]. intros result.
    destruct (_ || _); [apply early_return; discriminate|].
    destruct (_ <? _)%nat; [apply early_return; discriminate|].
    apply keeps_bind; [keep_going|]. intros line1.
    destruct (_ <? _)%nat; [apply early_return; discriminate|].
    keep_going. }
  assert (Hrun : triple (W:=W) unflagged
            (try_except (macos_try pid)
               (fun e => deny ("Unexpected error: " ++ exn_str e) ;;; ret None))
            (fun r p =>
               match r with
               | Some ret => ret = RetInfo p /\ denied p
               | None => denied p
               end)
            (fun _ _ => False)).
  { eapply triple_try_except.
    - eapply triple_weaken; [exact Htry|auto| |intros e p He; exact He].
      intros [ret|] p; tauto.
    - intros e. eapply triple_bind with (R := fun _ p => denied p).
      + apply triple_deny. intros p _. apply deny_denied. discriminate.
      + intros ?. apply triple_ret. auto. }
  unfold _get_process_info_macos.
  specialize (Hrun (ProcessInfo.__init__ pid) w (init_unflagged pid)).
  destruct (try_except _ _ (ProcessInfo.__init__ pid, w)) as [[[ret|]|e] [p w']].
  - destruct Hrun as [-> Hd]. eauto.
  - eauto.
  - destruct Hrun.
Qed.

Lemma to_dict_cpu_float (p : ProcessInfo.t) :
  is_float (ProcessInfo.cpu_percent p) ->
  match ProcessInfo.to_dict p with
  | Ok _ => True
  | Raise e => exn_cls e = TypeError
  end.
Proof.
  unfold ProcessInfo.to_dict.
  destruct (ProcessInfo.cpu_percent p); simpl; try tauto. intros _.
  destruct (ProcessInfo.memory_megabyte p); simpl; auto.
Qed.

Lemma windows_try_spec (pid : Z) :
  triple (W:=W) (windows_inv pid) (windows_try pid)
    (fun _ p => (unflagged p \/ denied p) /\ framed pid p)
    (fun e p => windows_inv pid p /\ worded e).
Proof.
  unfold windows_try, windows_inv.
  apply keeps_bind; [keep_going|]. intros proc_data.
  apply keeps_bind.
  { destruct (_ && _); keep_going. }
  intros ?.
  eapply triple_bind.
  { apply triple_get_local with (Q := fun a p => a = p /\ unflagged p /\ framed pid p).
    auto. }
  intros process.
  destruct (negb _).
  - apply triple_deny. intros p (_ & Hu & Hf). split; [right|exact Hf].
    apply deny_denied. discriminate.
  - apply triple_ret. intros p (_ & Hu & Hf). auto.
Qed.

(** The Windows variant returns a record unless [to_dict] cannot round
    the memory figure. *)
Lemma windows_returns (pid : Z) (w : W) :
  match _get_process_info_windows pid w with
  | (Ok r, _) => record_of pid r
  | (Raise e, _) => exn_cls e = TypeError
  end.
Proof.
  assert (Hrun : triple (W:=W) (windows_inv pid)
            (try_except (windows_try pid) (fun e => deny (exn_str e)))
            (fun _ p => (unflagged p \/ denied p) /\ framed pid p)
            (fun _ _ => False)).
  { eapply triple_try_except; [apply windows_try_spec|].
    intros e. apply triple_deny. intros p [[Hu Hf] He]. split; [right|exact Hf].
    apply deny_denied. exact He. }
  unfold _get_process_info_windows.
  specialize (Hrun (ProcessInfo.__init__ pid) w
                (conj (init_unflagged pid) (init_framed pid))).
  destruct (try_except _ _ (ProcessInfo.__init__ pid, w)) as [[[]|e] [p w']];
    [|destruct Hrun].
  destruct Hrun as [Hs [Hpid Hcpu]].
  pose proof (to_dict_cpu_float p Hcpu) as Hd.
  unfold return_to_dict. destruct (ProcessInfo.to_dict p) as [d|e] eqn:Hdict; [|exact Hd].
  simpl. exists p. repeat split; auto.
  destruct Hs; [apply info_ok_unflagged|apply info_ok_denied]; assumption.
Qed.

Lemma get_process_info_cases (pid : Z) (w : W) :
  match get_process_info pid w with
  | (Ok RetNone, w') => supported = false /\ w' = w
  | (Ok r, _) => supported = true /\ record_of pid r
  | (Raise e, _) => supported = true /\ exn_cls e = TypeError
  end.
Proof.
  unfold get_process_info, supported.
  destruct (Str.startswith os "linux"); simpl.
  { destruct (linux_returns pid w) as (r & w' & -> & Hr).
    destruct r; simpl in *; tauto. }
  destruct (String.eqb os "darwin"); simpl.
  { destruct (macos_returns pid w) as (p & w' & -> & Hd).
    split; [reflexivity|]. simpl. split; [apply info_ok_denied|]; apply Hd. }
  destruct (Str.contains "win" os); simpl; [|auto].
  pose proof (windows_returns pid w) as Hw.
  destruct (_get_process_info_windows pid w) as [[r|e] w']; [|auto].
  destruct r; simpl in *; tauto.
Qed.

End Variants.

(** ** The loop of the engine *)

Section Engine.
Context {F : PyFloat} {W : Type} {H : Host W}.
Import ProcessCollector.

Lemma select_snoc (A : Type) (keep : list bool) (l : list A) (b : bool) (x : A) :
  List.length keep = List.length l ->
  select (keep ++ [b]) (l ++ [x]) = (select keep l ++ if b then [x] else [])%list.
Proof.
  revert l. induction keep as [|k keep IH]; intros [|y l] Hlen; simpl in *; try discriminate.
  - destruct b; reflexivity.
  - injection Hlen as Hlen. rewrite (IH l Hlen). destruct k; reflexivity.
Qed.

Lemma select_split_length (A : Type) (keep : list bool) (l : list A) :
  List.length keep = List.length l ->
  (List.length (select keep l) + List.length (select (map negb keep) l))%nat
  = List.length l.
Proof.
  revert l. induction keep as [|k keep IH]; intros [|y l] Hlen; simpl in *; try discriminate.
  - reflexivity.
  - injection Hlen as Hlen. specialize (IH l Hlen). destruct k; simpl; lia.
Qed.

Lemma to_dict_fields (p : ProcessInfo.t) (d : pydict) :
  ProcessInfo.to_dict p = Ok d ->
  dict_get d "pid" = Some (PInt (ProcessInfo.pid p)) /\
  dict_get d "accessible" = Some (PBool (ProcessInfo.accessible p)) /\
  dict_get d "error" = Some (ProcessInfo.error_value (ProcessInfo.error p)) /\
  dict_get d "name" = Some (ProcessInfo.name p).
Proof.
  unfold ProcessInfo.to_dict.
  destruct (ProcessInfo.rounded _); [|discriminate].
  destruct (ProcessInfo.rounded _); [|discriminate].
  intros [= <-]. repeat split.
Qed.

Lemma tally_accept (idd : bool) (done : list Z) (st : LoopState) (pid : Z) (r : proc_ret) :
  tally idd done st -> accepted pid r ->
  tally idd (done ++ [pid]) (add_process r (log_probe pid st)).
Proof.
  intros [Hp (vs & Hlen & Hacc & Hna & Hnd & Hdet)] Hr.
  split; [simpl; now rewrite Hp|].
  exists (vs ++ [true])%list. simpl.
  rewrite map_app; simpl.
  rewrite !select_snoc by (rewrite ?length_map; assumption).
  rewrite !length_app, Hlen, app_nil_r. simpl.
  repeat split; auto; try lia.
  apply Forall2_app; auto.
Qed.

Lemma tally_reject_detail (done : list Z) (st : LoopState) (pid : Z) (d : pydict) :
  tally true done st -> detail_of pid d ->
  tally true (done ++ [pid]) (add_denied_detail d (add_denied_count (log_probe pid st))).
Proof.
  intros [Hp (vs & Hlen & Hacc & Hna & Hnd & Hdet)] Hd.
  split; [simpl; now rewrite Hp|].
  exists (vs ++ [false])%list.
  rewrite map_app; simpl.
  rewrite !select_snoc by (rewrite ?length_map; assumption).
  rewrite !length_app, Hlen, app_nil_r. simpl.
  repeat split; auto; try lia.
  apply Forall2_app; auto.
Qed.

Lemma tally_reject_plain (done : list Z) (st : LoopState) (pid : Z) :
  tally false done st ->
  tally false (done ++ [pid]) (add_denied_count (log_probe pid st)).
Proof.
  intros [Hp (vs & Hlen & Hacc & Hna & Hnd & Hdet)].
  split; [simpl; now rewrite Hp|].
  exists (vs ++ [false])%list.
  rewrite map_app; simpl.
  rewrite !select_snoc by (rewrite ?length_map; assumption).
  rewrite !length_app, Hlen, app_nil_r. simpl.
  repeat split; auto; lia.
Qed.

(** One turn of the loop never raises and counts its PID on one side. *)
Lemma classify_tally (idd : bool) (pid : Z) (done : list Z) (st : LoopState) (w : W) :
  tally idd done st ->
  exists st' w',
    classify idd pid (st, w) = (Ok tt, (st', w')) /\ tally idd (done ++ [pid]) st'.
Proof.
  intros Ht.
  assert (Hplace : truthy (PStr (pid_placeholder pid)) = true) by reflexivity.
  pose proof (get_process_info_cases pid w) as Hcases.
  unfold classify, classify_try, try_except, bind, liftW, modify, lift_result. simpl.
  destruct (get_process_info pid w) as [[[p|d|]|e] w1]; simpl.
  - (* a ProcessInfo object: it has no [get] *)
    destruct idd; simpl; do 2 eexists; (split; [reflexivity|]);
      [apply tally_reject_detail|apply tally_reject_plain]; auto.
    do 2 eexists; split; [reflexivity|exact Hplace].
  - (* a dict made by [to_dict] *)
    destruct Hcases as [_ (p & Hd & Hok & Hpid)].
    destruct (to_dict_fields p Hd) as (Dpid & Dacc & Derr & Dname).
    unfold pydict_get. rewrite Dacc. simpl.
    destruct (ProcessInfo.accessible p) eqn:Hacc; simpl.
    + do 2 eexists. split; [reflexivity|].
      apply tally_accept; auto. exists p, d.
      unfold info_ok in Hok. rewrite Hacc in Hok. auto.
    + destruct idd; simpl; do 2 eexists; (split; [reflexivity|]);
        [apply tally_reject_detail|apply tally_reject_plain]; auto.
      do 2 eexists; split; [reflexivity|].
      rewrite Dname. destruct (truthy (ProcessInfo.name p)) eqn:Hn; auto.
  - (* None *)
    destruct idd; simpl; do 2 eexists; (split; [reflexivity|]);
      [apply tally_reject_detail|apply tally_reject_plain]; auto.
    do 2 eexists; split; [reflexivity|exact Hplace].
  - (* get_process_info raised *)
    destruct idd; simpl; do 2 eexists; (split; [reflexivity|]);
      [apply tally_reject_detail|apply tally_reject_plain]; auto.
    do 2 eexists; split; [reflexivity|exact Hplace].
Qed.

Lemma loop_tally (idd : bool) (pids : list Z) :
  forall (done : list Z) (st : LoopState) (w : W),
    tally idd done st ->
    exists st' w',
      for_each pids (classify idd) (st, w) = (Ok tt, (st', w')) /\
      tally idd (done ++ pids) st'.
Proof.
  induction pids as [|pid rest IH]; intros done st w Ht; simpl.
  - rewrite app_nil_r. do 2 eexists. split; [reflexivity|exact Ht].
  - destruct (classify_tally pid w Ht) as (st1 & w1 & Hrun & Ht1).
    unfold bind. rewrite Hrun.
    destruct (IH _ st1 w1 Ht1) as (st' & w' & Hloop & Ht').
    rewrite <- app_assoc in Ht'. eauto.
Qed.

End Engine.

Section Pass.
Context {F : PyFloat} {W : Type} {H : Host W}.
Import ProcessCollector.

(** The enumerator never raises and returns a list sorted by [sorted]. *)
Lemma get_pid_list_returns (w : W) :
  exists raw w', _get_pid_list w = (Ok (sorted_reverse raw), w').
Proof.
  unfold _get_pid_list.
  destruct (try_except pid_list_try _ ([], w)) as [r [pids w']]. eauto.
Qed.

Lemma tally_start (idd : bool) : tally idd [] (mk_loop [] [] 0 0 []).
Proof.
  split; [reflexivity|]. exists []. simpl.
  repeat split; auto. destruct idd; auto.
Qed.

(** What a pass returns, in terms of the enumerator's list. *)
Lemma collect_pass_spec (idd : bool) (N : Z) (w : W) :
  exists enumerated w0 pass w',
    _get_pid_list w = (Ok enumerated, w0) /\
    descending enumerated /\
    collect_pass idd N w = (Ok pass, w') /\
    pass_processes pass = processes (pass_loop pass) /\
    tally idd (pass_pids enumerated N) (pass_loop pass) /\
    dict_get (pass_access_info pass) "total_found_process"
      = Some (PInt (Z.of_nat (List.length (pass_pids enumerated N)))) /\
    dict_get (pass_access_info pass) "accessible_processes"
      = Some (PInt (accessible_count (pass_loop pass))) /\
    dict_get (pass_access_info pass) "permission_denied"
      = Some (PInt (denied_count (pass_loop pass))) /\
    dict_get (pass_access_info pass) "denied_details"
      = match denied_processes (pass_loop pass) with
        | [] => None
        | details => if idd then Some (PList (map PDict details)) else None
        end.
Proof.
  destruct (get_pid_list_returns w) as (raw & w0 & Hlist).
  destruct (loop_tally (pass_pids (sorted_reverse raw) N) w0 (tally_start idd))
    as (st & w' & Hloop & Ht).
  simpl in Ht.
  exists (sorted_reverse raw), w0.
  unfold collect_pass, bind. rewrite Hlist.
  fold (pass_pids (sorted_reverse raw) N). rewrite Hloop.
  do 2 eexists. split; [reflexivity|]. split; [apply sorted_reverse_descending|].
  split; [reflexivity|]. simpl.
  split; [reflexivity|]. split; [exact Ht|].
  destruct idd, (denied_processes st); simpl; repeat split; reflexivity.
Qed.

Lemma collect_processes_pass (verbose idd : bool) (N : Z) (w : W) pass w' :
  collect_pass idd N w = (Ok pass, w') ->
  collect_processes verbose idd N w
  = (Ok (pass_processes pass, pass_access_info pass), w').
Proof. intros Hp. unfold collect_processes, bind. rewrite Hp. reflexivity. Qed.

Lemma tally_counts (idd : bool) (done : list Z) (st : LoopState) :
  tally idd done st ->
  accessible_count st + denied_count st = Z.of_nat (List.length (probed st)).
Proof.
  intros [Hp (vs & Hlen & _ & Ha & Hd & _)].
  rewrite Hp, Ha, Hd, <- (select_split_length vs done Hlen). lia.
Qed.

Lemma accepted_fields (pid : Z) (r : proc_ret) :
  accepted pid r ->
  exists d, r = RetDict d /\
    dict_get d "pid" = Some (PInt pid) /\
    dict_get d "accessible" = Some (PBool true) /\
    dict_get d "error" = Some PNone.
Proof.
  intros (p & d & -> & Hd & Hpid & Hacc & Herr).
  destruct (to_dict_fields p Hd) as (Dpid & Dacc & Derr & _).
  rewrite Hpid in Dpid. rewrite Hacc in Dacc. rewrite Herr in Derr.
  exists d. auto.
Qed.

Lemma accepted_all (l : list Z) (rs : list proc_ret) :
  Forall2 accepted l rs ->
  Forall (fun r => exists d, r = RetDict d /\
                     dict_get d "accessible" = Some (PBool true) /\
                     dict_get d "error" = Some PNone) rs.
Proof.
  induction 1 as [|pid r l rs Hr _ IH]; constructor; [|exact IH].
  destruct (accepted_fields Hr) as (d & -> & _ & Ha & He). eauto.
Qed.

End Pass.

(** ** A pass as a sequence of calls *)

Section Probes.
Context {F : PyFloat} {W : Type} {H : Host W}.
Import ProcessCollector.

Lemma probes_length (pids : list Z) :
  forall w : W, List.length (fst (probes pids w)) = List.length pids.
Proof.
  induction pids as [|pid rest IH]; intros w; simpl; [reflexivity|].
  destruct (get_process_info pid w) as [r w1].
  specialize (IH w1). destruct (probes rest w1) as [rs w2]. simpl in *. now rewrite IH.
Qed.

Lemma tally_of_split (outcomes : list (result proc_ret)) :
  tally_of taken outcomes + tally_of left_out outcomes
  = Z.of_nat (List.length outcomes).
Proof.
  unfold tally_of.
  induction outcomes as [|r rest IH]; [reflexivity|].
  cbn [filter]. unfold left_out at 1.
  destruct (taken r); cbn [negb List.length]; lia.
Qed.

Lemma tally_of_cons (f : result proc_ret -> bool) (r : result proc_ret)
  (rest : list (result proc_ret)) :
  tally_of f (r :: rest) = (if f r then 1 else 0) + tally_of f rest.
Proof. unfold tally_of. cbn [filter]. destruct (f r); cbn [List.length]; lia. Qed.

(** One turn of the loop calls [get_process_info] once, never raises,
    and adds one to one counter: to [accessible_count], with the value
    appended to [processes], when the outcome is taken, to
    [denied_count] otherwise. *)
Lemma classify_turn (idd : bool) (pid : Z) (st : LoopState) (w : W) :
  exists st',
    classify idd pid (st, w) = (Ok tt, (st', snd (get_process_info pid w))) /\
    processes st' = (processes st ++ kept [fst (get_process_info pid w)])%list /\
    accessible_count st'
      = accessible_count st + (if taken (fst (get_process_info pid w)) then 1 else 0) /\
    denied_count st'
      = denied_count st + (if taken (fst (get_process_info pid w)) then 0 else 1).
Proof.
  unfold classify, classify_try, try_except, bind, liftW, modify, lift_result. simpl.
  destruct (get_process_info pid w) as [[r|e] w1]; simpl.
  - destruct (ret_get r "accessible") as [acc|e] eqn:Hacc; simpl.
    + destruct (truthy acc) eqn:Ht; simpl.
      * eexists. split; [reflexivity|]. simpl. repeat split; lia.
      * destruct r as [p|d|]; simpl in Hacc; try discriminate.
        destruct idd; simpl; eexists; (split; [reflexivity|]); simpl;
          rewrite app_nil_r; repeat split; lia.
    + destruct idd; simpl; eexists; (split; [reflexivity|]); simpl;
        rewrite app_nil_r; repeat split; lia.
  - destruct idd; simpl; eexists; (split; [reflexivity|]); simpl;
      rewrite app_nil_r; repeat split; lia.
Qed.

Lemma kept_cons (r : result proc_ret) (rest : list (result proc_ret)) :
  kept (r :: rest) = (kept [r] ++ kept rest)%list.
Proof. destruct r as [p|e]; simpl; [destruct (match ret_get p "accessible" with Ok acc => truthy acc | Raise _ => false end)|]; reflexivity. Qed.

(** The loop is the sequence of these calls: it never raises, leaves
    the machine as the calls leave it, and its variables hold the
    outcomes taken and the two counts. *)
Lemma loop_runs_probes (idd : bool) (pids : list Z) :
  forall (st : LoopState) (w : W),
  exists st',
    for_each pids (classify idd) (st, w) = (Ok tt, (st', snd (probes pids w))) /\
    processes st' = (processes st ++ kept (fst (probes pids w)))%list /\
    accessible_count st' = accessible_count st + tally_of taken (fst (probes pids w)) /\
    denied_count st' = denied_count st + tally_of left_out (fst (probes pids w)).
Proof.
  induction pids as [|pid rest IH]; intros st w.
  - exists st. simpl. rewrite app_nil_r. unfold tally_of. simpl.
    repeat split; lia.
  - destruct (classify_turn idd pid st w) as (st1 & Hrun & Hp & Ha & Hd).
    cbn [for_each probes]. unfold bind at 1. rewrite Hrun.
    destruct (get_process_info pid w) as [r w1]. cbn [fst snd] in *.
    destruct (IH st1 w1) as (st' & Hloop & Hp' & Ha' & Hd').
    destruct (probes rest w1) as [rs w2]. cbn [fst snd] in *.
    exists st'. split; [exact Hloop|].
    rewrite Hp', Hp, Ha', Ha, Hd', Hd, <- app_assoc, <- kept_cons.
    rewrite !tally_of_cons. change (left_out r) with (negb (taken r)).
    destruct (taken r); cbn [negb]; repeat split; lia.
Qed.

(** A pass is the enumeration followed by the calls for the PIDs left
    after the cut, and nothing else: it returns the outcomes taken and
    the summary counts them. *)
Lemma collect_processes_probes (verbose idd : bool) (N : Z) (w : W) :
  exists enumerated w0 outcomes w' access_info,
    _get_pid_list w = (Ok enumerated, w0) /\
    descending enumerated /\
    probes (pass_pids enumerated N) w0 = (outcomes, w') /\
    List.length outcomes = List.length (pass_pids enumerated N) /\
    collect_processes verbose idd N w = (Ok (kept outcomes, access_info), w') /\
    dict_get access_info "total_found_process"
      = Some (PInt (Z.of_nat (List.length (pass_pids enumerated N)))) /\
    dict_get access_info "accessible_processes" = Some (PInt (tally_of taken outcomes)) /\
    dict_get access_info "permission_denied" = Some (PInt (tally_of left_out outcomes)).
Proof.
  destruct (get_pid_list_returns w) as (raw & w0 & Hlist).
  destruct (loop_runs_probes idd (pass_pids (sorted_reverse raw) N)
              (mk_loop [] [] 0 0 []) w0) as (st & Hloop & Hp & Ha & Hd).
  pose proof (probes_length (pass_pids (sorted_reverse raw) N) w0) as Hlen.
  destruct (probes (pass_pids (sorted_reverse raw) N) w0) as [outcomes w'] eqn:Hprobes.
  cbn [fst snd processes accessible_count denied_count] in *.
  simpl in Hp.
  exists (sorted_reverse raw), w0, outcomes, w'.
  unfold collect_processes, collect_pass, bind. rewrite Hlist.
  fold (pass_pids (sorted_reverse raw) N). rewrite Hloop.
  cbn [pass_processes pass_access_info ret].
  rewrite Hp, Ha, Hd, !Z.add_0_l.
  eexists. split; [reflexivity|]. split; [apply sorted_reverse_descending|].
  split; [exact Hprobes|]. split; [exact Hlen|]. split; [reflexivity|].
  destruct (idd && _); repeat split; reflexivity.
Qed.


End Probes.

(** ** The host memory probe *)

Section Memory.
Context {F : PyFloat} {W : Type} {H : Host W}.
Import ProcessCollector.

Lemma total_memory_returns (w : W) :
  exists v w', _get_total_memory w = (Ok v, w').
Proof.
  unfold _get_total_memory, try_except.
  destruct (total_memory_try w) as [[v|e] w']; do 2 eexists; reflexivity.
Qed.

Lemma probe_failure_raises (w w' : W) :
  probe_failure w w' -> exists e, total_memory_try w = (Raise e, w').
Proof.
  intros [e Hb Hrun|result Hb Hrun Hrc Hparse|e Hb Hrun|lines e Hb Hrun Hscan];
    unfold total_memory_try; unfold memory_branch_of in Hb.
  - destruct (Str.contains "darwin" _); [|destruct (Str.contains "linux" _);
      [|destruct (Str.contains "win" _)]]; try discriminate.
    unfold bind. rewrite Hrun. eexists; reflexivity.
  - destruct (Str.contains "darwin" _); [|destruct (Str.contains "linux" _);
      [|destruct (Str.contains "win" _)]]; try discriminate.
    unfold bind. rewrite Hrun, Hrc. simpl.
    unfold list_getitem, lift_result.
    destruct (nth_error _ 1) as [field|] eqn:Hfield; [|eexists; reflexivity].
    unfold py_int. rewrite (Hparse field eq_refl). eexists; reflexivity.
  - destruct (Str.contains "darwin" _); [|destruct (Str.contains "linux" _);
      [|destruct (Str.contains "win" _)]]; try discriminate.
    unfold bind. rewrite Hrun. eexists; reflexivity.
  - destruct (Str.contains "darwin" _); [|destruct (Str.contains "linux" _);
      [|destruct (Str.contains "win" _)]]; try discriminate.
    unfold bind, lift_result. rewrite Hrun, Hscan. eexists; reflexivity.
Qed.

Lemma total_memory_default (w w' : W) :
  probe_failure w w' -> _get_total_memory w = (Ok (Some 8589934592), w').
Proof.
  intros Hf. destruct (probe_failure_raises Hf) as [e He].
  unfold _get_total_memory, try_except. rewrite He. reflexivity.
Qed.

Lemma total_memory_no_branch (w : W) :
  memory_branch_of os = NoBranch -> _get_total_memory w = (Ok (Some 0), w).
Proof.
  unfold _get_total_memory, try_except, total_memory_try, memory_branch_of.
  destruct (Str.contains "darwin" _); [|destruct (Str.contains "linux" _);
    [|destruct (Str.contains "win" _)]]; try discriminate.
  reflexivity.
Qed.

(** On the PowerShell branch a failed probe gives Python's [None], not the
    default: the inner handler prints and falls off the end. *)
Lemma total_memory_powershell_failure (w w' : W) (e : exn) :
  memory_branch_of os = PowershellBranch ->
  run_powershell_memory w = (Raise e, w') ->
  _get_total_memory w = (Ok None, w').
Proof.
  unfold _get_total_memory, total_memory_try, memory_branch_of.
  destruct (Str.contains "darwin" _); [|destruct (Str.contains "linux" _);
    [|destruct (Str.contains "win" _)]]; try discriminate.
  intros _ Hrun. unfold try_except, bind. rewrite Hrun. reflexivity.
Qed.

End Memory.

(** ** The CSV formatter *)

Section Formatter.
Context {F : PyFloat}.
Import OutputFormatter.

Lemma subscript_present (r : pydict) (k : string) :
  dict_get r k <> None -> py_subscript (PDict r) k = Ok (pydict_get r k).
Proof.
  unfold py_subscript, pydict_get. destruct (dict_get r k); [reflexivity|congruence].
Qed.

Lemma csv_cells_ok (headers : list string) (r : pydict) :
  has_keys headers r ->
  csv_cells (PDict r) headers = Ok (map (fun k => py_str (pydict_get r k)) headers).
Proof.
  induction headers as [|k rest IH]; intros Hk; [reflexivity|].
  cbn [csv_cells map].
  rewrite subscript_present by (apply Hk; left; reflexivity).
  rewrite IH by (intros k' Hin; apply Hk; right; exact Hin).
  reflexivity.
Qed.

Lemma csv_rows_ok (headers : list string) (recs : list pydict) :
  Forall (has_keys headers) recs ->
  forall csv_lines,
    csv_rows (map PDict recs) headers csv_lines
    = Ok (csv_lines ++ map (csv_line headers) recs)%list.
Proof.
  induction 1 as [|r recs Hr _ IH]; intros csv_lines; cbn [csv_rows map].
  - now rewrite app_nil_r.
  - rewrite (csv_cells_ok Hr), IH, <- app_assoc. reflexivity.
Qed.

Lemma summary_ok (r : pydict) :
  has_keys five_fields r -> summary (PDict r) = Ok (PDict (five_of r)).
Proof.
  intros Hk. unfold summary.
  rewrite !subscript_present by (apply Hk; simpl; tauto).
  reflexivity.
Qed.

Lemma summaries_ok (recs : list pydict) :
  Forall (has_keys five_fields) recs ->
  forall acc,
    summaries (map PDict recs) acc
    = Ok (acc ++ map (fun r => PDict (five_of r)) recs)%list.
Proof.
  induction 1 as [|r recs Hr _ IH]; intros acc; cbn [summaries map].
  - now rewrite app_nil_r.
  - rewrite (summary_ok Hr), IH, <- app_assoc. reflexivity.
Qed.

Lemma five_of_keys (r : pydict) : has_keys five_fields (five_of r).
Proof.
  intros k Hin. simpl in Hin.
  destruct Hin as [<-|[<-|[<-|[<-|[<-|[]]]]]]; discriminate.
Qed.

Lemma csv_line_five_of (r : pydict) :
  csv_line five_fields (five_of r) = csv_line five_fields r.
Proof. reflexivity. Qed.

(** The [processes] entry survives the two optional entries [to_json] adds. *)
Lemma return_json_processes (procs a b : pyval) (c i : bool) :
  dict_get
    (if c
     then dict_set
            (if i then dict_set [("processes", procs)] "system_info" a
             else [("processes", procs)])
            "denied_processes" b
     else if i then dict_set [("processes", procs)] "system_info" a
          else [("processes", procs)])
    "processes" = Some procs.
Proof. destruct c, i; reflexivity. Qed.

Lemma return_json_get (procs a b : pyval) (c i : bool) :
  pydict_get
    (if c
     then dict_set
            (if i then dict_set [("processes", procs)] "system_info" a
             else [("processes", procs)])
            "denied_processes" b
     else if i then dict_set [("processes", procs)] "system_info" a
          else [("processes", procs)])
    "processes" = procs.
Proof. destruct c, i; reflexivity. Qed.

Lemma to_csv_empty (data : pydict) (args : Namespace) :
  dict_get data "processes" = Some (PList []) ->
  to_csv data (Some args) = Raise (mk_exn ValueError "No process data passed.").
Proof.
  intros Hp. unfold to_csv, to_json, dict_getitem. rewrite Hp.
  destruct (advanced args); cbn [negb py_iter summaries];
    cbv beta iota zeta; cbn [json_loads_text py_get];
    rewrite return_json_get; reflexivity.
Qed.

Lemma to_csv_rows (data : pydict) (args : Namespace) (first : pydict) (rest : list pydict) :
  dict_get data "processes" = Some (PList (map PDict (first :: rest))) ->
  Forall (has_keys (csv_headers args first)) (first :: rest) ->
  to_csv data (Some args)
  = Ok (String.concat newline
          (String.concat "," (csv_headers args first)
             :: map (csv_line (csv_headers args first)) (first :: rest))).
Proof.
  intros Hp Hk. unfold to_csv, to_json, dict_getitem. rewrite Hp.
  unfold csv_headers in *.
  destruct (advanced args); cbn [negb py_iter].
  - cbv beta iota zeta. cbn [json_loads_text py_get py_subscript].
    rewrite ?return_json_get, ?return_json_processes.
    cbn [map truthy negb py_first py_keys py_iter].
    change (PDict first :: map PDict rest) with (map PDict (first :: rest)).
    rewrite (csv_rows_ok Hk). reflexivity.
  - rewrite (summaries_ok Hk). cbn [app]. rewrite <- (map_map five_of PDict).
    cbv beta iota zeta. cbn [json_loads_text py_get py_subscript].
    rewrite ?return_json_get, ?return_json_processes.
    cbn [map truthy negb py_first py_keys py_iter].
    change (PDict (five_of first) :: map PDict (map five_of rest))
      with (map PDict (map five_of (first :: rest))).
    rewrite csv_rows_ok.
    + rewrite map_map. reflexivity.
    + apply Forall_forall. intros r Hin. apply in_map_iff in Hin.
      destruct Hin as (r' & <- & _). apply five_of_keys.
Qed.

(** The records the engine hands over have the header fields, in both
    modes: they are all made by [to_dict]. *)
Lemma to_dict_keys (p : ProcessInfo.t) (d : pydict) :
  ProcessInfo.to_dict p = Ok d ->
  dict_keys d = ["pid"; "name"; "user"; "cpu_percent"; "memory_megabyte";
                 "status"; "accessible"; "error"].
Proof.
  unfold ProcessInfo.to_dict.
  destruct (ProcessInfo.rounded _); [|discriminate].
  destruct (ProcessInfo.rounded _); [|discriminate].
  intros [= <-]. reflexivity.
Qed.

Lemma to_dict_has_keys (args : Namespace) (p p' : ProcessInfo.t) (d d' : pydict) :
  ProcessInfo.to_dict p = Ok d -> ProcessInfo.to_dict p' = Ok d' ->
  has_keys (csv_headers args d) d'.
Proof.
  intros Hd Hd' k. unfold csv_headers. rewrite (to_dict_keys p Hd).
  revert Hd'. unfold ProcessInfo.to_dict.
  destruct (ProcessInfo.rounded _); [|discriminate].
  destruct (ProcessInfo.rounded _); [|discriminate].
  intros [= <-].
  destruct (advanced args); simpl;
    intros Hin; repeat (destruct Hin as [<-|Hin]; [discriminate|]); destruct Hin.
Qed.

Lemma to_csv_of_records (data : pydict) (args : Namespace)
  (infos : list ProcessInfo.t) (first : pydict) (rest : list pydict) :
  Forall2 (fun p d => ProcessInfo.to_dict p = Ok d) infos (first :: rest) ->
  dict_get data "processes" = Some (PList (map PDict (first :: rest))) ->
  to_csv data (Some args)
  = Ok (String.concat newline
          (String.concat "," (csv_headers args first)
             :: map (csv_line (csv_headers args first)) (first :: rest))).
Proof.
  intros Hall Hp. apply to_csv_rows; [exact Hp|].
  inversion Hall as [|p0 d0 infos' ds' Hfirst Hrest]; subst.
  constructor; [exact (to_dict_has_keys args p0 p0 Hfirst Hfirst)|].
  clear Hall Hp. induction Hrest as [|p d ps ds Hd _ IH]; constructor; [|exact IH].
  exact (to_dict_has_keys args p0 p Hfirst Hd).
Qed.

(** [to_dict] rounds each of the two figures once: the entry of the
    [dict] is [rounded] of the field. *)
Lemma to_dict_rounded (p : ProcessInfo.t) (d : pydict) :
  ProcessInfo.to_dict p = Ok d ->
  exists cpu mem,
    ProcessInfo.rounded (ProcessInfo.cpu_percent p) = Ok cpu /\
    ProcessInfo.rounded (ProcessInfo.memory_megabyte p) = Ok mem /\
    dict_get d "cpu_percent" = Some cpu /\
    dict_get d "memory_megabyte" = Some mem.
Proof.
  unfold ProcessInfo.to_dict.
  destruct (ProcessInfo.rounded (ProcessInfo.cpu_percent p)) as [cpu|]; [|discriminate].
  destruct (ProcessInfo.rounded (ProcessInfo.memory_megabyte p)) as [mem|]; [|discriminate].
  intros [= <-]. exists cpu, mem. repeat split.
Qed.

End Formatter.

(** ** The claims *)

Section Claims.
Context {F : PyFloat} {W : Type} {H : Host W}.
Import ProcessCollector.

(** On a platform without a branch [get_process_info] returns [None] and
    asks nothing of the machine. *)
Lemma get_process_info_no_branch (pid : Z) (w : W) :
  supported = false -> get_process_info pid w = (Ok RetNone, w).
Proof.
  unfold supported, get_process_info.
  destruct (Str.startswith os "linux"); [discriminate|].
  destruct (String.eqb os "darwin"); [discriminate|].
  destruct (Str.contains "win" os); [discriminate|]. reflexivity.
Qed.

(** On Linux and macOS [get_process_info] returns a record for every PID
    and every state of the machine. *)
Lemma get_process_info_posix (pid : Z) (w : W) :
  (Str.startswith os "linux" || String.eqb os "darwin") = true ->
  exists r w', get_process_info pid w = (Ok r, w') /\ record_of pid r.
Proof.
  unfold get_process_info. intros Hos.
  destruct (Str.startswith os "linux"); [apply linux_returns|].
  destruct (String.eqb os "darwin"); [|discriminate].
  destruct (macos_returns pid w) as (p & w' & Hrun & Hd).
  exists (RetInfo p), w'. split; [exact Hrun|].
  split; [apply info_ok_denied|]; apply Hd.
Qed.

(** C2.  With a limit [N > 0], a pass calls [get_process_info] for the
    first [N] PIDs of the enumerator's list and for no other:
    [min N (number enumerated)] calls, made in the enumerator's
    descending order after the enumeration is over.  The machine is left
    as these calls leave it, the records returned are the outcomes
    taken, and the two counters count the outcomes of these calls. *)
Theorem collect_probes_first_N (verbose idd : bool) (N : Z) (w : W) :
  0 < N ->
  exists enumerated w0 outcomes w' access_info,
    _get_pid_list w = (Ok enumerated, w0) /\
    descending enumerated /\
    descending (firstn (Z.to_nat N) enumerated) /\
    probes (firstn (Z.to_nat N) enumerated) w0 = (outcomes, w') /\
    Z.of_nat (List.length outcomes) = Z.min N (Z.of_nat (List.length enumerated)) /\
    collect_processes verbose idd N w = (Ok (kept outcomes, access_info), w') /\
    dict_get access_info "accessible_processes" = Some (PInt (tally_of taken outcomes)) /\
    dict_get access_info "permission_denied" = Some (PInt (tally_of left_out outcomes)).
Proof.
  intros HN.
  destruct (collect_processes_probes verbose idd N w)
    as (enumerated & w0 & outcomes & w' & access_info
        & Hlist & Hdesc & Hprobes & Hlen & Hrun & _ & Ha & Hd).
  unfold pass_pids, slice_to in Hprobes, Hlen.
  assert (HN' : (N >? 0) = true) by (apply Z.gtb_lt; lia).
  rewrite HN' in Hprobes, Hlen.
  exists enumerated, w0, outcomes, w', access_info.
  repeat split; auto.
  - apply firstn_descending. exact Hdesc.
  - rewrite Hlen. apply firstn_length_min. exact HN.
Qed.

(** C3.  In the summary of every pass the two counters add up to the
    number of PIDs left after the cut to the limit, which is the number
    of calls of [get_process_info]: [accessible_processes] counts the
    calls whose outcome was taken, [permission_denied] every other call,
    those that raised included. *)
Theorem counters_add_up_to_probed (verbose idd : bool) (N : Z) (w : W) :
  exists enumerated w0 outcomes w' processes access_info a d,
    _get_pid_list w = (Ok enumerated, w0) /\
    probes (pass_pids enumerated N) w0 = (outcomes, w') /\
    List.length outcomes = List.length (pass_pids enumerated N) /\
    collect_processes verbose idd N w = (Ok (processes, access_info), w') /\
    dict_get access_info "accessible_processes" = Some (PInt a) /\
    dict_get access_info "permission_denied" = Some (PInt d) /\
    a = tally_of taken outcomes /\
    d = tally_of left_out outcomes /\
    a + d = Z.of_nat (List.length (pass_pids enumerated N)).
Proof.
  destruct (collect_processes_probes verbose idd N w)
    as (enumerated & w0 & outcomes & w' & access_info
        & Hlist & _ & Hprobes & Hlen & Hrun & _ & Ha & Hd).
  exists enumerated, w0, outcomes, w', (kept outcomes), access_info,
    (tally_of taken outcomes), (tally_of left_out outcomes).
  repeat split; auto.
  rewrite tally_of_split, Hlen. reflexivity.
Qed.

(** C4, as amended.  A record [get_process_info] returns is of one of two
    kinds: accessible with no error, or not accessible with an error
    text.  The text is not empty when the exceptions of the host have
    texts; the Linux and Windows variants store [str(e)] as it is. *)
Theorem record_error_matches_flag (pid : Z) (w w' : W) (r : proc_ret) :
  get_process_info pid w = (Ok r, w') ->
  r <> RetNone ->
  (record_accessible r = Some (PBool true) /\ record_error r = Some PNone) \/
  (record_accessible r = Some (PBool false) /\
   exists s, record_error r = Some (PStr s) /\ (host_texted -> s <> "")).
Proof.
  intros Hrun Hr.
  pose proof (get_process_info_cases pid w) as Hcases. rewrite Hrun in Hcases.
  destruct r as [p|d|]; [| |congruence].
  - destruct Hcases as [_ [Hok Hacc]]. right.
    unfold info_ok in Hok. rewrite Hacc in Hok. destruct Hok as (s & Hs & Htext).
    simpl. rewrite Hacc, Hs. split; [reflexivity|].
    exists s. split; [reflexivity|exact Htext].
  - destruct Hcases as [_ (p & Hd & Hok & _)].
    destruct (to_dict_fields p Hd) as (_ & Dacc & Derr & _).
    simpl. rewrite Dacc, Derr. unfold info_ok in Hok.
    destruct (ProcessInfo.accessible p).
    + left. rewrite Hok. split; reflexivity.
    + right. destruct Hok as (s & -> & Htext). split; [reflexivity|].
      exists s. split; [reflexivity|exact Htext].
Qed.

(** C5, as amended.  [total_found_process] is the number of PIDs left
    after the cut to the limit, that is the number probed: the smaller
    of the limit and the enumerated count when the limit is positive,
    the enumerated count otherwise. *)
Theorem total_found_counts_probed (idd : bool) (N : Z) (w : W) :
  exists enumerated w0 pass w',
    _get_pid_list w = (Ok enumerated, w0) /\
    collect_pass idd N w = (Ok pass, w') /\
    dict_get (pass_access_info pass) "total_found_process"
      = Some (PInt (Z.of_nat (List.length (probed (pass_loop pass))))) /\
    Z.of_nat (List.length (probed (pass_loop pass)))
      = if 0 <? N then Z.min N (Z.of_nat (List.length enumerated))
        else Z.of_nat (List.length enumerated).
Proof.
  destruct (collect_pass_spec idd N w)
    as (enumerated & w0 & pass & w' & Hlist & _ & Hpass & _ & [Hprobed _] & Htotal & _).
  exists enumerated, w0, pass, w'.
  rewrite Hprobed. repeat split; auto.
  unfold pass_pids, slice_to. rewrite Z.gtb_ltb.
  destruct (0 <? N) eqn:HN; [|reflexivity].
  apply firstn_length_min. apply Z.ltb_lt. exact HN.
Qed.

(** C6, as amended.  [_get_total_memory] never raises.  When the
    [sysctl] or the [/proc/meminfo] probe fails (the command cannot be
    run, the file cannot be read, the text has no number where one is
    expected) it returns 8 GiB; on a platform without a branch it
    returns 0. *)
Theorem total_memory_design (w w' : W) :
  (exists v w1, _get_total_memory w = (Ok v, w1)) /\
  (probe_failure w w' -> _get_total_memory w = (Ok (Some 8589934592), w')) /\
  (memory_branch_of os = NoBranch -> _get_total_memory w = (Ok (Some 0), w)).
Proof.
  split; [apply total_memory_returns|].
  split; [apply total_memory_default|apply total_memory_no_branch].
Qed.

(** C9.  The records a pass returns are dicts whose [accessible] is
    [True], one for each probe counted as accessible and in probe order;
    a probe counted as denied adds to [permission_denied] and, when
    details are asked for, one entry to the denied list, and no record. *)
Theorem returned_records_accessible (idd : bool) (N : Z) (w : W) :
  exists pass w',
    collect_pass idd N w = (Ok pass, w') /\
    Forall (fun r => exists d, r = RetDict d /\
                       dict_get d "accessible" = Some (PBool true) /\
                       dict_get d "error" = Some PNone)
      (pass_processes pass) /\
    pass_processes pass = processes (pass_loop pass) /\
    tally idd (probed (pass_loop pass)) (pass_loop pass) /\
    dict_get (pass_access_info pass) "accessible_processes"
      = Some (PInt (Z.of_nat (List.length (pass_processes pass)))) /\
    dict_get (pass_access_info pass) "permission_denied"
      = Some (PInt (denied_count (pass_loop pass))) /\
    dict_get (pass_access_info pass) "denied_details"
      = match denied_processes (pass_loop pass) with
        | [] => None
        | details => if idd then Some (PList (map PDict details)) else None
        end.
Proof.
  destruct (collect_pass_spec idd N w)
    as (enumerated & w0 & pass & w' & _ & _ & Hpass & Hprocs & Ht & _ & Ha & Hd & Hdet).
  exists pass, w'.
  pose proof Ht as [Hprobed (vs & Hlen & Hacc & Hna & _)].
  split; [exact Hpass|].
  split; [rewrite Hprocs; exact (accepted_all Hacc)|].
  split; [exact Hprocs|].
  split; [rewrite Hprobed; exact Ht|].
  split; [|split; assumption].
  rewrite Ha, Hna, Hprocs. rewrite (Forall2_length Hacc). reflexivity.
Qed.

(** C10.  With a limit of zero or less nothing is cut: the pass calls
    [get_process_info] for every enumerated PID, in order, and returns
    normally with the outcomes taken; [total_found_process] is the
    number enumerated. *)
Theorem nonpositive_limit_probes_all (verbose idd : bool) (N : Z) (w : W) :
  N <= 0 ->
  exists enumerated w0 outcomes w' access_info,
    _get_pid_list w = (Ok enumerated, w0) /\
    probes enumerated w0 = (outcomes, w') /\
    List.length outcomes = List.length enumerated /\
    collect_processes verbose idd N w = (Ok (kept outcomes, access_info), w') /\
    dict_get access_info "total_found_process"
      = Some (PInt (Z.of_nat (List.length enumerated))) /\
    dict_get access_info "accessible_processes" = Some (PInt (tally_of taken outcomes)) /\
    dict_get access_info "permission_denied" = Some (PInt (tally_of left_out outcomes)).
Proof.
  intros HN.
  destruct (collect_processes_probes verbose idd N w)
    as (enumerated & w0 & outcomes & w' & access_info
        & Hlist & _ & Hprobes & Hlen & Hrun & Htotal & Ha & Hd).
  unfold pass_pids in *.
  assert (HN' : (N >? 0) = false) by (rewrite Z.gtb_ltb; apply Z.ltb_ge; lia).
  rewrite HN' in *.
  exists enumerated, w0, outcomes, w', access_info.
  repeat split; auto.
Qed.

End Claims.

(** ** The sign and the rounding of the figures *)

Section Figures.
Context {F : PyFloat} {O : PyFloatOrder} {W : Type} {H : Host W}.
Import ProcessCollector.

















End Figures.

Section FormatterClaims.
Context {F : PyFloat}.

(** C8.  For a report whose process list is empty [to_csv] raises
    [ValueError("No process data passed.")]; for a list of records that
    have the header fields it returns the header row, made of the keys
    of the first record [to_json] emits, and then one line per record. *)
Theorem to_csv_header_and_rows (data : pydict) (args : Namespace) (recs : list pydict) :
  dict_get data "processes" = Some (PList (map PDict recs)) ->
  match recs with
  | [] =>
      OutputFormatter.to_csv data (Some args)
      = Raise (mk_exn ValueError "No process data passed.")
  | first :: _ =>
      Forall (has_keys (csv_headers args first)) recs ->
      OutputFormatter.to_csv data (Some args)
      = Ok (String.concat newline
              (String.concat "," (csv_headers args first)
                 :: map (csv_line (csv_headers args first)) recs))
  end.
Proof.
  intros Hp. destruct recs as [|first rest].
  - apply to_csv_empty. exact Hp.
  - intros Hk. apply to_csv_rows; assumption.
Qed.

End FormatterClaims.

(** ** The model at work: instances on the machines *)

Import ProcessCollector.

Lemma tick_texted (A : Type) (r : result A) :
  match r with Ok _ => True | Raise e => exn_str e <> "" end -> texted (tick r).
Proof.
  intros Hr s e s' Hrun. unfold tick in Hrun.
  injection Hrun as -> _. exact Hr.
Qed.

Lemma linux_box_texted : host_texted (H:=linux_box).
Proof.
  constructor; intros; try (apply tick_texted; simpl; exact I).
  - apply tick_texted. destruct (pid =? 40); simpl; [discriminate|exact I].
  - apply tick_texted. simpl. discriminate.
  - unfold json_loads in *; simpl in *. unfold no_json in *.
    match goal with Hj : Raise _ = Raise _ |- _ => injection Hj as <- end.
    discriminate.
Qed.

(** The scenario of the specification: PIDs 50, 40, 30, 20, 10 and a
    limit of 3.  The pass probes 50, 40, 30 in that order; 40 is denied. *)
Example scenario_limit_3 :
  let run := collect_pass (H:=linux_box) true 3 0%nat in
  option_map (fun pass => probed (pass_loop pass)) (returned run) = Some [50; 40; 30] /\
  option_map (@pass_processes _) (returned run)
    = Some [RetDict (record_of_pid 50); RetDict (record_of_pid 30)] /\
  option_map (fun pass => dict_get (pass_access_info pass) "accessible_processes")
    (returned run) = Some (Some (PInt 2)) /\
  option_map (fun pass => dict_get (pass_access_info pass) "permission_denied")
    (returned run) = Some (Some (PInt 1)) /\
  option_map (fun pass => dict_get (pass_access_info pass) "total_found_process")
    (returned run) = Some (Some (PInt 3)).
Proof. repeat split; reflexivity. Qed.

(** On macOS every record is denied, and the loop counts it through its
    [except] branch: the variant returns an object, which has no [get]. *)
Example macos_pass :
  collect_processes (H:=darwin_box) false true 0 0%nat
  = (Ok ([], [("total_found_process", PInt 2); ("accessible_processes", PInt 0);
              ("permission_denied", PInt 2);
              ("denied_details",
               PList [PDict [("pid", PInt 501);
                             ("error", PStr "'ProcessInfo' object has no attribute 'get'");
                             ("name", PStr "pid_501")];
                      PDict [("pid", PInt 1);
                             ("error", PStr "'ProcessInfo' object has no attribute 'get'");
                             ("name", PStr "pid_1")]])]), 3%nat).
Proof. reflexivity. Qed.

(** On Windows a memory figure that is text makes [to_dict] raise, out of
    every handler of the variant; the loop counts the PID as denied. *)
Example windows_text_memory :
  get_process_info (H:=windows_box) 4242 0%nat
  = (Raise (mk_exn TypeError "type str doesn't define __round__ method"), 6%nat).
Proof. reflexivity. Qed.

(** The CSV text of a report with two records, five fields each. *)
Example csv_text :
  OutputFormatter.to_csv small_report (Some plain_args)
  = Ok ("pid,name,user,cpu_percent,memory_megabyte" ++ newline ++
        "50,proc50,root,12.5,10.0" ++ newline ++
        "30,proc30,root,12.5,10.0").
Proof. reflexivity. Qed.

(** C1.  On a platform that is neither Linux, macOS nor Windows
    [get_process_info] returns nothing: no branch of the dispatch is
    taken and the function ends without a [return]. *)
Theorem get_process_info_returns_nothing :
  Str.startswith (os (H:=freebsd_box)) "linux" = false /\
  String.eqb (os (H:=freebsd_box)) "darwin" = false /\
  Str.contains "win" (os (H:=freebsd_box)) = false /\
  get_process_info (H:=freebsd_box) 1 0%nat = (Ok RetNone, 0%nat).
Proof. repeat split. Qed.

(** C2 on [linux_box] with a limit of 3: the enumerator lists 50, 40,
    30, 20 and 10; the calls are those for 50, 40 and 30, in that order;
    40 is denied, so two records are returned and the counters are 2
    and 1. *)
Lemma collect_probes_first_N_witness :
  0 < 3 /\
  _get_pid_list (H:=linux_box) 0%nat = (Ok [50; 40; 30; 20; 10], 8%nat) /\
  probes (H:=linux_box) [50; 40; 30] 8%nat
    = ([Ok (RetDict (record_of_pid 50));
        Ok (RetDict (record_of_40 "psutil.AccessDenied (pid=40)"));
        Ok (RetDict (record_of_pid 30))], 34%nat) /\
  exists access_info,
    collect_processes (H:=linux_box) false false 3 0%nat
      = (Ok ([RetDict (record_of_pid 50); RetDict (record_of_pid 30)], access_info),
         34%nat) /\
    dict_get access_info "accessible_processes" = Some (PInt 2) /\
    dict_get access_info "permission_denied" = Some (PInt 1).
Proof.
  assert (Hlist0 : _get_pid_list (H:=linux_box) 0%nat
                   = (Ok [50; 40; 30; 20; 10], 8%nat)) by reflexivity.
  assert (Hprobes0 : probes (H:=linux_box) [50; 40; 30] 8%nat
                     = ([Ok (RetDict (record_of_pid 50));
                         Ok (RetDict (record_of_40 "psutil.AccessDenied (pid=40)"));
                         Ok (RetDict (record_of_pid 30))], 34%nat)) by reflexivity.
  split; [lia|]. split; [exact Hlist0|]. split; [exact Hprobes0|].
  destruct (@collect_probes_first_N _ _ linux_box false false 3 0%nat)
    as (enumerated & w0 & outcomes & w' & access_info
        & Hlist & _ & _ & Hprobes & _ & Hrun & Ha & Hd); [lia|].
  rewrite Hlist0 in Hlist. injection Hlist as <- <-.
  change (firstn (Z.to_nat 3) [50; 40; 30; 20; 10]) with [50; 40; 30] in Hprobes.
  rewrite Hprobes0 in Hprobes. injection Hprobes as <- <-.
  exists access_info. split; [exact Hrun|]. split; [exact Ha|exact Hd].
Defined.

(** C10 on [linux_box] with a limit of -1: the calls are those for all
    five PIDs; four records are returned and one PID is denied. *)
Lemma nonpositive_limit_probes_all_witness :
  -1 <= 0 /\
  _get_pid_list (H:=linux_box) 0%nat = (Ok [50; 40; 30; 20; 10], 8%nat) /\
  exists outcomes access_info,
    probes (H:=linux_box) [50; 40; 30; 20; 10] 8%nat = (outcomes, 56%nat) /\
    List.length outcomes = 5%nat /\
    collect_processes (H:=linux_box) false true (-1) 0%nat
      = (Ok ([RetDict (record_of_pid 50); RetDict (record_of_pid 30);
              RetDict (record_of_pid 20); RetDict (record_of_pid 10)], access_info),
         56%nat) /\
    dict_get access_info "total_found_process" = Some (PInt 5) /\
    dict_get access_info "accessible_processes" = Some (PInt 4) /\
    dict_get access_info "permission_denied" = Some (PInt 1).
Proof.
  assert (Hlist0 : _get_pid_list (H:=linux_box) 0%nat
                   = (Ok [50; 40; 30; 20; 10], 8%nat)) by reflexivity.
  assert (Hprobes0 : probes (H:=linux_box) [50; 40; 30; 20; 10] 8%nat
                     = ([Ok (RetDict (record_of_pid 50));
                         Ok (RetDict (record_of_40 "psutil.AccessDenied (pid=40)"));
                         Ok (RetDict (record_of_pid 30));
                         Ok (RetDict (record_of_pid 20));
                         Ok (RetDict (record_of_pid 10))], 56%nat)) by reflexivity.
  split; [lia|]. split; [exact Hlist0|].
  destruct (@nonpositive_limit_probes_all _ _ linux_box false true (-1) 0%nat)
    as (enumerated & w0 & outcomes & w' & access_info
        & Hlist & Hprobes & Hlen & Hrun & Ht & Ha & Hd); [lia|].
  rewrite Hlist0 in Hlist. injection Hlist as <- <-.
  rewrite Hprobes0 in Hprobes. injection Hprobes as <- <-.
  exists [Ok (RetDict (record_of_pid 50));
          Ok (RetDict (record_of_40 "psutil.AccessDenied (pid=40)"));
          Ok (RetDict (record_of_pid 30));
          Ok (RetDict (record_of_pid 20));
          Ok (RetDict (record_of_pid 10))], access_info.
  split; [exact Hprobes0|]. split; [exact Hlen|]. split; [exact Hrun|].
  split; [exact Ht|]. split; [exact Ha|exact Hd].
Defined.

(** C4, as amended, on [linux_box], whose exceptions have texts: the
    record of process 40 is denied with the text of [AccessDenied]. *)
Lemma record_error_matches_flag_witness :
  get_process_info (H:=linux_box) 40 0%nat
    = (Ok (RetDict (record_of_40 "psutil.AccessDenied (pid=40)")), 4%nat) /\
  host_texted (H:=linux_box) /\
  record_accessible (RetDict (record_of_40 "psutil.AccessDenied (pid=40)"))
    = Some (PBool false) /\
  exists s,
    record_error (RetDict (record_of_40 "psutil.AccessDenied (pid=40)"))
      = Some (PStr s) /\ s <> "".
Proof.
  assert (Hrun : get_process_info (H:=linux_box) 40 0%nat
                 = (Ok (RetDict (record_of_40 "psutil.AccessDenied (pid=40)")), 4%nat))
    by reflexivity.
  split; [exact Hrun|]. split; [exact linux_box_texted|].
  destruct (@record_error_matches_flag _ _ linux_box 40 0%nat 4%nat _ Hrun)
    as [[Ha _]|[Ha (s & He & Hs)]]; [discriminate|discriminate|].
  split; [exact Ha|]. exists s. split; [exact He|exact (Hs linux_box_texted)].
Defined.

(** C4, the claim as stated fails: when the exception caught by the Linux
    variant has no text, the record is not accessible and its error is
    the empty string. *)
Lemma empty_error_counterexample :
  get_process_info (H:=terse_box) 40 0%nat = (Ok (RetDict (record_of_40 "")), 4%nat) /\
  record_accessible (RetDict (record_of_40 "")) = Some (PBool false) /\
  record_error (RetDict (record_of_40 "")) = Some (PStr "").
Proof. repeat split. Qed.

(** C5, the claim as stated fails: five PIDs are enumerated, the limit is
    3, and [total_found_process] is 3. *)
Lemma total_found_counterexample :
  returned (_get_pid_list (H:=linux_box) 0%nat) = Some [50; 40; 30; 20; 10] /\
  option_map (fun pass => dict_get (pass_access_info pass) "total_found_process")
    (returned (collect_pass (H:=linux_box) false 3 0%nat))
  = Some (Some (PInt 3)) /\
  Z.of_nat (List.length [50; 40; 30; 20; 10]) <> 3.
Proof. repeat split; try reflexivity. discriminate. Qed.

(** C6, the claim as stated fails: on a platform without a branch the
    probe returns 0, which is not positive. *)
Lemma total_memory_counterexample :
  _get_total_memory (H:=freebsd_box) 0%nat = (Ok (Some 0), 0%nat) /\ ~ 0 < 0.
Proof. split; [reflexivity|lia]. Qed.

(** C6, as amended, on a Linux machine whose [/proc/meminfo] cannot be
    opened and on a platform without a branch. *)
Lemma total_memory_design_witness :
  probe_failure (H:=sealed_box) 0%nat 1%nat /\
  _get_total_memory (H:=sealed_box) 0%nat = (Ok (Some 8589934592), 1%nat) /\
  memory_branch_of (os (H:=freebsd_box)) = NoBranch /\
  _get_total_memory (H:=freebsd_box) 0%nat = (Ok (Some 0), 0%nat).
Proof.
  assert (Hf : probe_failure (H:=sealed_box) 0%nat 1%nat).
  { eapply meminfo_not_read; reflexivity. }
  split; [exact Hf|].
  split; [exact (proj1 (proj2 (@total_memory_design _ _ sealed_box 0%nat 1%nat)) Hf)|].
  split; [reflexivity|].
  exact (proj2 (proj2 (@total_memory_design _ _ freebsd_box 0%nat 0%nat)) eq_refl).
Defined.





Lemma record_of_pid_keys (args : Namespace) (first : @pydict Milli.float) (pid : Z) :
  (advanced args = true -> dict_keys first = dict_keys (record_of_pid pid)) ->
  has_keys (csv_headers args first) (record_of_pid pid).
Proof.
  intros Hfirst k. unfold csv_headers.
  destruct (advanced args); [rewrite (Hfirst eq_refl)|]; simpl;
    intros Hin; repeat (destruct Hin as [<-|Hin]; [discriminate|]); destruct Hin.
Qed.

(** C8 on a report without processes and on one with two records. *)
Lemma to_csv_header_and_rows_witness :
  dict_get empty_report "processes" = Some (PList (map PDict [])) /\
  OutputFormatter.to_csv empty_report (Some plain_args)
    = Raise (mk_exn ValueError "No process data passed.") /\
  dict_get small_report "processes"
    = Some (PList (map PDict [record_of_pid 50; record_of_pid 30])) /\
  Forall (has_keys (csv_headers plain_args (record_of_pid 50)))
    [record_of_pid 50; record_of_pid 30] /\
  OutputFormatter.to_csv small_report (Some plain_args)
    = Ok (String.concat newline
            (String.concat "," (csv_headers plain_args (record_of_pid 50))
               :: map (csv_line (csv_headers plain_args (record_of_pid 50)))
                    [record_of_pid 50; record_of_pid 30])).
Proof.
  assert (Hk : Forall (has_keys (csv_headers plain_args (record_of_pid 50)))
                 [record_of_pid 50; record_of_pid 30]).
  { repeat constructor; apply record_of_pid_keys; discriminate. }
  split; [reflexivity|].
  split; [exact (@to_csv_header_and_rows _ empty_report plain_args [] eq_refl)|].
  split; [reflexivity|]. split; [exact Hk|].
  exact (@to_csv_header_and_rows _ small_report plain_args
           [record_of_pid 50; record_of_pid 30] eq_refl Hk).
Defined.

(** * Further properties

    Properties of the code around the claims: the paths of the platform
    variants and of the memory probe, the enumerator, the formatter
    mode by mode, the command line, the report and the system
    information. *)

(** ** A pass without a process *)

Section MacOS.
Context {F : PyFloat} {W : Type} {H : Host W}.

Lemma darwin_dispatch (pid : Z) :
  String.eqb os "darwin" = true -> get_process_info pid = _get_process_info_macos pid.
Proof.
  intros Hos. unfold get_process_info. rewrite Hos.
  apply String.eqb_eq in Hos. rewrite Hos. reflexivity.
Qed.

Lemma classify_darwin (idd : bool) (pid : Z) (st : LoopState) (w : W) :
  String.eqb os "darwin" = true ->
  exists w', classify idd pid (st, w) = (Ok tt, (blind_step idd pid st, w')).
Proof.
  intros Hos.
  destruct (macos_returns pid w) as (p & w' & Hrun & _).
  exists w'.
  unfold classify, classify_try, try_except, bind, liftW, modify, lift_result. simpl.
  rewrite (darwin_dispatch pid Hos), Hrun. simpl.
  unfold blind_step. destruct idd; reflexivity.
Qed.

Lemma loop_darwin (idd : bool) (pids : list Z) :
  String.eqb os "darwin" = true ->
  forall (st : LoopState) (w : W),
  exists w',
    for_each pids (classify idd) (st, w)
    = (Ok tt, (fold_left (fun st pid => blind_step idd pid st) pids st, w')).
Proof.
  intros Hos. induction pids as [|pid rest IH]; intros st w; simpl.
  - exists w. reflexivity.
  - destruct (classify_darwin idd pid st w Hos) as (w1 & Hrun).
    unfold bind. rewrite Hrun. apply IH.
Qed.

Lemma blind_fold (idd : bool) (pids : list Z) :
  forall st : LoopState,
    let st' := fold_left (fun st pid => blind_step idd pid st) pids st in
    processes st' = processes st /\
    accessible_count st' = accessible_count st /\
    denied_count st' = denied_count st + Z.of_nat (List.length pids) /\
    probed st' = (probed st ++ pids)%list /\
    denied_processes st'
    = (denied_processes st ++ if idd then map blind_detail pids else [])%list.
Proof.
  induction pids as [|pid rest IH]; intros st; simpl.
  - rewrite app_nil_r, Z.add_0_r. destruct idd; rewrite ?app_nil_r; auto.
  - destruct (IH (blind_step idd pid st)) as (Hp & Ha & Hd & Hl & Hdet).
    rewrite Hp, Ha, Hd, Hl, Hdet. unfold blind_step.
    destruct idd; simpl; rewrite <- ?app_assoc; repeat split; auto; lia.
Qed.

(** On macOS every turn of the loop takes its [except] branch. *)
Lemma darwin_pass (idd : bool) (N : Z) (w : W) :
  String.eqb os "darwin" = true ->
  exists pass w',
    collect_pass idd N w = (Ok pass, w') /\
    pass_processes pass = [] /\
    accessible_count (pass_loop pass) = 0 /\
    denied_count (pass_loop pass) = Z.of_nat (List.length (probed (pass_loop pass))) /\
    denied_processes (pass_loop pass)
      = (if idd then map blind_detail (probed (pass_loop pass)) else []) /\
    pass_access_info pass
      = (let counters :=
           [("total_found_process",
             PInt (Z.of_nat (List.length (probed (pass_loop pass)))));
            ("accessible_processes", PInt 0);
            ("permission_denied",
             PInt (Z.of_nat (List.length (probed (pass_loop pass)))))] in
         if idd && truthy (PList (map PDict (denied_processes (pass_loop pass))))
         then dict_set counters "denied_details"
                (PList (map PDict (denied_processes (pass_loop pass))))
         else counters).
Proof.
  intros Hos.
  destruct (get_pid_list_returns w) as (raw & w0 & Hlist).
  destruct (loop_darwin idd (pass_pids (sorted_reverse raw) N) Hos (mk_loop [] [] 0 0 []) w0)
    as (w' & Hloop).
  destruct (blind_fold idd (pass_pids (sorted_reverse raw) N) (mk_loop [] [] 0 0 []))
    as (Hp & Ha & Hd & Hl & Hdet).
  simpl in Hp, Ha, Hd, Hl, Hdet.
  unfold collect_pass, bind. rewrite Hlist.
  fold (pass_pids (sorted_reverse raw) N). rewrite Hloop.
  do 2 eexists. split; [reflexivity|]. cbn [pass_processes pass_loop pass_access_info].
  rewrite Hp, Ha, Hd, Hl, Hdet.
  repeat split.
Qed.

(** X1.  On macOS a pass returns no process at all: every PID probed is
    counted as denied, because the variant hands back a [ProcessInfo]
    object, which has no [get]; with details asked for, every entry
    carries the text of that [AttributeError].  The PIDs probed are
    those the enumerator listed, cut to the limit. *)
Theorem macos_pass_has_no_process (verbose idd : bool) (N : Z) (w : W) :
  String.eqb os "darwin" = true ->
  exists pass w',
    collect_pass idd N w = (Ok pass, w') /\
    collect_processes verbose idd N w = (Ok ([], pass_access_info pass), w') /\
    dict_get (pass_access_info pass) "accessible_processes" = Some (PInt 0) /\
    dict_get (pass_access_info pass) "permission_denied"
      = Some (PInt (Z.of_nat (List.length (probed (pass_loop pass))))) /\
    denied_processes (pass_loop pass)
      = (if idd then map blind_detail (probed (pass_loop pass)) else []) /\
    exists enumerated w0,
      _get_pid_list w = (Ok enumerated, w0) /\
      probed (pass_loop pass) = pass_pids enumerated N.
Proof.
  intros Hos.
  destruct (darwin_pass idd N w Hos) as (pass & w' & Hpass & Hprocs & _ & _ & Hdet & Hinfo).
  assert (Hen : exists enumerated w0,
                  _get_pid_list w = (Ok enumerated, w0) /\
                  probed (pass_loop pass) = pass_pids enumerated N).
  { destruct (collect_pass_spec idd N w)
      as (enumerated & w0 & pass0 & w0' & Hlist & _ & Hpass0 & _ & [Hprobed _] & _).
    rewrite Hpass in Hpass0. injection Hpass0 as <- <-.
    exists enumerated, w0. split; [exact Hlist|exact Hprobed]. }
  exists pass, w'.
  split; [exact Hpass|].
  split; [unfold collect_processes, bind; rewrite Hpass; simpl; now rewrite Hprocs|].
  rewrite Hinfo. cbv zeta.
  destruct (idd && _);
    (split; [reflexivity|split; [reflexivity|split; [exact Hdet|exact Hen]]]).
Qed.

End MacOS.

(** X1 on [darwin_box], with details asked for. *)
Lemma macos_pass_has_no_process_witness :
  String.eqb (os (H:=darwin_box)) "darwin" = true /\
  exists pass w',
    collect_pass (H:=darwin_box) true 0 0%nat = (Ok pass, w') /\
    pass_processes pass = [] /\
    denied_processes (pass_loop pass) = [blind_detail 501; blind_detail 1].
Proof.
  split; [reflexivity|].
  destruct (@macos_pass_has_no_process _ _ darwin_box false true 0 0%nat eq_refl)
    as (pass & w' & Hpass & Hcoll & _ & _ & Hdet & _).
  exists pass, w'. split; [exact Hpass|].
  assert (Hrun : collect_pass (H:=darwin_box) true 0 0%nat
                 = (Ok pass, w')) by exact Hpass.
  unfold collect_processes, bind in Hcoll. rewrite Hpass in Hcoll.
  injection Hcoll as Hprocs.
  split; [exact Hprocs|].
  rewrite Hdet.
  assert (Hprobed : option_map (fun pass => probed (pass_loop pass))
                      (returned (collect_pass (H:=darwin_box) true 0 0%nat))
                    = Some [501; 1]) by reflexivity.
  rewrite Hpass in Hprobed. simpl in Hprobed. injection Hprobed as ->. reflexivity.
Defined.

Section MoreCollector.
Context {F : PyFloat} {W : Type} {H : Host W}.

(** X2.  On a platform the collector has no branch for, a pass asks
    nothing of the machine and reports an empty list with all three
    counters at zero. *)
Theorem unsupported_pass_is_empty (verbose idd : bool) (N : Z) (w : W) :
  supported = false ->
  collect_processes verbose idd N w
  = (Ok ([], [("total_found_process", PInt 0);
              ("accessible_processes", PInt 0);
              ("permission_denied", PInt 0)]), w).
Proof.
  unfold supported. intros Hos.
  apply orb_false_elim in Hos as [Hos Hwin].
  apply orb_false_elim in Hos as [Hlinux Hdarwin].
  unfold collect_processes, collect_pass, _get_pid_list, pid_list_try, try_except, bind.
  rewrite Hdarwin, Hlinux, Hwin. simpl.
  unfold slice_to. rewrite firstn_nil.
  destruct (N >? 0), idd; reflexivity.
Qed.

(** X3.  [_get_cpu_usage] never lets a [NoSuchProcess] or an
    [AccessDenied] out: it answers 0.0 instead, as it does for a process
    that is not running.  Any other exception of psutil goes on to the
    caller. *)
Theorem cpu_usage_handles_lookup_errors (pid : Z) (interval : pyfloat) (w : W) :
  match _get_cpu_usage pid interval w with
  | (Ok _, _) => True
  | (Raise e, _) => is_lookup_error e = false
  end /\
  (forall e w', psutil_Process pid w = (Raise e, w') ->
     _get_cpu_usage pid interval w
     = if is_lookup_error e then (Ok float_zero, w') else (Raise e, w')) /\
  (forall w1 w2, psutil_Process pid w = (Ok tt, w1) ->
     psutil_is_running pid w1 = (Ok false, w2) ->
     _get_cpu_usage pid interval w = (Ok float_zero, w2)).
Proof.
  unfold _get_cpu_usage, try_except_of, try_except, bind.
  split; [|split].
  - destruct (psutil_Process pid w) as [[[]|e1] w1]; simpl.
    2:{ destruct (is_lookup_error e1) eqn:He; simpl; auto. }
    destruct (psutil_is_running pid w1) as [[running|e2] w2]; simpl.
    2:{ destruct (is_lookup_error e2) eqn:He; simpl; auto. }
    destruct running; simpl; [|exact I].
    destruct (psutil_cpu_percent pid interval w2) as [[percent|e3] w3]; simpl.
    2:{ destruct (is_lookup_error e3) eqn:He; simpl; auto. }
    destruct (psutil_Process pid w3) as [[[]|e4] w4]; simpl.
    2:{ destruct (is_lookup_error e4) eqn:He; simpl; auto. }
    destruct (psutil_cpu_affinity pid w4) as [[affinity|e5] w5]; simpl.
    2:{ destruct (is_lookup_error e5) eqn:He; simpl; auto. }
    destruct affinity; simpl; [reflexivity|exact I].
  - intros e w' Hrun. rewrite Hrun. destruct (is_lookup_error e); reflexivity.
  - intros w1 w2 Hp Hr. rewrite Hp, Hr. reflexivity.
Qed.

End MoreCollector.

(** ** Strings: characters, [in] and [split] *)

Lemma chars_app (s t : string) :
  list_ascii_of_string (s ++ t) = (list_ascii_of_string s ++ list_ascii_of_string t)%list.
Proof. induction s as [|c s IH]; simpl; [reflexivity|now rewrite IH]. Qed.

Lemma prefix_char (c : ascii) (s : string) :
  String.prefix (String c "") s
  = match s with String b _ => Ascii.eqb c b | EmptyString => false end.
Proof.
  destruct s as [|b s]; simpl; [reflexivity|].
  destruct (ascii_dec c b) as [->|Hne].
  - rewrite Ascii.eqb_refl. destruct s; reflexivity.
  - symmetry. apply Ascii.eqb_neq. exact Hne.
Qed.

(** [c in s] for a one-character [c] *)
Lemma contains_char (c : ascii) (s : string) :
  Str.contains (String c "") s = true <-> In c (list_ascii_of_string s).
Proof.
  unfold Str.contains.
  induction s as [|b s IH].
  - simpl. split; [discriminate|intros []].
  - change (String.index 0 (String c "") (String b s))
      with (if String.prefix (String c "") (String b s) then Some 0%nat
            else match String.index 0 (String c "") s with
                 | Some n => Some (S n)
                 | None => None
                 end).
    rewrite prefix_char. simpl.
    destruct (Ascii.eqb c b) eqn:Hcb.
    + apply Ascii.eqb_eq in Hcb. subst. split; auto.
    + apply Ascii.eqb_neq in Hcb.
      destruct (String.index 0 (String c "") s).
      * split; [intros _; right; apply IH; reflexivity|reflexivity].
      * split; [discriminate|].
        intros [Heq|Hin]; [congruence|]. apply IH in Hin. discriminate.
Qed.

Lemma split1_chars_In (sep : ascii) (l cur : list ascii) :
  In sep l -> exists a b, Str.split1_chars sep l cur = [a; b].
Proof.
  revert cur. induction l as [|c r IH]; intros cur; simpl; [intros []|].
  intros Hin. destruct (Ascii.eqb c sep) eqn:Hc; [eauto|].
  destruct Hin as [->|Hin]; [rewrite Ascii.eqb_refl in Hc; discriminate|].
  apply IH. exact Hin.
Qed.

Lemma split1_chars_cut (sep : ascii) (k v cur : list ascii) :
  ~ In sep k ->
  Str.split1_chars sep (k ++ sep :: v) cur
  = [string_of_list_ascii (rev cur ++ k); string_of_list_ascii v].
Proof.
  revert cur. induction k as [|c k IH]; intros cur Hk; simpl.
  - rewrite Ascii.eqb_refl, app_nil_r. reflexivity.
  - destruct (Ascii.eqb c sep) eqn:Hc.
    + apply Ascii.eqb_eq in Hc. subst. exfalso. apply Hk. left. reflexivity.
    + rewrite IH by (intros Hin; apply Hk; right; exact Hin).
      simpl. rewrite <- app_assoc. reflexivity.
Qed.

(** [(k + sep + v).split(sep, 1) == [k, v]] when [sep] is not in [k]. *)
Lemma split1_cut (sep : ascii) (k v : string) :
  ~ In sep (list_ascii_of_string k) ->
  Str.split1 (k ++ String sep v) sep = [k; v].
Proof.
  intros Hk. unfold Str.split1. rewrite chars_app. simpl.
  rewrite split1_chars_cut by exact Hk. simpl.
  now rewrite !string_of_list_ascii_of_string.
Qed.

(** ** Dictionaries: lookup after assignment *)

Lemma dict_get_set_same (A : Type) (d : list (string * A)) (k : string) (v : A) :
  dict_get (dict_set d k v) k = Some v.
Proof.
  induction d as [|[k' v'] r IH]; simpl.
  - now rewrite String.eqb_refl.
  - destruct (String.eqb k' k) eqn:Hk; simpl; rewrite Hk; auto.
Qed.

Lemma dict_get_set_other (A : Type) (d : list (string * A)) (k k' : string) (v : A) :
  k <> k' -> dict_get (dict_set d k v) k' = dict_get d k'.
Proof.
  intros Hne. induction d as [|[k0 v0] r IH]; simpl.
  - destruct (String.eqb k k') eqn:Hk; [apply String.eqb_eq in Hk; congruence|reflexivity].
  - destruct (String.eqb k0 k) eqn:Hk; simpl.
    + apply String.eqb_eq in Hk. subst k0.
      destruct (String.eqb k k') eqn:Hk'; [apply String.eqb_eq in Hk'; congruence|reflexivity].
    + destruct (String.eqb k0 k'); auto.
Qed.

Lemma dict_keys_set_present (A : Type) (d : list (string * A)) (k : string) (v : A) :
  In k (dict_keys d) -> dict_keys (dict_set d k v) = dict_keys d.
Proof.
  unfold dict_keys. induction d as [|[k' v'] r IH]; simpl; [intros []|].
  intros Hin. destruct (String.eqb k' k) eqn:Hk; simpl; [reflexivity|].
  destruct Hin as [->|Hin]; [rewrite String.eqb_refl in Hk; discriminate|].
  now rewrite IH.
Qed.

Lemma dict_keys_set_absent (A : Type) (d : list (string * A)) (k : string) (v : A) :
  ~ In k (dict_keys d) -> dict_keys (dict_set d k v) = (dict_keys d ++ [k])%list.
Proof.
  unfold dict_keys. induction d as [|[k' v'] r IH]; simpl; [reflexivity|].
  intros Hin. destruct (String.eqb k' k) eqn:Hk; simpl.
  - apply String.eqb_eq in Hk. subst. exfalso. apply Hin. left. reflexivity.
  - rewrite IH; [reflexivity|]. intros H0. apply Hin. right. exact H0.
Qed.

(** ** Reading [/proc/<pid>/status] *)

Section ProcStatus.
Context {F : PyFloat} {W : Type} {H : Host W}.

(** The unpacking [key, value = line.split(':', 1)] never fails: it is
    guarded by [':' in line]. *)
Lemma status_scan_total (lines : list string) :
  forall status_info, exists d, status_scan lines status_info = Ok d.
Proof.
  induction lines as [|line rest IH]; intros status_info; simpl; [eauto|].
  destruct (Str.contains ":" line) eqn:Hc; [|apply IH].
  apply contains_char in Hc.
  destruct (@split1_chars_In ":"%char _ [] Hc) as (a & b & Hs).
  unfold Str.split1. rewrite Hs. apply IH.
Qed.

(** X4.  [_read_proc_status] never raises.  It answers [None] when the
    status file is missing or cannot be read, and otherwise the
    dictionary scanned from its lines: the scan itself cannot fail. *)
Theorem read_proc_status_outcomes (pid : Z) (w : W) :
  match status_file_exists pid w with
  | (Ok true, w1) =>
      match read_status_file pid w1 with
      | (Ok lines, w2) =>
          exists d, status_scan lines [] = Ok d /\
                    _read_proc_status pid w = (Ok (Some d), w2)
      | (Raise _, w2) => _read_proc_status pid w = (Ok None, w2)
      end
  | (Ok false, w1) => _read_proc_status pid w = (Ok None, w1)
  | (Raise _, w1) => _read_proc_status pid w = (Ok None, w1)
  end.
Proof.
  unfold _read_proc_status, try_except, bind, lift_result, ret.
  destruct (status_file_exists pid w) as [[[|]|e] w1]; simpl; try reflexivity.
  destruct (read_status_file pid w1) as [[lines|e] w2]; simpl; try reflexivity.
  destruct (status_scan_total lines []) as [d Hd].
  exists d. rewrite Hd. split; reflexivity.
Qed.

Lemma status_scan_app (l1 l2 : list string) :
  forall acc d,
    status_scan l1 acc = Ok d -> status_scan (l1 ++ l2) acc = status_scan l2 d.
Proof.
  induction l1 as [|line rest IH]; intros acc d; simpl.
  - now intros [= ->].
  - destruct (Str.contains ":" line).
    + destruct (Str.split1 line ":") as [|a [|b [|c r]]]; try discriminate. apply IH.
    + apply IH.
Qed.

Lemma status_scan_keeps (k : string) (v : string) (lines : list string) :
  Forall (silent_on k) lines ->
  forall acc d,
    dict_get acc k = Some v -> status_scan lines acc = Ok d -> dict_get d k = Some v.
Proof.
  induction 1 as [|line rest Hline _ IH]; intros acc d Hacc; simpl.
  - now intros [= <-].
  - destruct (Str.contains ":" line); [|apply IH; exact Hacc].
    destruct (Str.split1 line ":") as [|a [|b [|c r]]] eqn:Hs; try discriminate.
    apply IH. rewrite dict_get_set_other; [exact Hacc|].
    apply (Hline a b). exact Hs.
Qed.

(** X5.  The scan of a status file stores each [key: value] line under
    the stripped key, with the stripped rest of the line as its value (a
    colon in the value stays in it), and a later line for the same key
    replaces the earlier one. *)
Theorem status_scan_last_wins (before after : list string) (k v : string) :
  ~ In ":"%char (list_ascii_of_string k) ->
  Forall (silent_on (Str.strip k)) after ->
  exists d,
    status_scan (before ++ (k ++ String ":" v)%string :: after) [] = Ok d /\
    dict_get d (Str.strip k) = Some (Str.strip v).
Proof.
  intros Hk Hafter.
  destruct (status_scan_total before []) as [d0 Hd0].
  destruct (status_scan_total ((k ++ String ":" v) :: after) d0) as [d Hd].
  exists d. rewrite (@status_scan_app before _ [] d0 Hd0). split; [exact Hd|].
  simpl in Hd.
  assert (Hc : Str.contains ":" (k ++ String ":" v) = true).
  { apply contains_char. rewrite chars_app. apply in_or_app. right. left. reflexivity. }
  rewrite Hc, split1_cut in Hd by exact Hk.
  eapply status_scan_keeps; [exact Hafter| |exact Hd].
  apply dict_get_set_same.
Qed.

End ProcStatus.

(** ** The variants, path by path *)

Section Paths.
Context {F : PyFloat} {W : Type} {H : Host W}.

Lemma stat_data_present (d : list (string * string)) (k v : string) :
  dict_get d k = Some v -> stat_data_missing (Some d) = false.
Proof. destruct d; [discriminate|reflexivity]. Qed.

(** X6.  On Linux, for a process whose status file is missing, unreadable
    or empty, [get_process_info] hands back the [ProcessInfo] object
    itself, flagged with "Cannot read /proc/pid/stat", not a [dict]; the
    loop of [collect_processes] then counts the PID as denied through its
    [except] branch, and the entry it writes carries the text of the
    [AttributeError], not that message. *)
Theorem linux_unreadable_status_returns_object (pid : Z) (w w1 : W)
  (stat_data : option (list (string * string))) :
  Str.startswith os "linux" = true ->
  _read_proc_status pid w = (Ok stat_data, w1) ->
  stat_data_missing stat_data = true ->
  get_process_info pid w
  = (Ok (RetInfo (ProcessInfo.set_error "Cannot read /proc/pid/stat"
                    (ProcessInfo.set_accessible false (ProcessInfo.__init__ pid)))), w1) /\
  forall (idd : bool) (st : LoopState),
    classify idd pid (st, w) = (Ok tt, (blind_step idd pid st, w1)).
Proof.
  intros Hos Hread Hmiss.
  assert (Hrun : get_process_info pid w
    = (Ok (RetInfo (ProcessInfo.set_error "Cannot read /proc/pid/stat"
                      (ProcessInfo.set_accessible false (ProcessInfo.__init__ pid)))), w1)).
  { unfold get_process_info. rewrite Hos.
    unfold _get_process_info_linux, try_except, linux_try, bind, liftW. simpl.
    rewrite Hread, Hmiss. reflexivity. }
  split; [exact Hrun|].
  intros idd st.
  unfold classify, classify_try, try_except, bind, liftW, modify, lift_result. simpl.
  rewrite Hrun. simpl. unfold blind_step. destruct idd; reflexivity.
Qed.

(** X7.  On Linux, when the status file is read and every psutil call
    answers, the record is a [dict] with the name and the state of the
    status file, the owner psutil gives, the CPU figure of
    [_get_cpu_usage] and the resident set size divided by 1024 * 1024,
    both rounded by [round(., 2)]; it is accessible and has no error. *)
Theorem linux_record_of_live_process (pid : Z) (w w1 w2 w3 w4 w5 w6 : W)
  (d : list (string * string)) (name state user : string) (cpu : pyfloat) (rss : Z) :
  Str.startswith os "linux" = true ->
  _read_proc_status pid w = (Ok (Some d), w1) ->
  dict_get d "Name" = Some name ->
  dict_get d "State" = Some state ->
  psutil_Process pid w1 = (Ok tt, w2) ->
  psutil_username pid w2 = (Ok user, w3) ->
  _get_cpu_usage pid float_one w3 = (Ok cpu, w4) ->
  psutil_Process pid w4 = (Ok tt, w5) ->
  psutil_memory_rss pid w5 = (Ok rss, w6) ->
  get_process_info pid w
  = (Ok (RetDict
           [("pid", PInt pid); ("name", PStr name); ("user", PStr user);
            ("cpu_percent", PFloat (float_round2 cpu));
            ("memory_megabyte", PFloat (float_round2 (int_truediv rss (1024 * 1024))));
            ("status", PStr state); ("accessible", PBool true); ("error", PNone)]), w6).
Proof.
  intros Hos Hread Hname Hstate Hp1 Huser Hcpu Hp2 Hrss.
  unfold get_process_info. rewrite Hos.
  unfold _get_process_info_linux, try_except, linux_try, bind, liftW, lift_result,
    dict_getitem. simpl.
  rewrite Hread, (@stat_data_present d "Name" name Hname), Hname. simpl.
  rewrite Hstate. simpl. rewrite Hp1. simpl. rewrite Huser. simpl.
  rewrite Hcpu. simpl. rewrite Hp2. simpl. rewrite Hrss. reflexivity.
Qed.

(** X8.  On Linux, when the owner of a process cannot be read, the record
    keeps what was assigned before the exception (name and state), leaves
    the owner at [None] and the two figures at 0.0, and is flagged; its
    error is "Permission denied" for a [PermissionError] and [str(e)]
    for any other exception, psutil's [AccessDenied] included. *)
Theorem linux_record_of_denied_owner (pid : Z) (w w1 w2 w3 : W)
  (d : list (string * string)) (name state : string) (e : exn) :
  Str.startswith os "linux" = true ->
  _read_proc_status pid w = (Ok (Some d), w1) ->
  dict_get d "Name" = Some name ->
  dict_get d "State" = Some state ->
  psutil_Process pid w1 = (Ok tt, w2) ->
  psutil_username pid w2 = (Raise e, w3) ->
  get_process_info pid w
  = (Ok (RetDict
           [("pid", PInt pid); ("name", PStr name); ("user", PNone);
            ("cpu_percent", PFloat (float_round2 float_zero));
            ("memory_megabyte", PFloat (float_round2 float_zero));
            ("status", PStr state); ("accessible", PBool false);
            ("error", PStr (if isinstance e PermissionError
                            then "Permission denied" else exn_str e))]), w3).
Proof.
  intros Hos Hread Hname Hstate Hp1 Huser.
  unfold get_process_info. rewrite Hos.
  unfold _get_process_info_linux, try_except, linux_try, bind, liftW, lift_result,
    dict_getitem. simpl.
  rewrite Hread, (@stat_data_present d "Name" name Hname), Hname. simpl.
  rewrite Hstate. simpl. rewrite Hp1. simpl. rewrite Huser. simpl.
  destruct (isinstance e PermissionError); reflexivity.
Qed.

Lemma windows_dispatch (pid : Z) :
  on_windows = true -> get_process_info pid = _get_process_info_windows pid.
Proof.
  unfold on_windows, get_process_info. intros Hos.
  apply andb_prop in Hos as [Hos Hwin]. apply andb_prop in Hos as [Hl Hd].
  apply negb_true_iff in Hl, Hd. now rewrite Hl, Hd, Hwin.
Qed.

(** X9.  On Windows, when the PowerShell query gives no answer the record
    is still a [dict], not accessible and with nothing in it but the
    reason: [str(e)] when the query raised (it could not be started, or
    ran over its five seconds), "Unable to retrieve process information"
    when it ended with a non-zero code or printed nothing. *)
Theorem windows_unanswered_record (pid : Z) (w : W) :
  on_windows = true ->
  match run_powershell_pid pid w with
  | (Raise e, w1) =>
      get_process_info pid w = (Ok (RetDict (blank_record pid (exn_str e))), w1)
  | (Ok proc_data, w1) =>
      answered proc_data = false ->
      get_process_info pid w
      = (Ok (RetDict (blank_record pid "Unable to retrieve process information")), w1)
  end.
Proof.
  intros Hos. rewrite (windows_dispatch pid Hos).
  unfold _get_process_info_windows, try_except, windows_try, bind, liftW. simpl.
  destruct (run_powershell_pid pid w) as [[proc_data|e] w1]; simpl; [|reflexivity].
  unfold answered. intros ->. reflexivity.
Qed.

End Paths.

(** ** The memory probe, path by path *)

Section MemoryPaths.
Context {F : PyFloat} {W : Type} {H : Host W}.

Lemma meminfo_scan_skip (before rest : list string) :
  Forall (fun line => Str.startswith line "MemTotal:" = false) before ->
  meminfo_scan (before ++ rest)%list = meminfo_scan rest.
Proof.
  induction 1 as [|line before Hline _ IH]; simpl; [reflexivity|].
  now rewrite Hline.
Qed.

(** X10.  On Linux the memory probe answers 1024 times the number that
    follows [MemTotal:] on the first line of [/proc/meminfo] that starts
    with it, whatever the lines after it hold. *)
Theorem total_memory_reads_first_MemTotal (w w1 : W)
  (before after : list string) (line field : string) (n : Z) :
  memory_branch_of os = MeminfoBranch ->
  read_meminfo w = (Ok (before ++ line :: after)%list, w1) ->
  Forall (fun l => Str.startswith l "MemTotal:" = false) before ->
  Str.startswith line "MemTotal:" = true ->
  nth_error (Str.split_ws line) 1 = Some field ->
  Str.int field = Some n ->
  _get_total_memory w = (Ok (Some (n * 1024)), w1).
Proof.
  intros Hb Hread Hbefore Hline Hfield Hn.
  unfold _get_total_memory, try_except, total_memory_try.
  unfold memory_branch_of in Hb.
  destruct (Str.contains "darwin" _); [discriminate|].
  destruct (Str.contains "linux" _); [|destruct (Str.contains "win" _); discriminate].
  unfold bind, lift_result. rewrite Hread, (meminfo_scan_skip _ Hbefore). simpl.
  rewrite Hline. unfold list_getitem. rewrite Hfield. unfold py_int. rewrite Hn.
  reflexivity.
Qed.

(** X11.  Three ways the memory probe answers Python's [None] instead of a
    number: [sysctl] ends with a non-zero code; no line of
    [/proc/meminfo] starts with [MemTotal:]; on the PowerShell branch,
    any failure at all (the inner handler only prints), so that this
    branch never gives the 8 GiB default and answers a number only when
    the text printed is a float that [int] can truncate. *)
Theorem total_memory_none_paths (w : W) :
  (memory_branch_of os = SysctlBranch ->
   forall result w1,
     run_sysctl_memsize w = (Ok result, w1) -> returncode result <> 0 ->
     _get_total_memory w = (Ok None, w1)) /\
  (memory_branch_of os = MeminfoBranch ->
   forall lines w1,
     read_meminfo w = (Ok lines, w1) ->
     Forall (fun l => Str.startswith l "MemTotal:" = false) lines ->
     _get_total_memory w = (Ok None, w1)) /\
  (memory_branch_of os = PowershellBranch ->
   _get_total_memory w
   = match run_powershell_memory w with
     | (Raise _, w1) => (Ok None, w1)
     | (Ok total_memory, w1) =>
         (Ok match float_of_str (Str.strip (stdout total_memory)) with
             | Some x => float_to_int x
             | None => None
             end, w1)
     end).
Proof.
  unfold _get_total_memory, try_except, total_memory_try, memory_branch_of.
  destruct (Str.contains "darwin" _); [|destruct (Str.contains "linux" _);
    [|destruct (Str.contains "win" _)]];
    (split; [|split]); try discriminate; intros _.
  - intros result w1 Hrun Hrc. unfold bind. rewrite Hrun.
    apply Z.eqb_neq in Hrc. rewrite Hrc. reflexivity.
  - intros lines w1 Hrun Hnone. unfold bind, lift_result. rewrite Hrun.
    rewrite <- (app_nil_r lines), (meminfo_scan_skip [] Hnone). reflexivity.
  - unfold try_except, bind, lift_result, py_float, py_int_of_float.
    destruct (run_powershell_memory w) as [[total_memory|e] w1]; [|reflexivity].
    destruct (float_of_str _) as [x|]; [|reflexivity].
    destruct (float_to_int x); reflexivity.
Qed.

End MemoryPaths.

(** ** The enumerator, platform by platform *)

Lemma digit_value_range (c : ascii) : Str.is_digit c = true -> 0 <= Str.digit_value c <= 9.
Proof.
  unfold Str.is_digit, Str.digit_value. cbv zeta.
  generalize (nat_of_ascii c). intros n Hd.
  apply andb_prop in Hd as [H1 H2].
  apply Nat.leb_le in H1, H2. lia.
Qed.

Lemma digit_not_blank (c : ascii) : Str.is_digit c = true -> Str.is_blank c = false.
Proof.
  unfold Str.is_digit, Str.is_blank. cbv zeta.
  generalize (nat_of_ascii c). intros n Hd.
  apply andb_prop in Hd as [H1 H2].
  apply Nat.leb_le in H1, H2.
  apply orb_false_intro; [apply andb_false_intro2; apply Nat.leb_gt|apply Nat.eqb_neq]; lia.
Qed.

Lemma skip_blanks_digits (l : list ascii) :
  forallb Str.is_digit l = true -> Str.skip_blanks l = l.
Proof.
  destruct l as [|c r]; simpl; [reflexivity|].
  intros Hd. apply andb_prop in Hd as [Hc _].
  now rewrite (digit_not_blank c Hc).
Qed.

Lemma forallb_rev (A : Type) (f : A -> bool) (l : list A) :
  forallb f (rev l) = forallb f l.
Proof.
  induction l as [|x r IH]; simpl; [reflexivity|].
  rewrite forallb_app, IH. simpl. rewrite andb_true_r. apply andb_comm.
Qed.

Lemma digits_of_digits (l : list ascii) :
  forallb Str.is_digit l = true ->
  forall acc b, 0 <= acc -> (l <> [] \/ b = true) ->
    exists n, Str.digits l acc b = Some n /\ 0 <= n.
Proof.
  induction l as [|c r IH]; intros Hd acc b Hacc Hne; cbn [Str.digits].
  - destruct Hne as [Hne| ->]; [congruence|eauto].
  - simpl in Hd. apply andb_prop in Hd as [Hc Hr]. rewrite Hc.
    apply IH; [exact Hr| |right; reflexivity].
    pose proof (digit_value_range c Hc) as Hv. lia.
Qed.

Lemma sign_free (c : ascii) (r : list ascii) :
  Str.is_digit c = true ->
  match c :: r with
  | "-"%char :: r' => option_map Z.opp (Str.digits r' 0 false)
  | "+"%char :: r' => Str.digits r' 0 false
  | l => Str.digits l 0 false
  end = Str.digits (c :: r) 0 false.
Proof.
  destruct c as [[] [] [] [] [] [] [] []]; try reflexivity; discriminate.
Qed.

(** [int(s)] of a string of decimal digits is a number, and not a
    negative one. *)
Lemma int_of_digits (s : string) :
  Str.isdigit s = true -> exists n, Str.int s = Some n /\ 0 <= n.
Proof.
  unfold Str.isdigit, Str.int.
  destruct (list_ascii_of_string s) as [|c r] eqn:Hs; [discriminate|].
  intros Hd.
  rewrite (skip_blanks_digits _ Hd), skip_blanks_digits by (now rewrite forallb_rev).
  rewrite rev_involutive.
  rewrite sign_free by (simpl in Hd; now apply andb_prop in Hd).
  apply digits_of_digits; [exact Hd|lia|left; discriminate].
Qed.

Section Enumerator.
Context {F : PyFloat} {W : Type} {H : Host W}.

Lemma ps_loop (lines : list string) :
  forall (pids : list Z) (w : W),
    for_each lines
      (fun pid =>
         try_except_of is_ValueError
           (n <- lift_result (py_int (Str.strip pid)) ;; pids_append n)
           (fun _ => ret tt))
      (pids, w)
    = (Ok tt, ((pids ++ parsed_pids (map Str.strip lines))%list, w)).
Proof.
  induction lines as [|line rest IH]; intros pids w; simpl.
  - now rewrite app_nil_r.
  - unfold bind at 1, try_except_of, try_except, bind, lift_result, py_int.
    destruct (Str.int (Str.strip line)) as [n|]; simpl;
      rewrite IH, <- ?app_assoc; reflexivity.
Qed.

(** X12.  On macOS the enumerator reads the answer of [ps -axo pid]: the
    first line (the column header) is dropped, every other line that is
    an integer once stripped is a PID, every other line is skipped; the
    PIDs come back in descending order.  A [ps] that cannot be run or
    ends with a non-zero code gives the empty list. *)
Theorem darwin_pid_list (w : W) :
  String.eqb os "darwin" = true ->
  _get_pid_list w
  = match run_ps_axo_pid w with
    | (Ok pid_list, w1) =>
        (Ok (sorted_reverse
               (if returncode pid_list =? 0
                then parsed_pids
                       (map Str.strip
                          (skipn 1 (Str.split (Str.strip (stdout pid_list)) "010")))
                else [])), w1)
    | (Raise _, w1) => (Ok [], w1)
    end.
Proof.
  intros Hos. unfold _get_pid_list, pid_list_try, try_except. rewrite Hos.
  unfold bind at 1, liftW. simpl.
  destruct (run_ps_axo_pid w) as [[pid_list|e] w1]; [|reflexivity].
  destruct (returncode pid_list =? 0); [|reflexivity].
  rewrite ps_loop. reflexivity.
Qed.

Lemma powershell_loop (lines : list string) :
  forall (pids : list Z) (w : W),
    for_each lines
      (fun pid =>
         try_except_of is_ValueError_or_IndexError
           (field <- lift_result (list_getitem (Str.split_ws pid) 0) ;;
            n <- lift_result (py_int field) ;;
            pids_append n)
           (fun _ => ret tt))
      (pids, w)
    = (Ok tt, ((pids ++ parsed_pids (first_fields lines))%list, w)).
Proof.
  induction lines as [|line rest IH]; intros pids w; simpl.
  - now rewrite app_nil_r.
  - unfold bind at 1, try_except_of, try_except, bind, lift_result, list_getitem, py_int.
    unfold parsed_pids in *. rewrite flat_map_app.
    destruct (Str.split_ws line) as [|field more]; simpl.
    + rewrite IH. reflexivity.
    + destruct (Str.int field) as [n|]; simpl;
        rewrite IH, <- ?app_assoc; reflexivity.
Qed.

Lemma windows_enumerates :
  on_windows = true ->
  String.eqb os "darwin" = false /\ Str.startswith os "linux" = false /\
  Str.contains "win" os = true.
Proof.
  unfold on_windows. intros Hos.
  apply andb_prop in Hos as [Hos Hwin]. apply andb_prop in Hos as [Hl Hd].
  apply negb_true_iff in Hl, Hd. auto.
Qed.

(** X13.  On Windows the enumerator drops the first three lines of what
    PowerShell prints, whatever they hold, and takes from each later
    line its first field when that is an integer; blank lines and other
    texts are skipped.  A query that cannot be run or ends with a
    non-zero code gives the empty list. *)
Theorem windows_pid_list (w : W) :
  on_windows = true ->
  _get_pid_list w
  = match run_powershell_pids w with
    | (Ok pid_list, w1) =>
        (Ok (sorted_reverse
               (if returncode pid_list =? 0
                then parsed_pids
                       (first_fields
                          (skipn 3 (Str.split (Str.strip (stdout pid_list)) "010")))
                else [])), w1)
    | (Raise _, w1) => (Ok [], w1)
    end.
Proof.
  intros Hos. destruct (windows_enumerates Hos) as (Hd & Hl & Hw).
  unfold _get_pid_list, pid_list_try, try_except. rewrite Hd, Hl, Hw.
  unfold bind at 1, liftW. simpl.
  destruct (run_powershell_pids w) as [[pid_list|e] w1]; [|reflexivity].
  destruct (returncode pid_list =? 0); [|reflexivity].
  rewrite powershell_loop. reflexivity.
Qed.

Lemma proc_loop (is_dir : string -> bool) (entries : list string) :
  (forall name w, exists w', proc_is_dir name w = (Ok (is_dir name), w')) ->
  forall (pids : list Z) (w : W),
  exists w',
    for_each entries
      (fun process =>
         d <- liftW (proc_is_dir process) ;;
         if d && Str.isdigit process then
           n <- lift_result (py_int process) ;; pids_append n
         else ret tt)
      (pids, w)
    = (Ok tt,
       ((pids ++ parsed_pids
                   (filter (fun name => is_dir name && Str.isdigit name) entries))%list,
        w')).
Proof.
  intros Hdir. induction entries as [|name rest IH]; intros pids w.
  - exists w. simpl. now rewrite app_nil_r.
  - assert (Hstep : exists w1,
      (d <- liftW (proc_is_dir name) ;;
       if d && Str.isdigit name then
         n <- lift_result (py_int name) ;; pids_append n
       else ret tt) (pids, w)
      = (Ok tt,
         ((pids ++ parsed_pids
                     (if is_dir name && Str.isdigit name then [name] else []))%list,
          w1))).
    { unfold bind at 1, liftW. simpl.
      destruct (Hdir name w) as [w1 ->]. exists w1.
      destruct (is_dir name && Str.isdigit name) eqn:Hn; simpl.
      - apply andb_prop in Hn as [_ Hn].
        destruct (int_of_digits name Hn) as (n & Hint & _).
        unfold bind, lift_result, py_int. rewrite Hint. reflexivity.
      - now rewrite app_nil_r. }
    destruct Hstep as [w1 Hstep].
    cbn [for_each filter]. unfold bind at 1. rewrite Hstep.
    destruct (IH (pids ++ parsed_pids
                   (if is_dir name && Str.isdigit name then [name] else []))%list w1)
      as [w' ->].
    exists w'. rewrite <- app_assoc.
    destruct (is_dir name && Str.isdigit name); [|reflexivity].
    unfold parsed_pids. simpl. now rewrite app_nil_r.
Qed.

Lemma parsed_pids_of_digits (names : list string) :
  Forall (fun name => Str.isdigit name = true) names ->
  Forall (fun pid => 0 <= pid) (parsed_pids names).
Proof.
  induction 1 as [|name rest Hname _ IH]; simpl; [constructor|].
  destruct (int_of_digits name Hname) as (n & -> & Hn). simpl.
  constructor; assumption.
Qed.

(** X14.  On Linux, when [/proc] can be listed, the enumerator returns the
    numbers of the entries that are directories with a name made of
    digits, in descending order; none of them is negative.  ([is_dir]
    stands for what [Path.is_dir] answers while the listing is read.) *)
Theorem linux_pid_list (w w1 : W) (entries : list string) (is_dir : string -> bool) :
  Str.startswith os "linux" = true ->
  proc_iterdir w = (Ok entries, w1) ->
  (forall name w, exists w', proc_is_dir name w = (Ok (is_dir name), w')) ->
  let pids :=
    parsed_pids (filter (fun name => is_dir name && Str.isdigit name) entries) in
  (exists w', _get_pid_list w = (Ok (sorted_reverse pids), w')) /\
  List.length pids
  = List.length (filter (fun name => is_dir name && Str.isdigit name) entries) /\
  Forall (fun pid => 0 <= pid) pids.
Proof.
  intros Hos Hlist Hdir pids.
  assert (Hd : String.eqb os "darwin" = false).
  { destruct (String.eqb os "darwin") eqn:Hd; [|reflexivity].
    apply String.eqb_eq in Hd. rewrite Hd in Hos. discriminate. }
  assert (Hdigits : Forall (fun name => Str.isdigit name = true)
                      (filter (fun name => is_dir name && Str.isdigit name) entries)).
  { apply Forall_forall. intros name Hin. apply filter_In in Hin as [_ Hn].
    now apply andb_prop in Hn. }
  split; [|split].
  - unfold _get_pid_list, pid_list_try, try_except. rewrite Hd, Hos.
    unfold bind at 1. unfold liftW at 1. cbn [fst snd]. rewrite Hlist.
    destruct (proc_loop is_dir entries Hdir [] w1) as [w' ->].
    exists w'. reflexivity.
  - subst pids. clear - Hdigits. unfold parsed_pids.
    induction Hdigits as [|name rest Hname _ IH]; simpl.
    + reflexivity.
    + destruct (int_of_digits name Hname) as (n & -> & _). simpl.
      now rewrite IH.
  - apply parsed_pids_of_digits. exact Hdigits.
Qed.

End Enumerator.

(** ** The formatter, mode by mode *)

Section MoreFormatter.
Context {F : PyFloat}.
Import OutputFormatter.

Lemma return_json_entries (data : pydict) (args : Namespace) (procs : pyval) :
  (if show_denied args && truthy (pydict_get data "denied_processes")
   then dict_set
          (if include_system_info args
           then dict_set [("processes", procs)] "system_info"
                  (if truthy (pydict_get data "system_info")
                   then pydict_get data "system_info" else no_system_info)
           else [("processes", procs)])
          "denied_processes" (pydict_get data "denied_processes")
   else if include_system_info args
        then dict_set [("processes", procs)] "system_info"
               (if truthy (pydict_get data "system_info")
                then pydict_get data "system_info" else no_system_info)
        else [("processes", procs)])
  = ("processes", procs) :: optional_entries data args.
Proof.
  unfold optional_entries.
  destruct (show_denied args && truthy (pydict_get data "denied_processes")),
    (include_system_info args); reflexivity.
Qed.

(** X15.  What [to_json] writes has the entry [processes] first, then
    [system_info] when it was asked for (the value of the report, or the
    fallback message when the report has none), then [denied_processes]
    when it was asked for and the report has a non-empty one; it has no
    other entry, so the [metadata] of a report is never written.  In
    advanced mode the processes are the value of the report as it is. *)
Theorem to_json_entries (data : pydict) (args : Namespace) (j : json_text) :
  to_json data (Some args) = Ok j ->
  exists procs,
    json_loads_text j = PDict (("processes", procs) :: optional_entries data args) /\
    (advanced args = true -> dict_get data "processes" = Some procs).
Proof.
  unfold to_json, dict_getitem.
  destruct (dict_get data "processes") as [given|]; [|discriminate].
  destruct (advanced args); cbn [negb].
  - cbv zeta. rewrite return_json_entries. intros [= <-]. exists given. auto.
  - destruct (py_iter given) as [l|]; [|discriminate].
    destruct (summaries l []) as [l'|]; [|discriminate].
    cbv zeta. rewrite return_json_entries. intros [= <-].
    exists (PList l'). split; [reflexivity|discriminate].
Qed.

Lemma missing_of_none (keys : list string) (r : pydict) :
  missing_of keys r = None -> has_keys keys r.
Proof.
  unfold missing_of, has_keys. intros Hnone k Hin.
  pose proof (find_none _ _ Hnone k Hin) as Hk. simpl in Hk.
  destruct (dict_get r k); [discriminate|discriminate].
Qed.

Lemma first_missing_none (keys : list string) (recs : list pydict) :
  first_missing keys recs = None -> Forall (has_keys keys) recs.
Proof.
  induction recs as [|r rest IH]; simpl; [constructor|].
  destruct (missing_of keys r) eqn:Hr; [discriminate|].
  intros Hrest. constructor; [apply missing_of_none; exact Hr|apply IH; exact Hrest].
Qed.

Lemma summary_missing (r : pydict) (k : string) :
  missing_of five_fields r = Some k ->
  summary (PDict r) = Raise (mk_exn KeyError (Str.repr k)).
Proof.
  unfold missing_of, five_fields, summary, py_subscript. simpl.
  destruct (dict_get r "pid"); [|now intros [= <-]].
  destruct (dict_get r "name"); [|now intros [= <-]].
  destruct (dict_get r "user"); [|now intros [= <-]].
  destruct (dict_get r "cpu_percent"); [|now intros [= <-]].
  destruct (dict_get r "memory_megabyte"); [|now intros [= <-]].
  discriminate.
Qed.

Lemma summaries_missing (recs : list pydict) (k : string) :
  first_missing five_fields recs = Some k ->
  forall acc, summaries (map PDict recs) acc = Raise (mk_exn KeyError (Str.repr k)).
Proof.
  induction recs as [|r rest IH]; cbn [first_missing map summaries]; [discriminate|].
  destruct (missing_of five_fields r) as [k'|] eqn:Hr.
  - intros [= ->] acc. now rewrite (summary_missing r Hr).
  - intros Hrest acc. rewrite (summary_ok (missing_of_none _ _ Hr)). apply IH. exact Hrest.
Qed.

(** X16.  Outside advanced mode [to_json] keeps of every record the five
    fields [pid], [name], [user], [cpu_percent], [memory_megabyte], in
    that order, and drops the rest; a record without one of the five
    makes it raise [KeyError] for the first field the first such record
    lacks. *)
Theorem to_json_summary_mode (data : pydict) (args : Namespace) (recs : list pydict) :
  advanced args = false ->
  dict_get data "processes" = Some (PList (map PDict recs)) ->
  match first_missing five_fields recs with
  | None =>
      to_json data (Some args)
      = Ok (json_dumps
              (PDict (("processes", PList (map (fun r => PDict (five_of r)) recs))
                      :: optional_entries data args)))
  | Some k => to_json data (Some args) = Raise (mk_exn KeyError (Str.repr k))
  end.
Proof.
  intros Hadv Hp. unfold to_json, dict_getitem. rewrite Hp, Hadv. cbn [negb py_iter].
  destruct (first_missing five_fields recs) as [k|] eqn:Hm.
  - now rewrite (summaries_missing recs Hm).
  - rewrite (summaries_ok (first_missing_none _ _ Hm)). cbn [app].
    cbv zeta. now rewrite return_json_entries.
Qed.

Lemma to_csv_reads_processes (data : pydict) (args : Namespace) (procs : pyval) :
  dict_get data "processes" = Some procs ->
  to_csv data (Some args)
  = to_csv [("processes", procs)] (Some (mk_args (advanced args) false false)).
Proof.
  intros Hp. unfold to_csv, to_json, dict_getitem. rewrite Hp. cbn [dict_get].
  rewrite String.eqb_refl. cbn [advanced include_system_info show_denied andb].
  destruct (if negb (advanced args)
            then match py_iter procs with
                 | Ok l => match summaries l [] with
                           | Ok l' => Ok (PList l')
                           | Raise e => Raise e
                           end
                 | Raise e => Raise e
                 end
            else Ok procs) as [listed|e]; [|reflexivity].
  cbv zeta. rewrite return_json_entries.
  reflexivity.
Qed.

(** X17.  The CSV text depends on the processes of the report and on the
    mode only: [include_system_info] and [show_denied], and with them
    every other entry of the report, leave it unchanged. *)
Theorem to_csv_ignores_options (data : pydict) (args : Namespace) (procs : pyval) :
  dict_get data "processes" = Some procs ->
  to_csv data (Some args)
  = to_csv [("processes", procs)] (Some (mk_args (advanced args) false false)).
Proof.
  intros Hp. apply to_csv_reads_processes. exact Hp.
Qed.

Lemma dict_get_single (k : string) (v : pyval) : dict_get [(k, v)] k = Some v.
Proof. simpl. now rewrite String.eqb_refl. Qed.

Lemma pydict_get_single (k : string) (v : pyval) : pydict_get [(k, v)] k = v.
Proof. unfold pydict_get. now rewrite dict_get_single. Qed.

Lemma keys_present (r : pydict) (k : string) :
  In k (dict_keys r) -> dict_get r k <> None.
Proof.
  unfold dict_keys. induction r as [|[k' v] rest IH]; simpl; [intros []|].
  intros [->|Hin]; [now rewrite String.eqb_refl|].
  destruct (String.eqb k' k); [discriminate|auto].
Qed.

Lemma csv_cells_missing (headers : list string) (r : pydict) (k : string) :
  missing_of headers r = Some k ->
  csv_cells (PDict r) headers = Raise (mk_exn KeyError (Str.repr k)).
Proof.
  unfold missing_of. induction headers as [|h rest IH]; simpl; [discriminate|].
  destruct (dict_get r h); [|now intros [= <-]].
  intros Hrest. now rewrite (IH Hrest).
Qed.

Lemma csv_rows_missing (headers : list string) (recs : list pydict) (k : string) :
  first_missing headers recs = Some k ->
  forall csv_lines,
    csv_rows (map PDict recs) headers csv_lines = Raise (mk_exn KeyError (Str.repr k)).
Proof.
  induction recs as [|r rest IH]; simpl; [discriminate|].
  destruct (missing_of headers r) as [k'|] eqn:Hr.
  - intros [= ->] csv_lines. now rewrite (csv_cells_missing _ _ Hr).
  - intros Hrest csv_lines.
    rewrite (csv_cells_ok (missing_of_none _ _ Hr)). apply IH. exact Hrest.
Qed.

(** X18.  In advanced mode the CSV header is made of the keys of the first
    record, and every record must have them all: a later record without
    one of them makes [to_csv] raise [KeyError] for the first key the
    first such record lacks.  (Keys of later records that the first one
    does not have are left out without notice.) *)
Theorem to_csv_needs_the_first_keys (data : pydict) (args : Namespace)
  (first : pydict) (rest : list pydict) (k : string) :
  advanced args = true ->
  dict_get data "processes" = Some (PList (map PDict (first :: rest))) ->
  first_missing (dict_keys first) rest = Some k ->
  to_csv data (Some args) = Raise (mk_exn KeyError (Str.repr k)).
Proof.
  intros Hadv Hp Hm.
  rewrite (to_csv_reads_processes data args Hp).
  unfold to_csv, to_json, dict_getitem. rewrite Hadv.
  cbn [dict_get]. rewrite String.eqb_refl.
  cbn [advanced include_system_info show_denied andb negb].
  cbv zeta. cbn [json_loads_text py_get py_subscript].
  rewrite !pydict_get_single, dict_get_single.
  cbn [map truthy negb py_first py_keys py_iter csv_rows].
  rewrite csv_cells_ok by (intros k' Hin; apply keys_present; exact Hin).
  now rewrite (csv_rows_missing _ _ Hm).
Qed.

(** X19.  Records made by [to_dict] always fit the CSV formatter: for a
    non-empty list of them [to_csv] returns, in both modes, the header
    row and one line per record; the header has the eight fields of
    [to_dict] in advanced mode and the first five of them otherwise. *)
Theorem to_csv_of_to_dict_records (data : pydict) (args : Namespace)
  (infos : list ProcessInfo.t) (first : pydict) (rest : list pydict) :
  Forall2 (fun p d => ProcessInfo.to_dict p = Ok d) infos (first :: rest) ->
  dict_get data "processes" = Some (PList (map PDict (first :: rest))) ->
  let headers := if advanced args then eight_fields else five_fields in
  to_csv data (Some args)
  = Ok (String.concat newline
          (String.concat "," headers :: map (csv_line headers) (first :: rest))).
Proof.
  intros Hall Hp headers.
  rewrite (@to_csv_of_records _ data args infos first rest Hall Hp).
  inversion Hall as [|p0 d0 infos' ds' Hfirst Hrest]; subst.
  unfold csv_headers. rewrite (@to_dict_keys _ p0 _ Hfirst). reflexivity.
Qed.

End MoreFormatter.

(** ** The command line *)

Section CommandLine.
Context {F : PyFloat} {C : PyCompare} {W : Type}
  {H : Host W} {M : SystemInfo.SystemHost W} {K : CliHost W}.
Import ProcessMonitorCLI.

Lemma validate_without_file (args : Args) (w : W) :
  0 < limit args -> file_given args = None ->
  validate_arguments args w = (Ok true, w).
Proof.
  intros Hl Hf. unfold validate_arguments.
  apply Z.leb_gt in Hl. now rewrite Hl, Hf.
Qed.

(** X20.  [validate_arguments] never raises.  It answers [False] for a
    limit of zero or less, before it looks at the file system; for a
    positive limit it answers [True] when no file is asked for, and
    otherwise [True] only when the parent directory could be made and the
    path does not exist yet or is a regular file: any exception of the
    file system gives [False]. *)
Theorem validate_arguments_outcomes (args : Args) (w : W) :
  (exists b w', validate_arguments args w = (Ok b, w')) /\
  (limit args <= 0 -> validate_arguments args w = (Ok false, w)) /\
  (0 < limit args -> file_given args = None ->
   validate_arguments args w = (Ok true, w)) /\
  (forall path, 0 < limit args -> file_given args = Some path ->
     validate_arguments args w
     = match parent_mkdir path w with
       | (Raise _, w1) => (Ok false, w1)
       | (Ok _, w1) =>
           match path_exists path w1 with
           | (Raise _, w2) => (Ok false, w2)
           | (Ok false, w2) => (Ok true, w2)
           | (Ok true, w2) =>
               match path_is_file path w2 with
               | (Raise _, w3) => (Ok false, w3)
               | (Ok regular, w3) => (Ok regular, w3)
               end
           end
       end).
Proof.
  assert (Hpath : forall path, 0 < limit args -> file_given args = Some path ->
     validate_arguments args w
     = match parent_mkdir path w with
       | (Raise _, w1) => (Ok false, w1)
       | (Ok _, w1) =>
           match path_exists path w1 with
           | (Raise _, w2) => (Ok false, w2)
           | (Ok false, w2) => (Ok true, w2)
           | (Ok true, w2) =>
               match path_is_file path w2 with
               | (Raise _, w3) => (Ok false, w3)
               | (Ok regular, w3) => (Ok regular, w3)
               end
           end
       end).
  { intros path Hl Hf. unfold validate_arguments.
    apply Z.leb_gt in Hl. rewrite Hl, Hf.
    unfold try_except, validate_try, bind, liftW, modify. simpl.
    destruct (parent_mkdir path w) as [[[]|e] w1]; simpl.
    2:{ destruct (isinstance e PermissionError); reflexivity. }
    destruct (path_exists path w1) as [[[|]|e] w2]; simpl; try reflexivity.
    2:{ destruct (isinstance e PermissionError); reflexivity. }
    destruct (path_is_file path w2) as [[[|]|e] w3]; simpl; try reflexivity.
    destruct (isinstance e PermissionError); reflexivity. }
  assert (Hlow : limit args <= 0 -> validate_arguments args w = (Ok false, w)).
  { intros Hl. unfold validate_arguments. apply Z.leb_le in Hl. now rewrite Hl. }
  assert (Hnone : 0 < limit args -> file_given args = None ->
                  validate_arguments args w = (Ok true, w))
    by apply validate_without_file.
  split; [|auto].
  destruct (Z_le_gt_dec (limit args) 0) as [Hl|Hl]; [rewrite Hlow; eauto|].
  destruct (file_given args) as [path|] eqn:Hf; [|rewrite Hnone; eauto; lia].
  rewrite (Hpath path) by (auto; lia).
  destruct (parent_mkdir path w) as [[[]|e] w1]; eauto.
  destruct (path_exists path w1) as [[[|]|e] w2]; eauto.
  destruct (path_is_file path w2) as [[regular|e] w3]; eauto.
Qed.

(** In automation mode a limit of zero or less ends the run with
    exit code 1 before anything is asked of the machine: nothing is
    collected, nothing is written. *)
Lemma automation_rejects_nonpositive_limit (collector : CollectorObject.t)
  (stdin : list string) (args : Args) (info : pydict) (w : W) :
  automation args = true ->
  limit args <= 0 ->
  run collector stdin ((args, info), w) = (Ok 1, ((args, info), w)).
Proof.
  intros Ha Hl. unfold run, bind, on_args, get_local, liftW. simpl.
  rewrite Ha. simpl.
  unfold validate_arguments. apply Z.leb_le in Hl. rewrite Hl. reflexivity.
Qed.

Lemma interactive_step (collector : CollectorObject.t) (line : string)
  (rest : list string) :
  command_of line <> Exit ->
  interactive collector (line :: rest)
  = (execute collector (command_of line) line ;;; interactive collector rest).
Proof. intros Hc. simpl. destruct (command_of line); try reflexivity. congruence. Qed.


(** X22.  The interactive loop returns in one way only: with 0, at the
    first line that has [exit] in it, whatever else the line says and
    whatever follows it.  When the input ends before such a line, or a
    command raises, [run] raises. *)
Theorem interactive_returns_only_on_exit (collector : CollectorObject.t)
  (stdin : list string) :
  forall (s s' : (Args * pydict) * W) (n : Z),
    interactive collector stdin s = (Ok n, s') ->
    n = 0 /\
    exists before line after,
      stdin = (before ++ line :: after)%list /\
      Str.contains "exit" (Str.lower line) = true /\
      Forall (fun l => Str.contains "exit" (Str.lower l) = false) before.
Proof.
  induction stdin as [|line rest IH]; intros s s' n; [discriminate|].
  destruct (Str.contains "exit" (Str.lower line)) eqn:He.
  - assert (Hc : command_of line = Exit) by (unfold command_of; now rewrite He).
    simpl. rewrite Hc. intros [= <- _]. split; [reflexivity|].
    exists [], line, rest. auto.
  - assert (Hc : command_of line <> Exit).
    { unfold command_of. rewrite He. cbv zeta.
      repeat match goal with |- context [if ?b then _ else _] => destruct b end;
        discriminate. }
    rewrite (@interactive_step collector line rest Hc). unfold bind.
    destruct (execute collector (command_of line) line s) as [[[]|e] s1]; [|discriminate].
    intros Hrun. destruct (IH _ _ _ Hrun) as (Hn & before & l & after & -> & Hl & Hb).
    split; [exact Hn|].
    exists (line :: before), l, after. auto.
Qed.

End CommandLine.

(** ** Words within words *)

Lemma substring_of_substring (s : string) (n m p q : nat) :
  (p + q <= m)%nat ->
  String.substring p q (String.substring n m s) = String.substring (n + p) q s.
Proof.
  intros Hle. apply String.get_correct. intros k.
  destruct (lt_dec k q) as [Hk|Hk].
  - rewrite !String.substring_correct1 by lia. f_equal. lia.
  - rewrite !String.substring_correct2 by lia. reflexivity.
Qed.

(** When [word] is in [s] and [part] is a piece of [word], [part] is in
    [s]. *)
Lemma contains_part (part word s : string) (at_ : nat) :
  part <> "" ->
  (at_ + String.length part <= String.length word)%nat ->
  String.substring at_ (String.length part) word = part ->
  Str.contains word s = true -> Str.contains part s = true.
Proof.
  unfold Str.contains. intros Hne Hle Hpart.
  destruct (String.index 0 word s) as [m|] eqn:Hw; [intros _|discriminate].
  destruct (String.index 0 part s) eqn:Hp; [reflexivity|].
  exfalso. apply (@String.index_correct3 0 (m + at_) part s Hp Hne); [lia|].
  apply String.index_correct1 in Hw.
  rewrite <- (@substring_of_substring s m (String.length word) at_ (String.length part) Hle), Hw. exact Hpart.
Qed.

(** X23.  No line reaches the [visualization help] branch of the
    interactive loop: a line with these words in it has the word [help]
    in it, whose branch comes first (or [exit], which comes before
    both). *)
Theorem visualization_help_unreachable (user_input : string) :
  ProcessMonitorCLI.command_of user_input <> ProcessMonitorCLI.VisualizationHelp /\
  (Str.contains "visualization help" (Str.lower user_input) = true ->
   ProcessMonitorCLI.command_of user_input = ProcessMonitorCLI.Exit \/
   ProcessMonitorCLI.command_of user_input = ProcessMonitorCLI.Help).
Proof.
  assert (Hhelp : Str.contains "visualization help" (Str.lower user_input) = true ->
                  Str.contains "help" (Str.lower user_input) = true).
  { apply (@contains_part "help" "visualization help" _ 14);
      [discriminate|simpl; lia|reflexivity]. }
  unfold ProcessMonitorCLI.command_of. cbv zeta.
  destruct (Str.contains "exit" _); [split; [discriminate|auto]|].
  destruct (Str.contains "help" (Str.lower user_input)) eqn:Hh;
    [split; [discriminate|auto]|].
  destruct (Str.contains "visualization help" _) eqn:Hv;
    [specialize (Hhelp eq_refl); discriminate|].
  split; [|discriminate].
  repeat match goal with |- context [if ?b then _ else _] => destruct b end;
    discriminate.
Qed.

(** ** The report *)

Section Sorted.
Context {F : PyFloat} {C : PyCompare}.

Lemma insert_by_key_perm (A : Type) (kx : pyval) (x : A) (l l' : list (pyval * A)) :
  insert_by_key kx x l = Ok l' -> Permutation ((kx, x) :: l) l'.
Proof.
  revert l'. induction l as [|[ky y] r IH]; intros l'; simpl.
  - intros [= <-]. reflexivity.
  - destruct (py_lt kx ky) as [[|]|e]; [|intros [= <-]; reflexivity|discriminate].
    destruct (insert_by_key kx x r) as [r'|e]; [|discriminate].
    intros [= <-]. rewrite perm_swap. constructor. apply IH. reflexivity.
Qed.

Lemma sorted_by_key_reverse_perm (A : Type) (l l' : list (pyval * A)) :
  sorted_by_key_reverse l = Ok l' -> Permutation l l'.
Proof.
  revert l'. induction l as [|[k x] r IH]; intros l'; simpl.
  - intros [= <-]. constructor.
  - destruct (sorted_by_key_reverse r) as [r'|e]; [|discriminate].
    intros Hins. rewrite <- (insert_by_key_perm _ _ _ Hins).
    constructor. apply IH. reflexivity.
Qed.

Lemma with_keys_records (l : list proc_ret) (keyed : list (pyval * pydict)) :
  with_keys ProcessMonitorCLI.memory_key l = Ok keyed ->
  l = map RetDict (map snd keyed) /\
  keyed = map (fun d => (memory_of d, d)) (map snd keyed).
Proof.
  revert keyed. induction l as [|p r IH]; intros keyed; simpl.
  - intros [= <-]. split; reflexivity.
  - destruct p as [p|d|]; simpl; try discriminate.
    destruct (with_keys ProcessMonitorCLI.memory_key r) as [r'|e]; [|discriminate].
    intros [= <-]. destruct (IH r' eq_refl) as [Hl Hk]. simpl.
    split; [now rewrite <- Hl|now rewrite <- Hk].
Qed.

Lemma top_processes_perm (l : list proc_ret) (top : list pydict) :
  ProcessMonitorCLI.top_processes l = Ok top -> Permutation l (map RetDict top).
Proof.
  unfold ProcessMonitorCLI.top_processes.
  destruct (with_keys _ l) as [keyed|e] eqn:Hk; [|discriminate].
  destruct (sorted_by_key_reverse keyed) as [sorted|e] eqn:Hs; [|discriminate].
  intros [= <-]. destruct (with_keys_records _ Hk) as [-> _].
  apply Permutation_map, Permutation_map, sorted_by_key_reverse_perm. exact Hs.
Qed.

Lemma insert_by_key_sorted (A : Type) (rank : pyval -> Z) (kx : pyval) (x : A)
  (l : list (pyval * A)) :
  ranked rank (kx :: map fst l) -> by_rank rank l ->
  exists l', insert_by_key kx x l = Ok l' /\ by_rank rank l'.
Proof.
  unfold by_rank. induction l as [|[ky y] r IH]; intros Hr Hs; simpl.
  - eexists. split; [reflexivity|]. repeat constructor.
  - rewrite (Hr kx ky) by (simpl; auto).
    inversion Hs as [|? ? Hsr Hall]; subst.
    destruct (rank kx <? rank ky) eqn:Hlt.
    + apply Z.ltb_lt in Hlt.
      destruct IH as (r' & Hins & Hs'); [|exact Hsr|].
      { intros a b Ha Hb. apply Hr; simpl in *; tauto. }
      rewrite Hins. eexists. split; [reflexivity|].
      constructor; [exact Hs'|].
      apply insert_by_key_perm in Hins.
      eapply Permutation_Forall; [exact Hins|].
      constructor; [simpl; lia|exact Hall].
    + apply Z.ltb_ge in Hlt. eexists. split; [reflexivity|].
      constructor; [exact Hs|].
      constructor; [simpl; lia|].
      eapply Forall_impl; [|exact Hall]. simpl. intros q Hq. lia.
Qed.

Lemma sorted_by_key_reverse_sorted (A : Type) (rank : pyval -> Z)
  (l : list (pyval * A)) :
  ranked rank (map fst l) ->
  exists l', sorted_by_key_reverse l = Ok l' /\ by_rank rank l'.
Proof.
  induction l as [|[k x] r IH]; intros Hr; simpl.
  - eexists. split; [reflexivity|constructor].
  - destruct IH as (r' & Hs & Hsorted).
    { intros a b Ha Hb. apply Hr; simpl; tauto. }
    rewrite Hs. apply insert_by_key_sorted; [|exact Hsorted].
    apply sorted_by_key_reverse_perm in Hs.
    intros a b Ha Hb. apply Hr; simpl in *.
    + destruct Ha as [Ha|Ha]; [auto|right].
      eapply Permutation_in; [|exact Ha]. apply Permutation_map, Permutation_sym, Hs.
    + destruct Hb as [Hb|Hb]; [auto|right].
      eapply Permutation_in; [|exact Hb]. apply Permutation_map, Permutation_sym, Hs.
Qed.

(** X24.  The report lists the records of the pass by memory, largest
    first: when [<] orders the memory figures as their ranks (as it does
    numbers), [top_processes] returns a permutation of the records in
    which no record has less memory than one that follows it. *)
Theorem top_processes_sorted (rank : pyval -> Z) (recs : list pydict) :
  ranked rank (map memory_of recs) ->
  exists top,
    ProcessMonitorCLI.top_processes (map RetDict recs) = Ok top /\
    Permutation recs top /\
    StronglySorted (fun d d' => rank (memory_of d') <= rank (memory_of d)) top.
Proof.
  intros Hr.
  assert (Hk : with_keys ProcessMonitorCLI.memory_key (map RetDict recs)
               = Ok (map (fun d => (memory_of d, d)) recs)).
  { clear Hr. induction recs as [|d r IH]; simpl; [reflexivity|]. now rewrite IH. }
  destruct (@sorted_by_key_reverse_sorted pydict rank
              (map (fun d => (memory_of d, d)) recs))
    as (l & Hs & Hsorted).
  { rewrite map_map. simpl. exact Hr. }
  exists (map snd l).
  unfold ProcessMonitorCLI.top_processes. rewrite Hk, Hs.
  split; [reflexivity|].
  pose proof (sorted_by_key_reverse_perm _ Hs) as Hperm.
  split.
  - apply (Permutation_map snd) in Hperm.
    rewrite map_map in Hperm. simpl in Hperm. now rewrite map_id in Hperm.
  - assert (Hkeys : Forall (fun p => fst p = memory_of (snd p)) l).
    { eapply Permutation_Forall; [exact Hperm|].
      apply Forall_forall. intros p Hin. apply in_map_iff in Hin.
      destruct Hin as (d & <- & _). reflexivity. }
    clear - Hsorted Hkeys. unfold by_rank in Hsorted.
    induction Hsorted as [|p l Hs IH Hall]; simpl; constructor.
    + apply IH. now inversion Hkeys.
    + inversion Hkeys as [|? ? Hp Hl]; subst.
      rewrite Forall_forall in Hall, Hl |- *.
      intros d Hin. apply in_map_iff in Hin. destruct Hin as (q & <- & Hq).
      rewrite <- Hp, <- (Hl q Hq). apply Hall. exact Hq.
Qed.

End Sorted.

Section Report.
Context {F : PyFloat} {C : PyCompare} {W : Type}
  {H : Host W} {M : SystemInfo.SystemHost W} {K : CliHost W}.
Import ProcessMonitorCLI.

(** The summary of a pass has no entry [total_found]. *)
Lemma access_info_total_found (idd : bool) (N : Z) (w w' : W) (pass : Pass) :
  collect_pass idd N w = (Ok pass, w') ->
  dict_get (pass_access_info pass) "total_found" = None.
Proof.
  unfold collect_pass, bind.
  destruct (get_pid_list_returns w) as (raw & w0 & ->).
  destruct (for_each _ _ _) as [[[]|e] [st w1]]; [|discriminate].
  intros [= <- _]. simpl.
  destruct idd, (denied_processes st); reflexivity.
Qed.

Lemma accepted_length (idd : bool) (done : list Z) (st : LoopState) :
  tally idd done st -> accessible_count st = Z.of_nat (List.length (processes st)).
Proof.
  intros [_ (vs & _ & Hacc & Ha & _)]. rewrite Ha. now rewrite (Forall2_length Hacc).
Qed.

(** What [collect_and_format_data] starts from: the pass. *)
Lemma report_of_pass (collector : CollectorObject.t) (args : Args)
  (info : pydict) (w : W) :
  exists pass w1,
    collect_pass (show_denied args) (limit args) w = (Ok pass, w1) /\
    tally (show_denied args) (probed (pass_loop pass)) (pass_loop pass) /\
    pass_processes pass = processes (pass_loop pass) /\
    collect_and_format_data collector args (info, w)
    = (top <- lift_result (top_processes (pass_processes pass)) ;;
       let output_data :=
         [("processes", PList (map PDict top));
          ("metadata",
           PDict [("collection_timestamp",
                   CollectorObject.get_collection_timestamp collector);
                  ("total_processes_found",
                   PInt (Z.of_nat (List.length (pass_processes pass))));
                  ("accessible_processes",
                   PInt (Z.of_nat (List.length (pass_processes pass))));
                  ("permission_denied", PInt (denied_count (pass_loop pass)))])] in
       output_data <-
         (if include_system_info args then
            summary <- SystemInfo.get_system_summary ;;
            ret (dict_set output_data "system_info" (PDict summary))
          else ret output_data) ;;
       if show_denied args && truthy (pydict_get (pass_access_info pass) "denied_details")
       then
         details <- lift_result (dict_getitem (pass_access_info pass) "denied_details") ;;
         ret (dict_set output_data "denied_processes" details)
       else ret output_data) (info, w1).
Proof.
  destruct (collect_pass_spec (show_denied args) (limit args) w)
    as (enumerated & w0 & pass & w1 & _ & _ & Hpass & Hprocs & Ht & _ & _ & Hd & _).
  exists pass, w1.
  split; [exact Hpass|].
  split; [destruct Ht as [Hp Hrest]; split; [reflexivity|rewrite Hp; exact Hrest]|].
  split; [exact Hprocs|].
  unfold collect_and_format_data.
  unfold bind at 1. unfold liftW at 1. cbn [fst snd].
  rewrite (@collect_processes_pass _ _ _ (verbose args) _ _ _ _ _ Hpass). cbn [fst snd].
  unfold dict_get_default.
  rewrite (@access_info_total_found _ _ _ _ _ Hpass), Hd. reflexivity.
Qed.

(** X25.  In the metadata of a report [total_processes_found] is the
    number of accessible processes, not the number found: the key read
    from the summary of the pass, [total_found], is not one of its keys,
    so the fallback [len(processes)] is taken every time.
    [collection_timestamp] is [None] for a collector made by [__init__],
    [permission_denied] is the number of PIDs probed (those the
    enumerator listed, cut to the limit) less the accessible ones, and
    the processes listed are those of the pass in another order. *)
Theorem report_metadata (collector : CollectorObject.t) (args : Args)
  (info : pydict) (w w0 w0' : W) (data : pydict) (s' : pydict * W) :
  CollectorObject.__init__ w0 = (Ok collector, w0') ->
  collect_and_format_data collector args (info, w) = (Ok data, s') ->
  exists pass w1 top,
    collect_pass (show_denied args) (limit args) w = (Ok pass, w1) /\
    dict_get data "processes" = Some (PList (map PDict top)) /\
    Permutation (pass_processes pass) (map RetDict top) /\
    dict_get data "metadata"
    = Some (PDict
              [("collection_timestamp", PNone);
               ("total_processes_found", PInt (Z.of_nat (List.length top)));
               ("accessible_processes", PInt (Z.of_nat (List.length top)));
               ("permission_denied",
                PInt (Z.of_nat (List.length (probed (pass_loop pass)))
                      - Z.of_nat (List.length top)))]) /\
    exists enumerated w2,
      _get_pid_list w = (Ok enumerated, w2) /\
      probed (pass_loop pass) = pass_pids enumerated (limit args).
Proof.
  intros Hinit Hrun.
  assert (Hstamp : CollectorObject.get_collection_timestamp collector = PNone).
  { revert Hinit. unfold CollectorObject.__init__, bind.
    destruct (_get_total_memory w0) as [[m|e] wa]; [|discriminate].
    destruct (SystemInfo.psutil_cpu_count wa) as [[n|e] wb]; [|discriminate].
    now intros [= <- _]. }
  destruct (report_of_pass collector args info w)
    as (pass & w1 & Hpass & Ht & Hprocs & Heq).
  rewrite Heq in Hrun. clear Heq.
  exists pass, w1.
  unfold bind at 1 in Hrun. unfold lift_result in Hrun.
  destruct (top_processes (pass_processes pass)) as [top|e] eqn:Htop; [|discriminate].
  exists top.
  pose proof (top_processes_perm _ Htop) as Hperm.
  assert (Hlen : List.length (pass_processes pass) = List.length top).
  { rewrite (Permutation_length Hperm). apply length_map. }
  assert (Hden : denied_count (pass_loop pass)
                 = Z.of_nat (List.length (probed (pass_loop pass)))
                   - Z.of_nat (List.length top)).
  { pose proof (tally_counts Ht) as Hsum. pose proof (accepted_length Ht) as Hacc.
    rewrite <- Hlen, Hprocs. lia. }
  rewrite Hstamp, Hlen, Hden in Hrun.
  assert (Hen : exists enumerated w2,
                  _get_pid_list w = (Ok enumerated, w2) /\
                  probed (pass_loop pass) = pass_pids enumerated (limit args)).
  { destruct (collect_pass_spec (show_denied args) (limit args) w)
      as (enumerated & w2 & pass0 & w3 & Hlist & _ & Hpass0 & _ & [Hprobed _] & _).
    rewrite Hpass in Hpass0. injection Hpass0 as <- <-.
    exists enumerated, w2. split; [exact Hlist|exact Hprobed]. }
  split; [exact Hpass|]. split; [|split; [exact Hperm|split; [|exact Hen]]].
  - revert Hrun. cbv zeta. unfold bind, ret, lift_result.
    destruct (include_system_info args).
    + destruct (SystemInfo.get_system_summary (info, w1)) as [[summary|e] s1];
        [|discriminate].
      destruct (show_denied args && _).
      * destruct (dict_getitem _ _); [|discriminate].
        intros [= <- _]. rewrite ?dict_get_set_other by discriminate. reflexivity.
      * intros [= <- _]. rewrite ?dict_get_set_other by discriminate. reflexivity.
    + destruct (show_denied args && _).
      * destruct (dict_getitem _ _); [|discriminate].
        intros [= <- _]. rewrite ?dict_get_set_other by discriminate. reflexivity.
      * intros [= <- _]. reflexivity.
  - revert Hrun. cbv zeta. unfold bind, ret, lift_result.
    destruct (include_system_info args).
    + destruct (SystemInfo.get_system_summary (info, w1)) as [[summary|e] s1];
        [|discriminate].
      destruct (show_denied args && _).
      * destruct (dict_getitem _ _); [|discriminate].
        intros [= <- _]. rewrite ?dict_get_set_other by discriminate. reflexivity.
      * intros [= <- _]. rewrite ?dict_get_set_other by discriminate. reflexivity.
    + destruct (show_denied args && _).
      * destruct (dict_getitem _ _); [|discriminate].
        intros [= <- _]. rewrite ?dict_get_set_other by discriminate. reflexivity.
      * intros [= <- _]. reflexivity.
Qed.

End Report.

Section CsvExport.
Context {F : PyFloat} {C : PyCompare} {W : Type}
  {H : Host W} {M : SystemInfo.SystemHost W} {K : CliHost W}.
Import ProcessMonitorCLI.

Lemma output_data_format_error (data : pydict) (args : Args) (w : W) (e : exn) :
  format_output data args = Raise e ->
  output_data data (args, w) = (Raise e, (args, w)).
Proof.
  intros Hf. unfold output_data, bind, get_local, lift_result. simpl.
  now rewrite Hf.
Qed.

(** A pass without accessible process gives a report without process. *)
Lemma report_without_process (collector : CollectorObject.t) (args : Args)
  (info : pydict) (w w' : W) (pass : Pass) :
  collect_pass (show_denied args) (limit args) w = (Ok pass, w') ->
  pass_processes pass = [] ->
  include_system_info args = false ->
  exists data,
    collect_and_format_data collector args (info, w) = (Ok data, (info, w')) /\
    dict_get data "processes" = Some (PList []).
Proof.
  intros Hpass Hprocs Hsys.
  destruct (report_of_pass collector args info w)
    as (pass0 & w1 & Hpass0 & _ & _ & Hreport).
  rewrite Hpass in Hpass0. injection Hpass0 as <- <-.
  rewrite Hreport, Hprocs, Hsys. clear Hreport.
  unfold bind, lift_result, ret, dict_getitem, pydict_get. simpl.
  destruct (show_denied args); simpl.
  - destruct (dict_get (pass_access_info pass) "denied_details") as [details|]; simpl.
    + destruct (truthy details); eexists; split; reflexivity.
    + eexists; split; reflexivity.
  - eexists; split; reflexivity.
Qed.

(** X26.  On macOS a CSV export in automation mode always fails: the pass
    has no accessible process, so [to_csv] raises
    [ValueError("No process data passed.")], and it does so before
    anything is printed or written. *)
Theorem macos_csv_export_fails (collector : CollectorObject.t) (stdin : list string)
  (args : Args) (info : pydict) (w : W) :
  String.eqb ProcessCollector.os "darwin" = true ->
  automation args = true ->
  0 < limit args ->
  file_given args = None ->
  include_system_info args = false ->
  output args = "csv" ->
  exists w',
    run collector stdin ((args, info), w)
    = (Raise (mk_exn ValueError "No process data passed."), ((args, info), w')).
Proof.
  intros Hos Hauto Hlimit Hfile Hsys Hout.
  destruct (darwin_pass (show_denied args) (limit args) w Hos)
    as (pass & w' & Hpass & Hprocs & _).
  destruct (@report_without_process collector args info w w' pass Hpass Hprocs Hsys)
    as (data & Hreport & Hdata).
  exists w'.
  unfold run, bind at 1, on_args at 1, get_local. simpl.
  rewrite Hauto. simpl.
  unfold bind at 1, liftW at 1. simpl.
  rewrite (validate_without_file args w Hlimit Hfile). simpl.
  unfold bind at 1, collect_and_output, bind at 1, on_args at 1, get_local. simpl.
  unfold bind at 1, on_info at 1. rewrite Hreport.
  unfold on_args.
  rewrite output_data_format_error with
    (e := mk_exn ValueError "No process data passed."); [reflexivity|].
  unfold format_output. rewrite Hout. simpl.
  now rewrite (to_csv_empty data (formatter_args args) Hdata).
Qed.

End CsvExport.

Section Destination.
Context {F : PyFloat} {C : PyCompare} {W : Type}
  {H : Host W} {M : SystemInfo.SystemHost W} {K : CliHost W}.
Import ProcessMonitorCLI.

Lemma format_output_unknown (data : pydict) (args : Args) :
  output args <> "json" -> output args <> "csv" -> format_output data args = Ok None.
Proof.
  intros Hj Hc. unfold format_output.
  apply String.eqb_neq in Hj, Hc. now rewrite Hj, Hc.
Qed.

(** X27.  With an output format that is neither [json] nor [csv] (the
    interactive [output] command sets any word), [output_data] binds no
    text and raises when it reads [output_content]; nothing is printed or
    written.  With a file asked for this happens after the file was
    opened for writing, and after the directory was made when the path
    does not end in [.txt]. *)
Theorem output_data_unknown_format (data : pydict) (args : Args) (w : W) :
  output args <> "json" ->
  output args <> "csv" ->
  output_data data (args, w)
  = match file_given args with
    | None => (Raise unbound_output_content, (args, w))
    | Some path =>
        if endswith path ".txt" then
          match open_w path w with
          | (Ok _, w1) => (Raise unbound_output_content, (args, w1))
          | (Raise e, w1) => (Raise e, (args, w1))
          end
        else
          match os_makedirs path w with
          | (Raise e, w1) => (Raise e, (args, w1))
          | (Ok _, w1) =>
              let target := os_path_join path "processes.txt" in
              match open_w target w1 with
              | (Ok _, w2) =>
                  (Raise unbound_output_content, (set_file (Some target) args, w2))
              | (Raise e, w2) => (Raise e, (set_file (Some target) args, w2))
              end
          end
    end.
Proof.
  intros Hj Hc. unfold output_data, bind at 1, get_local. cbn [fst].
  unfold bind at 1, lift_result at 1. rewrite (@format_output_unknown data args Hj Hc).
  destruct (file_given args) as [path|] eqn:Hf; [|reflexivity].
  destruct (endswith path ".txt"); cbn [negb].
  - unfold bind, ret, get_local, liftW, lift_result. simpl.
    assert (Hfile : file args = Some path).
    { unfold file_given in Hf. destruct (file args) as [p|]; [|discriminate].
      destruct (String.eqb p ""); [discriminate|]. exact Hf. }
    rewrite Hfile.
    destruct (open_w path w) as [[[]|e] w1]; reflexivity.
  - unfold bind, ret, get_local, liftW, lift_result, modify. simpl.
    destruct (os_makedirs path w) as [[[]|e] w1]; [|reflexivity]. simpl.
    destruct (open_w (os_path_join path "processes.txt") w1) as [[[]|e] w2]; reflexivity.
Qed.

(** Where a formatted text goes: to the console when no file is
    asked for; into the file when its path ends in [.txt]; and otherwise
    the path is taken for a directory, which is made, the text goes into
    [processes.txt] in it, and [args.file] is left set to that file.  A
    formatter that raises does so before any of this. *)
Lemma output_data_destination (data : pydict) (args : Args) (w : W)
  (text : document) :
  format_output data args = Ok (Some text) ->
  output_data data (args, w)
  = match file_given args with
    | None => liftW (print_output text) (args, w)
    | Some path =>
        if endswith path ".txt" then
          liftW (open_w path ;;; file_write path text) (args, w)
        else
          let target := os_path_join path "processes.txt" in
          (liftW (os_makedirs path) ;;;
           modify (set_file (Some target)) ;;;
           liftW (open_w target ;;; file_write target text)) (args, w)
    end.
Proof.
  intros Hf. unfold output_data, bind at 1, get_local. cbn [fst].
  unfold bind at 1, lift_result at 1. rewrite Hf.
  destruct (file_given args) as [path|] eqn:Hpath.
  - assert (Hfile : file args = Some path).
    { unfold file_given in Hpath. destruct (file args) as [p|]; [|discriminate].
      destruct (String.eqb p ""); [discriminate|]. exact Hpath. }
    destruct (endswith path ".txt"); cbn [negb].
    + unfold bind, ret, get_local, liftW, lift_result. simpl. rewrite Hfile.
      destruct (open_w path w) as [[[]|e] w1]; [|reflexivity]. simpl.
      destruct (file_write path text w1) as [r w2]; reflexivity.
    + unfold bind, ret, get_local, liftW, lift_result, modify. simpl.
      destruct (os_makedirs path w) as [[[]|e] w1]; [|reflexivity]. simpl.
      destruct (open_w _ w1) as [[[]|e] w2]; [|reflexivity]. simpl.
      destruct (file_write _ text w2) as [r w3]; reflexivity.
  - unfold bind, lift_result, liftW. simpl.
    destruct (print_output text w) as [r w1]; reflexivity.
Qed.

End Destination.

(** ** System information *)

Lemma firstn_snoc_nth (A : Type) (l : list A) (k : nat) (x : A) :
  nth_error l k = Some x -> firstn (S k) l = (firstn k l ++ [x])%list.
Proof.
  revert k. induction l as [|y r IH]; intros [|k]; try discriminate.
  - simpl. now intros [= ->].
  - intros Hk. cbn [firstn app]. f_equal. apply (IH k). exact Hk.
Qed.

Lemma nth_not_in_firstn (A : Type) (l : list A) (k : nat) (x : A) :
  NoDup l -> nth_error l k = Some x -> ~ In x (firstn k l).
Proof.
  intros Hnd. revert k. induction Hnd as [|y r Hy Hr IH]; intros [|k]; simpl;
    try discriminate; auto.
  intros Hk [->|Hin]; [|exact (IH k Hk Hin)].
  apply Hy. eapply nth_error_In; eauto.
Qed.

Lemma nth_in_firstn (A : Type) (l : list A) (k n : nat) (x : A) :
  nth_error l k = Some x -> (k < n)%nat -> In x (firstn n l).
Proof.
  revert k n. induction l as [|y r IH]; intros [|k] [|n]; simpl;
    try discriminate; try lia.
  - intros [= ->] _. auto.
  - intros Hk Hn. right. apply (IH k n Hk). lia.
Qed.

Section SystemInformation.
Context {F : PyFloat} {W : Type} {M : SystemInfo.SystemHost W}.
Import SystemInfo.

Lemma info_keys_NoDup : NoDup info_keys.
Proof.
  unfold info_keys.
  repeat (constructor; [simpl; intuition discriminate|]). constructor.
Qed.

Lemma info_set_fills (k : nat) (key : string) (v : pyval) (info : pydict) :
  nth_error info_keys k = Some key ->
  info_filled k info -> info_filled (S k) (dict_set info key v).
Proof.
  intros Hkey (n & Hn & Hkeys).
  destruct (Nat.eq_dec n k) as [->|Hne].
  - exists (S k). split; [lia|].
    rewrite dict_keys_set_absent, Hkeys, <- (@firstn_snoc_nth _ info_keys k key Hkey); [reflexivity|].
    rewrite Hkeys. apply nth_not_in_firstn; [apply info_keys_NoDup|exact Hkey].
  - exists n. split; [lia|].
    rewrite dict_keys_set_present; [exact Hkeys|].
    rewrite Hkeys. apply (@nth_in_firstn _ info_keys k n key Hkey). lia.
Qed.

Lemma filled_call (A : Type) (k : nat) (m : St W A) :
  triple (W:=W) (info_filled k) (liftW m)
    (fun _ info => info_filled k info) (fun _ info => info_filled 0 info).
Proof.
  intros info w Hi. unfold liftW. simpl.
  destruct (m w) as [[a|e] w']; [exact Hi|].
  destruct Hi as (n & _ & Hn). exists n. split; [lia|exact Hn].
Qed.

Lemma filled_set (k : nat) (key : string) (v : pyval) :
  nth_error info_keys k = Some key ->
  triple (W:=W) (info_filled k) (info_set key v)
    (fun _ info => info_filled (S k) info) (fun _ info => info_filled 0 info).
Proof.
  intros Hkey info w Hi. simpl. apply info_set_fills; assumption.
Qed.

(** X28.  [self.info] keeps one shape over any number of calls of
    [get_system_info]: started empty, it holds the first few of the seven
    keys [os], [os_version], [hostname], [boot_time], [memory_total_gb],
    [memory_available_gb], [memory_used_gb], in that order, and nothing
    else.  After a call that returns it holds all seven, and the value
    returned is [self.info]; a call that raises leaves the keys assigned
    so far. *)
Theorem get_system_info_keys (info : pydict) (w : W) :
  info_filled 0 info ->
  match get_system_info (info, w) with
  | (Ok returned, (info', _)) => returned = info' /\ dict_keys info' = info_keys
  | (Raise _, (info', _)) => info_filled 0 info'
  end.
Proof.
  intros Hi.
  assert (Hrun : triple (W:=W) (info_filled 0) get_system_info
            (fun returned info' => returned = info' /\ info_filled 7 info')
            (fun _ info' => info_filled 0 info')).
  { unfold get_system_info.
    repeat first
      [ eapply triple_bind; [apply filled_call|intros ?]
      | eapply triple_bind; [apply filled_set; reflexivity|intros ?] ].
    apply triple_get_local. auto. }
  specialize (Hrun info w Hi).
  destruct (get_system_info (info, w)) as [[returned|e] [info' w']]; [|exact Hrun].
  destruct Hrun as [-> (n & Hn & Hkeys)]. split; [reflexivity|].
  rewrite Hkeys. apply firstn_all2. simpl. exact Hn.
Qed.

Lemma disk_loop_entries (partitions : list sdiskpart) :
  forall (disk_info : list pydict) (w : W),
    match disk_loop partitions disk_info w with
    | (Ok l, _) =>
        map (fun d => dict_get d "device") l
        = (map (fun d => dict_get d "device") disk_info
           ++ map (fun p => Some (PStr (device p))) partitions)%list
    | (Raise e, _) =>
        exists disk w2 w3,
          In disk partitions /\ psutil_disk_usage (mountpoint disk) w2 = (Raise e, w3)
    end.
Proof.
  induction partitions as [|disk rest IH]; intros disk_info w; simpl.
  - now rewrite app_nil_r.
  - unfold bind.
    destruct (psutil_disk_usage (mountpoint disk) w) as [[usage|e] w1] eqn:Hu.
    + specialize (IH (disk_info ++ [disk_entry disk usage])%list w1).
      destruct (disk_loop rest _ w1) as [[l|e] w2].
      * rewrite IH, map_app, <- app_assoc. reflexivity.
      * destruct IH as (d & wa & wb & Hin & Hd). exists d, wa, wb. auto.
    + exists disk, w, w1. auto.
Qed.

(** X29.  [get_disk_info] has one entry for each partition psutil lists,
    in the order of the listing, and it has no handler: when
    [psutil.disk_usage] raises for one of them (a drive without a medium,
    a mount point that may not be read) the exception ends
    [get_disk_info], and with it [get_system_summary]. *)
Theorem disk_info_entries (w w1 : W) (partitions : list sdiskpart) :
  psutil_disk_partitions w = (Ok partitions, w1) ->
  match get_disk_info w with
  | (Ok disk_info, _) =>
      map (fun d => dict_get d "device") disk_info
      = map (fun p => Some (PStr (device p))) partitions
  | (Raise e, _) =>
      (exists disk w2 w3,
         In disk partitions /\ psutil_disk_usage (mountpoint disk) w2 = (Raise e, w3)) /\
      forall info info' w0 returned,
        get_system_info (info, w0) = (Ok returned, (info', w)) ->
        exists s', get_system_summary (info, w0) = (Raise e, s')
  end.
Proof.
  intros Hp.
  pose proof (disk_loop_entries partitions [] w1) as Hloop.
  assert (Hget : get_disk_info w = disk_loop partitions [] w1).
  { unfold get_disk_info, bind. rewrite Hp. destruct partitions; reflexivity. }
  rewrite Hget.
  destruct (disk_loop partitions [] w1) as [[l|e] w2] eqn:Hrun; [exact Hloop|].
  split; [exact Hloop|].
  intros info info' w0 returned Hinfo.
  unfold get_system_summary. unfold bind at 1. rewrite Hinfo.
  unfold bind at 1. unfold liftW at 1. cbn [fst snd]. rewrite Hget. eauto.
Qed.

Lemma lookup_row (interface : string) (addrs : list snicaddr)
  (before after : list (string * list snicaddr)) :
  ~ In interface (dict_keys before) ->
  dict_get (before ++ (interface, addrs) :: after) interface = Some addrs.
Proof.
  induction before as [|[k v] r IH]; simpl; intros Hnot.
  - now rewrite String.eqb_refl.
  - destruct (String.eqb k interface) eqn:Hk.
    + apply String.eqb_eq in Hk. subst. exfalso. apply Hnot. left. reflexivity.
    + apply IH. intros Hin. apply Hnot. right. exact Hin.
Qed.

Lemma network_loop_entries (table : list (string * list snicaddr)) :
  (forall w, exists w', psutil_net_if_addrs w = (Ok table, w')) ->
  forall (after before : list (string * list snicaddr)),
    table = (before ++ after)%list ->
    NoDup (dict_keys table) ->
    forall (network_info : list pydict) (w : W),
    exists w',
      network_loop (dict_keys after) network_info w
      = (Ok (network_info ++ flat_map network_entry after)%list, w').
Proof.
  intros Hstable. induction after as [|[interface addrs] rest IH];
    intros before Htable Hnd network_info w.
  - exists w. simpl. now rewrite app_nil_r.
  - assert (Hrow : dict_get table interface = Some addrs).
    { rewrite Htable. apply lookup_row.
      rewrite Htable in Hnd. unfold dict_keys in *. rewrite map_app in Hnd.
      simpl in Hnd. apply NoDup_remove_2 in Hnd.
      intros Hin. apply Hnd. apply in_or_app. left. exact Hin. }
    assert (Haddrs : forall w, exists w', addrs_of interface w = (Ok addrs, w')).
    { intros w0. unfold addrs_of, bind, lift_result, dict_getitem.
      destruct (Hstable w0) as [w' ->]. rewrite Hrow. eauto. }
    assert (Hfirst : forall a more, addrs = a :: more ->
              forall w, exists w', first_addr interface w = (Ok a, w')).
    { intros a more -> w0. unfold first_addr, bind, lift_result.
      destruct (Haddrs w0) as [w' ->]. simpl. eauto. }
    assert (Hnext : forall info w0, exists w',
              network_loop (dict_keys rest) info w0
              = (Ok (info ++ flat_map network_entry rest)%list, w')).
    { intros info w0. apply (IH (before ++ [(interface, addrs)])%list); [|exact Hnd].
      rewrite Htable, <- app_assoc. reflexivity. }
    cbn [dict_keys map fst network_loop flat_map].
    change (map fst rest) with (dict_keys rest). unfold bind at 1.
    destruct (Haddrs w) as [w1 ->].
    destruct addrs as [|a more].
    + apply Hnext.
    + unfold bind at 1. destruct (Hfirst a more eq_refl w1) as [w2 ->].
      unfold bind at 1. destruct (Hfirst a more eq_refl w2) as [w3 ->].
      unfold bind at 1. destruct (Hfirst a more eq_refl w3) as [w4 ->].
      destruct (Hnext (network_info ++
                   [[("interface", PStr interface); ("ip_address", PStr (address a));
                     ("netmask", opt_str (netmask a));
                     ("broadcast", opt_str (broadcast a))]])%list w4) as [w5 ->].
      exists w5. unfold network_entry at 1. simpl. now rewrite <- app_assoc.
Qed.

(** X30.  While the table of [psutil.net_if_addrs()] does not change,
    [get_network_info] lists the interfaces that have an address, in the
    order of the table, each with its first address only; an interface
    without an address is left out. *)
Theorem network_info_entries (table : list (string * list snicaddr)) (w : W) :
  NoDup (dict_keys table) ->
  (forall w, exists w', psutil_net_if_addrs w = (Ok table, w')) ->
  exists w', get_network_info w = (Ok (flat_map network_entry table), w').
Proof.
  intros Hnd Hstable. unfold get_network_info, bind.
  destruct (Hstable w) as [w1 ->].
  destruct (@network_loop_entries table Hstable table [] eq_refl Hnd [] w1) as [w' ->].
  exists w'. reflexivity.
Qed.

End SystemInformation.

(** ** Instances on the machines *)

(** X2 on [freebsd_box]. *)
Lemma unsupported_pass_is_empty_witness :
  supported (H:=freebsd_box) = false /\
  collect_processes (H:=freebsd_box) false true 3 0%nat
  = (Ok ([], [("total_found_process", PInt 0);
              ("accessible_processes", PInt 0);
              ("permission_denied", PInt 0)]), 0%nat).
Proof.
  split; [reflexivity|].
  exact (@unsupported_pass_is_empty _ _ freebsd_box false true 3 0%nat eq_refl).
Defined.

(** X5 on three lines of a status file: the second [State] line wins. *)
Lemma status_scan_last_wins_witness :
  exists d,
    status_scan
      ["State:" ++ tab ++ "R (running)"; "State:" ++ tab ++ "S (sleeping)" ++ newline;
       "Pid:" ++ tab ++ "1"] []
    = Ok d /\
    dict_get d "State" = Some "S (sleeping)".
Proof.
  apply (@status_scan_last_wins ["State:" ++ tab ++ "R (running)"]
           ["Pid:" ++ tab ++ "1"] "State" (tab ++ "S (sleeping)" ++ newline)).
  - simpl. intuition discriminate.
  - constructor; [|constructor].
    intros a b Hs. vm_compute in Hs. injection Hs as <- _. discriminate.
Defined.

(** X6 on [linux_box]: process 99 has no status file. *)
Lemma linux_unreadable_status_returns_object_witness :
  _read_proc_status (H:=linux_box) 99 0%nat = (Ok None, 1%nat) /\
  classify (H:=linux_box) true 99 (mk_loop [] [] 0 0 [], 0%nat)
  = (Ok tt, (mk_loop [] [blind_detail 99] 0 1 [99], 1%nat)).
Proof.
  split; [reflexivity|].
  exact (proj2 (@linux_unreadable_status_returns_object _ _ linux_box 99 0%nat 1%nat
                  None eq_refl eq_refl eq_refl) true (mk_loop [] [] 0 0 [])).
Defined.

(** X7 on [linux_box]: process 50. *)
Lemma linux_record_of_live_process_witness :
  get_process_info (H:=linux_box) 50 0%nat = (Ok (RetDict (record_of_pid 50)), 11%nat).
Proof.
  exact (@linux_record_of_live_process _ _ linux_box 50
           0%nat 2%nat 3%nat 4%nat 9%nat 10%nat 11%nat
           [("Name", "proc50"); ("State", "S (sleeping)"); ("Pid", "50")]
           "proc50" "S (sleeping)" "root" 12500 10485760
           eq_refl eq_refl eq_refl eq_refl eq_refl eq_refl eq_refl eq_refl eq_refl).
Defined.

(** X8 on [linux_box]: the owner of process 40 cannot be read. *)
Lemma linux_record_of_denied_owner_witness :
  get_process_info (H:=linux_box) 40 0%nat
  = (Ok (RetDict (record_of_40 "psutil.AccessDenied (pid=40)")), 4%nat).
Proof.
  exact (@linux_record_of_denied_owner _ _ linux_box 40
           0%nat 2%nat 3%nat 4%nat
           [("Name", "proc40"); ("State", "S (sleeping)"); ("Pid", "40")]
           "proc40" "S (sleeping)" (mk_exn AccessDenied "psutil.AccessDenied (pid=40)")
           eq_refl eq_refl eq_refl eq_refl eq_refl eq_refl).
Defined.

(** X9 on [windows_box]: PowerShell ends with code 1 for process 7. *)
Lemma windows_unanswered_record_witness :
  on_windows (H:=windows_box) = true /\
  get_process_info (H:=windows_box) 7 0%nat
  = (Ok (RetDict (blank_record 7 "Unable to retrieve process information")), 1%nat).
Proof.
  split; [reflexivity|].
  exact (@windows_unanswered_record _ _ windows_box 7 0%nat eq_refl eq_refl).
Defined.

(** X10 on [linux_box]. *)
Lemma total_memory_reads_first_MemTotal_witness :
  _get_total_memory (H:=linux_box) 0%nat = (Ok (Some (16384000 * 1024)), 1%nat).
Proof.
  exact (@total_memory_reads_first_MemTotal _ _ linux_box 0%nat 1%nat []
           ["MemFree:         1024000 kB" ++ newline]
           ("MemTotal:       16384000 kB" ++ newline) "16384000" 16384000
           eq_refl eq_refl (Forall_nil _) eq_refl eq_refl eq_refl).
Defined.

(** X12 on [darwin_box]: the header line of [ps] is dropped. *)
Lemma darwin_pid_list_witness :
  String.eqb (os (H:=darwin_box)) "darwin" = true /\
  _get_pid_list (H:=darwin_box) 0%nat = (Ok [501; 1], 1%nat).
Proof.
  split; [reflexivity|].
  exact (@darwin_pid_list _ _ darwin_box 0%nat eq_refl).
Defined.

(** X13 on [powershell_box]: of the five ids listed, the first three are
    dropped. *)
Lemma windows_pid_list_witness :
  on_windows (H:=powershell_box) = true /\
  _get_pid_list (H:=powershell_box) 0%nat = (Ok [5120; 4242], 1%nat).
Proof.
  split; [reflexivity|].
  exact (@windows_pid_list _ _ powershell_box 0%nat eq_refl).
Defined.

(** X14 on [linux_box], where the entries with a name of digits are the
    directories. *)
Lemma linux_pid_list_witness :
  Str.startswith (os (H:=linux_box)) "linux" = true /\
  exists w', _get_pid_list (H:=linux_box) 0%nat = (Ok [50; 40; 30; 20; 10], w').
Proof.
  split; [reflexivity|].
  exact (proj1 (@linux_pid_list _ _ linux_box 0%nat 1%nat
                  ["30"; "self"; "10"; "50"; "cpuinfo"; "20"; "40"] Str.isdigit
                  eq_refl eq_refl
                  (fun name w => ex_intro _ (S w) eq_refl))).
Defined.

(** X15 on [small_report], with system information asked for: the
    fallback message is written, the metadata is not. *)
Lemma to_json_entries_witness :
  exists j procs,
    OutputFormatter.to_json small_report (Some (mk_args true true true)) = Ok j /\
    OutputFormatter.json_loads_text j
    = PDict [("processes", procs); ("system_info", OutputFormatter.no_system_info)] /\
    dict_get small_report "processes" = Some procs.
Proof.
  destruct (OutputFormatter.to_json small_report (Some (mk_args true true true)))
    as [j|e] eqn:Hj; [|discriminate].
  destruct (@to_json_entries _ small_report (mk_args true true true) j Hj)
    as (procs & Hentries & Hprocs).
  exists j, procs. split; [reflexivity|]. split; [exact Hentries|].
  apply Hprocs. reflexivity.
Defined.

(** X16 on [small_report], and on [uneven_report], whose first record has
    no [user]. *)
Lemma to_json_summary_mode_witness :
  OutputFormatter.to_json small_report (Some plain_args)
  = Ok (OutputFormatter.json_dumps
          (PDict [("processes",
                   PList (map (fun r => PDict (five_of r))
                            [record_of_pid 50; record_of_pid 30]))])) /\
  OutputFormatter.to_json uneven_report (Some plain_args)
  = Raise (mk_exn KeyError "'user'").
Proof.
  split.
  - exact (@to_json_summary_mode _ small_report plain_args
             [record_of_pid 50; record_of_pid 30] eq_refl eq_refl).
  - exact (@to_json_summary_mode _ uneven_report plain_args
             [[("pid", PInt 1); ("name", PStr "init")]; [("pid", PInt 2)]]
             eq_refl eq_refl).
Defined.

(** X17 on [small_report]. *)
Lemma to_csv_ignores_options_witness :
  OutputFormatter.to_csv small_report (Some (mk_args false true true))
  = OutputFormatter.to_csv
      [("processes", PList (map PDict [record_of_pid 50; record_of_pid 30]))]
      (Some plain_args).
Proof.
  exact (@to_csv_ignores_options _ small_report (mk_args false true true)
           (PList (map PDict [record_of_pid 50; record_of_pid 30])) eq_refl).
Defined.

(** X18 on [uneven_report]: the second record has no [name]. *)
Lemma to_csv_needs_the_first_keys_witness :
  OutputFormatter.to_csv uneven_report (Some advanced_args)
  = Raise (mk_exn KeyError "'name'").
Proof.
  exact (@to_csv_needs_the_first_keys _ uneven_report advanced_args
           [("pid", PInt 1); ("name", PStr "init")] [[("pid", PInt 2)]] "name"
           eq_refl eq_refl eq_refl).
Defined.

(** X19 on the record [to_dict] makes of [info_of_50], in advanced mode. *)
Lemma to_csv_of_to_dict_records_witness :
  ProcessInfo.to_dict info_of_50 = Ok (record_of_pid 50) /\
  OutputFormatter.to_csv [("processes", PList [PDict (record_of_pid 50)])]
    (Some advanced_args)
  = Ok ("pid,name,user,cpu_percent,memory_megabyte,status,accessible,error" ++ newline ++
        "50,proc50,root,12.5,10.0,S (sleeping),True,None").
Proof.
  split; [reflexivity|].
  apply (@to_csv_of_to_dict_records _
           [("processes", PList [PDict (record_of_pid 50)])] advanced_args
           [info_of_50] (record_of_pid 50) []);
    [constructor; [reflexivity|constructor]|reflexivity].
Defined.


(** X22 on [linux_box]: the loop ends at the line [EXIT now]. *)
Lemma interactive_returns_only_on_exit_witness :
  ProcessMonitorCLI.interactive (C:=MilliOrder.compare) (H:=linux_box) (M:=office)
    (K:=desk) linux_collector ["verbose"; "EXIT now"; "collect data"]
    ((default_args, []), 0%nat)
  = (Ok 0, ((ProcessMonitorCLI.set_verbose true default_args, []), 0%nat)) /\
  exists before line after,
    ["verbose"; "EXIT now"; "collect data"] = (before ++ line :: after)%list /\
    Str.contains "exit" (Str.lower line) = true /\
    Forall (fun l => Str.contains "exit" (Str.lower l) = false) before.
Proof.
  split; [reflexivity|].
  exact (proj2 (@interactive_returns_only_on_exit _ MilliOrder.compare _ linux_box
                  office desk linux_collector ["verbose"; "EXIT now"; "collect data"]
                  ((default_args, []), 0%nat)
                  ((ProcessMonitorCLI.set_verbose true default_args, []), 0%nat)
                  0 eq_refl)).
Defined.

Lemma ranked_records_ranked :
  ranked (C:=MilliOrder.compare) milli_rank (map memory_of ranked_records).
Proof.
  intros a b Ha Hb. simpl in Ha, Hb.
  destruct Ha as [<-|[<-|[<-|[]]]]; destruct Hb as [<-|[<-|[<-|[]]]]; reflexivity.
Qed.

(** X24 on three records: 7 (an integer) comes before 1.5, and the
    record without a figure, which counts for 0, comes last. *)
Lemma top_processes_sorted_witness :
  ProcessMonitorCLI.top_processes (C:=MilliOrder.compare) (map RetDict ranked_records)
  = Ok [[("pid", PInt 2); ("memory_megabyte", PInt 7)];
        [("pid", PInt 1); ("memory_megabyte", PFloat (1500 : @pyfloat Milli.float))];
        [("pid", PInt 3)]] /\
  exists top,
    ProcessMonitorCLI.top_processes (C:=MilliOrder.compare) (map RetDict ranked_records)
    = Ok top /\
    Permutation ranked_records top /\
    StronglySorted
      (fun d d' => milli_rank (memory_of d') <= milli_rank (memory_of d)) top.
Proof.
  split; [reflexivity|].
  exact (@top_processes_sorted _ MilliOrder.compare milli_rank ranked_records
           ranked_records_ranked).
Defined.

(** X25 on [linux_box]: five PIDs are found and probed, and
    [total_processes_found] is 4, the number of accessible ones. *)
Lemma report_metadata_witness :
  CollectorObject.__init__ (H:=linux_box) (M:=office) 0%nat
  = (Ok linux_collector, 2%nat) /\
  ProcessMonitorCLI.collect_and_format_data (C:=MilliOrder.compare) (H:=linux_box)
    (M:=office) linux_collector automation_args ([], 0%nat)
  = (Ok linux_report, ([], 56%nat)) /\
  exists pass w1 top,
    collect_pass (H:=linux_box) false 5 0%nat = (Ok pass, w1) /\
    dict_get linux_report "processes" = Some (PList (map PDict top)) /\
    Permutation (pass_processes pass) (map RetDict top) /\
    dict_get linux_report "metadata"
    = Some (PDict
              [("collection_timestamp", PNone);
               ("total_processes_found", PInt (Z.of_nat (List.length top)));
               ("accessible_processes", PInt (Z.of_nat (List.length top)));
               ("permission_denied",
                PInt (Z.of_nat (List.length (probed (pass_loop pass)))
                      - Z.of_nat (List.length top)))]) /\
    exists enumerated w2,
      _get_pid_list (H:=linux_box) 0%nat = (Ok enumerated, w2) /\
      probed (pass_loop pass) = pass_pids enumerated 5.
Proof.
  split; [reflexivity|]. split; [reflexivity|].
  exact (@report_metadata _ MilliOrder.compare _ linux_box office linux_collector
           automation_args [] 0%nat 0%nat 2%nat linux_report ([], 56%nat)
           eq_refl eq_refl).
Defined.

(** X26 on [darwin_box]. *)
Lemma macos_csv_export_fails_witness :
  exists w',
    ProcessMonitorCLI.run (C:=MilliOrder.compare) (H:=darwin_box) (M:=office) (K:=desk)
      darwin_collector [] ((csv_args, []), 0%nat)
    = (Raise (mk_exn ValueError "No process data passed."), ((csv_args, []), w')).
Proof.
  apply (@macos_csv_export_fails _ MilliOrder.compare _ darwin_box office desk
           darwin_collector [] csv_args [] 0%nat eq_refl eq_refl);
    [reflexivity|reflexivity|reflexivity|reflexivity].
Defined.

(** X27 on [desk]: the directory [out] is made and [out/processes.txt]
    opened before the error. *)
Lemma output_data_unknown_format_witness :
  ProcessMonitorCLI.output_data (K:=desk) linux_report (xml_args, 0%nat)
  = (Raise unbound_output_content,
     (ProcessMonitorCLI.set_file (Some "out/processes.txt") xml_args, 2%nat)).
Proof.
  assert (Hj : ProcessMonitorCLI.output xml_args <> "json") by discriminate.
  assert (Hc : ProcessMonitorCLI.output xml_args <> "csv") by discriminate.
  exact (@output_data_unknown_format _ _ desk linux_report xml_args 0%nat Hj Hc).
Defined.

(** X28 on [office], from the empty [info]. *)
Lemma get_system_info_keys_witness :
  info_filled 0 ([] : @pydict Milli.float) /\
  match SystemInfo.get_system_info (M:=office) ([], 0%nat) with
  | (Ok returned, (info', _)) => returned = info' /\ dict_keys info' = info_keys
  | (Raise _, (info', _)) => info_filled 0 info'
  end.
Proof.
  assert (Hstart : info_filled 0 ([] : @pydict Milli.float)).
  { exists 0%nat. split; [apply le_n|reflexivity]. }
  exact (conj Hstart (@get_system_info_keys _ _ office [] 0%nat Hstart)).
Defined.

(** X29 on [office], and on a machine with a drive that is not ready. *)
Lemma disk_info_entries_witness :
  option_map (map (fun d => dict_get d "device"))
    (returned (SystemInfo.get_disk_info (M:=office) 0%nat))
  = Some [Some (PStr "/dev/sda1")] /\
  exists s',
    SystemInfo.get_system_summary (M:=office_with_empty_drive) ([], 0%nat)
    = (Raise (mk_exn PermissionError "[WinError 21] The device is not ready"), s').
Proof.
  split.
  - pose proof (@disk_info_entries _ _ office 0%nat 1%nat
                  [SystemInfo.mk_sdiskpart "/dev/sda1" "/" "ext4"] eq_refl) as Hd.
    destruct (SystemInfo.get_disk_info (M:=office) 0%nat) as [[l|e] w'] eqn:Hrun.
    + simpl. now rewrite Hd.
    + discriminate.
  - pose proof (@disk_info_entries _ _ office_with_empty_drive 10%nat 11%nat
                  [SystemInfo.mk_sdiskpart "D:" "D:" "cdfs"] eq_refl) as Hd.
    change (SystemInfo.get_disk_info (M:=office_with_empty_drive) 10%nat)
      with (@Raise (list (@pydict Milli.float))
              (mk_exn PermissionError "[WinError 21] The device is not ready"), 12%nat)
      in Hd.
    destruct Hd as [_ Hsummary].
    exact (Hsummary [] _ 0%nat _ eq_refl).
Defined.

(** X30 on [office]: [tun0] has no address and is left out. *)
Lemma network_info_entries_witness :
  exists w',
    SystemInfo.get_network_info (M:=office) 0%nat
    = (Ok [[("interface", PStr "lo"); ("ip_address", PStr "127.0.0.1");
            ("netmask", PStr "255.0.0.0"); ("broadcast", PNone)]], w').
Proof.
  apply (@network_info_entries _ _ office
           [("lo", [SystemInfo.mk_snicaddr "127.0.0.1" (Some "255.0.0.0") None]);
            ("tun0", [])] 0%nat).
  - repeat (constructor; [simpl; intuition discriminate|]). constructor.
  - intros w. exists (S w). reflexivity.
Defined.
